(** * Fund subscription and balance engine of the funds service

    A shallow embedding of [backend/funds-service/main.py] (the handlers
    [subscribe_to_fund] and [cancel_subscription]) together with the parts of
    [backend/shared/models.py] and [backend/shared/database.py] they rely on;
    then the read endpoints [get_funds], [get_fund] and
    [get_user_transactions], and the rate limiter of [backend/shared/auth.py].

    Conventions of the embedding.
    - Money.  The handlers compute with [Decimal] and store [float].  The
      two handlers are embedded twice.  The first embedding takes every amount
      as a whole number of pesos ([Z]) and is used for what does not depend on
      how a number is rounded: which requests are accepted and with which
      error they are refused, the order of the checks, which documents are
      written and in which order, and what an outage leaves behind.  The
      module [Doubles] embeds the two handlers again with the numbers of the
      documents as IEEE 754 doubles and the amount of a request as a decimal,
      and with [Decimal(str(x))], the comparisons and the subtraction of
      [Decimal], [float(d)] and the addition of two floats computed as Python
      computes them; what a subscription and a cancellation do to the balance
      (C1, C2) is stated there.
    - Collections.  A MongoDB collection is the list of its documents in
      natural (insertion) order; [find_one] returns the first match,
      [update_one] and [delete_one] act on the first match, [insert_one]
      appends.
    - Exceptions.  A handler is a function from the database to an outcome
      and the database it leaves behind: writes performed before an exception
      stay performed, exactly as calls that are not given [session=...] are
      committed one by one by the driver.
    - The store can become unavailable: the environment of a request names at
      most one database call ([Site]) that raises instead of running. *)

From Stdlib Require Import ZArith List String Ascii Bool Lia SpecFloat.
From Stdlib Require Import Permutation Sorted.
Import ListNotations.
Open Scope string_scope.
Open Scope Z_scope.
Open Scope list_scope.

(** ** Documents ([shared/models.py] and the dictionaries built in the handlers) *)

(** [TransactionType] *)
Inductive TransactionType := SUBSCRIPTION | CANCELLATION.

(** A document of the [funds] collection, with the keys the funds service reads. *)
Record FundDoc := {
  fund_fund_id : Z;
  fund_name : string;
  fund_minimum_amount : Z;
  fund_category : string;
  fund_is_active : bool
}.

(** A document of the [users] collection: its [_id] (an ObjectId, kept as the
    lower-case hexadecimal digits of its bytes) and the balance. *)
Record UserDoc := {
  user_oid : string;
  user_balance : Z
}.

(** A document of [user_subscriptions]; [_id] is given by the store on insert. *)
Record SubscriptionDoc := {
  sub_oid : nat;
  sub_user_id : string;
  sub_fund_id : Z;
  sub_amount : Z;
  sub_is_active : bool;
  sub_created_at : Z
}.

(** A document of [transactions]. *)
Record TransactionDoc := {
  transaction_id : string;
  txn_user_id : string;
  txn_fund_id : Z;
  transaction_type : TransactionType;
  txn_amount : Z;
  balance_before : Z;
  balance_after : Z;
  txn_status : string;
  txn_created_at : Z
}.

Record Database := {
  funds : list FundDoc;
  users : list UserDoc;
  user_subscriptions : list SubscriptionDoc;
  transactions : list TransactionDoc
}.

(** [TokenData]: [verify_token] rejects a token without [sub], so [user_id]
    is always present when a handler runs. *)
Record TokenData := {
  user_id : string;
  email : string;
  role : string
}.

(** [SubscriptionRequest] and [CancellationRequest] *)
Record SubscriptionRequest := {
  fund_id : Z;
  amount : Z
}.

Record CancellationRequest := {
  cancel_fund_id : Z
}.

(** The validator of [SubscriptionRequest.amount]: [v <= 0] is refused, so the
    handler only ever sees positive amounts.  Most properties below are stated
    for every request record and do not need it. *)
Definition validate_amount (v : Z) : option Z :=
  if v <=? 0 then None else Some v.

(** [TransactionResponse] (the numeric fields are rendered with [str] in the
    source; they are kept as numbers here). *)
Record TransactionResponse := {
  resp_id : string;
  resp_fund_name : string;
  resp_transaction_type : TransactionType;
  resp_amount : Z;
  resp_balance_after : Z;
  resp_status : string;
  resp_created_at : Z
}.

(** ** Errors *)

(** The [detail] of each [HTTPException] raised by the two handlers, one
    constructor per message. *)
Inductive Detail :=
| FondoNoEncontrado (fid : Z)                (* "Fondo con ID ... no encontrado" *)
| MontoMinimo (minimum : Z)                  (* "El monto minimo para este fondo es ..." *)
| IdUsuarioInvalido                          (* "ID de usuario invalido" *)
| UsuarioNoEncontrado                        (* "Usuario no encontrado" *)
| SinSaldoDisponible (name : string)         (* "No tiene saldo disponible para vincularse al fondo ..." *)
| SuscripcionActivaExistente (name : string) (* "Ya tiene una suscripcion activa al fondo ..." *)
| SinSuscripcionActiva (name : string)       (* "No tiene suscripcion activa al fondo ..." *)
| ErrorProcesandoSuscripcion                 (* "Error procesando suscripcion" *)
| ErrorProcesandoCancelacion.                (* "Error procesando cancelacion" *)

Record HTTPException := {
  status_code : nat;
  detail : Detail
}.

Definition http_error (code : nat) (d : Detail) : HTTPException :=
  {| status_code := code; detail := d |}.

Definition HTTP_400_BAD_REQUEST : nat := 400.
Definition HTTP_404_NOT_FOUND : nat := 404.
Definition HTTP_500_INTERNAL_SERVER_ERROR : nat := 500.

(** What a handler body can raise: an [HTTPException] of its own, or an
    exception of the driver. *)
Inductive Exn :=
| Http (e : HTTPException)
| DuplicateKeyError
| ConnectionFailure.

(** ** The environment of one request *)

(** The database calls of the two handlers, in source order. *)
Inductive Site :=
| FindFund | FindUser | FindSubscription
| StartSession | InsertTransaction | UpdateBalance
| InsertSubscription | DeleteSubscription.

Definition Site_eqb (a b : Site) : bool :=
  match a, b with
  | FindFund, FindFund | FindUser, FindUser
  | FindSubscription, FindSubscription | StartSession, StartSession
  | InsertTransaction, InsertTransaction | UpdateBalance, UpdateBalance
  | InsertSubscription, InsertSubscription
  | DeleteSubscription, DeleteSubscription => true
  | _, _ => false
  end.

(** What the handler obtains from outside the database: the value of
    [uuid.uuid4()], the event-loop clock when the ledger record is built
    ([loop_time], lines 300 and 422) and when the subscription document is built
    ([later_loop_time], line 322), and the call (if any) at which the store is
    unavailable. *)
Record Env := {
  uuid4 : string;
  loop_time : Z;
  later_loop_time : Z;
  outage : option Site
}.

(** ** Handlers as state-and-exception computations *)

Definition Handler (A : Type) : Type := Database -> (Exn + A) * Database.

Definition ret {A} (a : A) : Handler A := fun db => (inr a, db).

Definition raise {A} (e : Exn) : Handler A := fun db => (inl e, db).

Definition bind {A B} (m : Handler A) (k : A -> Handler B) : Handler B :=
  fun db =>
    match m db with
    | (inl e, db') => (inl e, db')
    | (inr a, db') => k a db'
    end.

Notation "x <- m ;; k" := (bind m (fun x => k))
  (at level 61, m at next level, right associativity).
Notation "m ;;; k" := (bind m (fun _ => k))
  (at level 61, right associativity).

Definition read {A} (f : Database -> A) : Handler A := fun db => (inr (f db), db).

Definition write (f : Database -> Database) : Handler unit :=
  fun db => (inr tt, f db).

(** [raise HTTPException(status_code=..., detail=...)] *)
Definition raise_http {A} (code : nat) (d : Detail) : Handler A :=
  raise (Http {| status_code := code; detail := d |}).

(** A database call at site [s]: it raises when the store is down there. *)
Definition await (env : Env) (s : Site) : Handler unit :=
  match outage env with
  | Some s' => if Site_eqb s s' then raise ConnectionFailure else ret tt
  | None => ret tt
  end.

(** ** Collection primitives *)

Definition find_one {A} (p : A -> bool) (coll : list A) : option A := find p coll.

Fixpoint update_one {A} (p : A -> bool) (f : A -> A) (coll : list A) : list A :=
  match coll with
  | [] => []
  | x :: rest => if p x then f x :: rest else x :: update_one p f rest
  end.

Fixpoint delete_one {A} (p : A -> bool) (coll : list A) : list A :=
  match coll with
  | [] => []
  | x :: rest => if p x then rest else x :: delete_one p rest
  end.

(** Filters used by the handlers. *)
Definition active_fund_filter (fid : Z) (f : FundDoc) : bool :=
  (fund_fund_id f =? fid) && fund_is_active f.

Definition fund_filter (fid : Z) (f : FundDoc) : bool :=
  fund_fund_id f =? fid.

Definition user_filter (oid : string) (u : UserDoc) : bool :=
  String.eqb (user_oid u) oid.

Definition active_subscription_filter (uid : string) (fid : Z) (s : SubscriptionDoc) : bool :=
  String.eqb (sub_user_id s) uid && (sub_fund_id s =? fid) && sub_is_active s.

Definition subscription_oid_filter (oid : nat) (s : SubscriptionDoc) : bool :=
  Nat.eqb (sub_oid s) oid.

(** The unique index of [user_subscriptions] on [(user_id, fund_id)]
    ([DatabaseManager._create_indexes]): two documents collide when they agree
    on both keys, whatever their [is_active]. *)
Definition same_index_key (uid : string) (fid : Z) (s : SubscriptionDoc) : bool :=
  String.eqb (sub_user_id s) uid && (sub_fund_id s =? fid).

(** The [_id] the store gives to a new subscription document: one that no
    document of the collection carries. *)
Definition fresh_oid (coll : list SubscriptionDoc) : nat :=
  S (fold_right Nat.max 0%nat (map sub_oid coll)).

(** [ObjectId(s)] for a string: the length must be 24 and [bytes.fromhex]
    must accept it; the value is the bytes read, kept here as their lower-case
    hexadecimal digits.  [bytes.fromhex] skips ASCII whitespace before each
    byte and wants the two digits of a byte next to each other, so besides the
    24-digit ids of real documents it accepts 24-character strings with
    whitespace in them, which denote fewer than 12 bytes and the [_id] of no
    document the store has made. *)
Definition is_hex_digit (c : ascii) : bool :=
  let n := nat_of_ascii c in
  ((48 <=? n) && (n <=? 57) || (97 <=? n) && (n <=? 102) || (65 <=? n) && (n <=? 70))%nat.

Definition lower_hex (c : ascii) : ascii :=
  let n := nat_of_ascii c in
  if ((65 <=? n) && (n <=? 70))%nat then ascii_of_nat (n + 32) else c.

Definition is_ascii_space (c : ascii) : bool :=
  let n := nat_of_ascii c in
  (Nat.eqb n 32 || (9 <=? n) && (n <=? 13))%nat.

Fixpoint fromhex (cs : list ascii) : option (list ascii) :=
  match cs with
  | [] => Some []
  | c :: rest =>
      if is_ascii_space c then fromhex rest
      else
        match rest with
        | d :: rest' =>
            if is_hex_digit c && is_hex_digit d
            then option_map (fun bytes => lower_hex c :: lower_hex d :: bytes)
                            (fromhex rest')
            else None
        | [] => None
        end
  end.

Definition ObjectId (s : string) : option string :=
  let cs := list_ascii_of_string s in
  if Nat.eqb (List.length cs) 24
  then option_map string_of_list_ascii (fromhex cs)
  else None.

Definition with_transactions (db : Database) (l : list TransactionDoc) : Database :=
  {| funds := funds db; users := users db;
     user_subscriptions := user_subscriptions db; transactions := l |}.

Definition with_users (db : Database) (l : list UserDoc) : Database :=
  {| funds := funds db; users := l;
     user_subscriptions := user_subscriptions db; transactions := transactions db |}.

Definition with_user_subscriptions (db : Database) (l : list SubscriptionDoc) : Database :=
  {| funds := funds db; users := users db;
     user_subscriptions := l; transactions := transactions db |}.

(** [db[TRANSACTIONS].insert_one(transaction)] *)
Definition insert_transaction (t : TransactionDoc) : Handler unit :=
  write (fun db => with_transactions db (transactions db ++ [t])).

(** [db[USERS].update_one({"_id": object_id}, {"$set": {"balance": b}})] *)
Definition set_balance (oid : string) (b : Z) : Handler unit :=
  write (fun db =>
    with_users db
      (update_one (user_filter oid)
         (fun u => {| user_oid := user_oid u; user_balance := b |}) (users db))).

(** [db[USER_SUBSCRIPTIONS].insert_one(subscription_doc)], refused by the
    unique index when a document with the same [(user_id, fund_id)] exists. *)
Definition insert_subscription (uid : string) (fid amt created : Z) : Handler unit :=
  fun db =>
    if existsb (same_index_key uid fid) (user_subscriptions db)
    then (inl DuplicateKeyError, db)
    else (inr tt,
          with_user_subscriptions db
            (user_subscriptions db ++
               [{| sub_oid := fresh_oid (user_subscriptions db);
                   sub_user_id := uid; sub_fund_id := fid; sub_amount := amt;
                   sub_is_active := true; sub_created_at := created |}])).

(** [db[USER_SUBSCRIPTIONS].delete_one({"_id": oid})] *)
Definition delete_subscription (oid : nat) : Handler unit :=
  write (fun db =>
    with_user_subscriptions db
      (delete_one (subscription_oid_filter oid) (user_subscriptions db))).

(** [try: ... except HTTPException: raise; except Exception: raise
    HTTPException(500, generic)]: the shape of both handlers. *)
Definition except_handler {A} (generic : Detail) (body : Handler A)
  : Database -> (HTTPException + A) * Database :=
  fun db =>
    match body db with
    | (inl (Http e), db') => (inl e, db')
    | (inl _, db') =>
        (inl {| status_code := HTTP_500_INTERNAL_SERVER_ERROR; detail := generic |}, db')
    | (inr a, db') => (inr a, db')
    end.

(** The inner [try] around the user lookup: any exception of [ObjectId] or
    of [find_one] becomes a 400. *)
Definition lookup_user (env : Env) (current_user : TokenData)
  : Handler (string * option UserDoc) :=
  fun db =>
    match ObjectId (user_id current_user) with
    | None => raise_http HTTP_400_BAD_REQUEST IdUsuarioInvalido db
    | Some object_id =>
        match await env FindUser db with
        | (inl _, db') => raise_http HTTP_400_BAD_REQUEST IdUsuarioInvalido db'
        | (inr _, db') =>
            (inr (object_id, find_one (user_filter object_id) (users db')), db')
        end
    end.

(** ** [subscribe_to_fund] *)

(** The local variables of [subscribe_to_fund] that are live when the
    session is opened (line 305). *)
Record SubscribeLocals := {
  sl_fund : FundDoc;
  sl_amount_decimal : Z;
  sl_object_id : string;
  sl_user_balance_decimal : Z;
  sl_transaction : TransactionDoc
}.

(** Lines 226-302: the reads, the validations and the transaction document. *)
Definition subscribe_validate (env : Env) (current_user : TokenData)
    (subscription : SubscriptionRequest) : Handler SubscribeLocals :=
  await env FindFund ;;;
  fund <- read (fun db => find_one (active_fund_filter (fund_id subscription)) (funds db)) ;;
  match fund with
  | None => raise_http HTTP_404_NOT_FOUND (FondoNoEncontrado (fund_id subscription))
  | Some fund =>
      let amount_decimal := amount subscription in
      if amount_decimal <? fund_minimum_amount fund
      then raise_http HTTP_400_BAD_REQUEST (MontoMinimo (fund_minimum_amount fund))
      else
        ou <- lookup_user env current_user ;;
        let '(object_id, user) := ou in
        match user with
        | None => raise_http HTTP_404_NOT_FOUND UsuarioNoEncontrado
        | Some user =>
            let user_balance_decimal := user_balance user in
            if user_balance_decimal <? amount_decimal
            then raise_http HTTP_400_BAD_REQUEST (SinSaldoDisponible (fund_name fund))
            else
              await env FindSubscription ;;;
              existing_subscription <-
                read (fun db =>
                  find_one (active_subscription_filter (user_id current_user)
                              (fund_id subscription))
                           (user_subscriptions db)) ;;
              match existing_subscription with
              | Some _ =>
                  raise_http HTTP_400_BAD_REQUEST
                    (SuscripcionActivaExistente (fund_name fund))
              | None =>
                  ret {| sl_fund := fund;
                         sl_amount_decimal := amount_decimal;
                         sl_object_id := object_id;
                         sl_user_balance_decimal := user_balance_decimal;
                         sl_transaction :=
                           {| transaction_id := uuid4 env;
                              txn_user_id := user_id current_user;
                              txn_fund_id := fund_id subscription;
                              transaction_type := SUBSCRIPTION;
                              txn_amount := amount_decimal;
                              balance_before := user_balance_decimal;
                              balance_after := user_balance_decimal - amount_decimal;
                              txn_status := "completed";
                              txn_created_at := loop_time env |} |}
              end
        end
  end.

(** Lines 304-327: the session block.  None of the three writes is passed
    the session, so each one takes effect when it runs and
    [commit_transaction] has nothing to commit. *)
Definition subscribe_apply (env : Env) (current_user : TokenData)
    (subscription : SubscriptionRequest) (l : SubscribeLocals) : Handler unit :=
  await env StartSession ;;;
  await env InsertTransaction ;;;
  insert_transaction (sl_transaction l) ;;;
  await env UpdateBalance ;;;
  set_balance (sl_object_id l) (sl_user_balance_decimal l - sl_amount_decimal l) ;;;
  await env InsertSubscription ;;;
  insert_subscription (user_id current_user) (fund_id subscription)
    (sl_amount_decimal l) (later_loop_time env).

(** Lines 336-344. *)
Definition subscribe_response (l : SubscribeLocals) : TransactionResponse :=
  {| resp_id := transaction_id (sl_transaction l);
     resp_fund_name := fund_name (sl_fund l);
     resp_transaction_type := SUBSCRIPTION;
     resp_amount := sl_amount_decimal l;
     resp_balance_after := sl_user_balance_decimal l - sl_amount_decimal l;
     resp_status := "completed";
     resp_created_at := txn_created_at (sl_transaction l) |}.

Definition subscribe_to_fund (env : Env) (current_user : TokenData)
    (subscription : SubscriptionRequest)
  : Database -> (HTTPException + TransactionResponse) * Database :=
  except_handler ErrorProcesandoSuscripcion
    (l <- subscribe_validate env current_user subscription ;;
     subscribe_apply env current_user subscription l ;;;
     ret (subscribe_response l)).

(** ** [cancel_subscription] *)

Record CancelLocals := {
  cl_fund : FundDoc;
  cl_subscription : SubscriptionDoc;
  cl_object_id : string;
  cl_user : UserDoc;
  cl_transaction : TransactionDoc
}.

(** Lines 370-424. *)
Definition cancel_validate (env : Env) (current_user : TokenData)
    (cancellation : CancellationRequest) : Handler CancelLocals :=
  await env FindFund ;;;
  fund <- read (fun db => find_one (fund_filter (cancel_fund_id cancellation)) (funds db)) ;;
  match fund with
  | None => raise_http HTTP_404_NOT_FOUND (FondoNoEncontrado (cancel_fund_id cancellation))
  | Some fund =>
      await env FindSubscription ;;;
      subscription <-
        read (fun db =>
          find_one (active_subscription_filter (user_id current_user)
                      (cancel_fund_id cancellation))
                   (user_subscriptions db)) ;;
      match subscription with
      | None => raise_http HTTP_404_NOT_FOUND (SinSuscripcionActiva (fund_name fund))
      | Some subscription =>
          ou <- lookup_user env current_user ;;
          let '(object_id, user) := ou in
          match user with
          | None => raise_http HTTP_404_NOT_FOUND UsuarioNoEncontrado
          | Some user =>
              ret {| cl_fund := fund;
                     cl_subscription := subscription;
                     cl_object_id := object_id;
                     cl_user := user;
                     cl_transaction :=
                       {| transaction_id := uuid4 env;
                          txn_user_id := user_id current_user;
                          txn_fund_id := cancel_fund_id cancellation;
                          transaction_type := CANCELLATION;
                          txn_amount := sub_amount subscription;
                          balance_before := user_balance user;
                          balance_after := user_balance user + sub_amount subscription;
                          txn_status := "completed";
                          txn_created_at := loop_time env |} |}
          end
      end
  end.

(** Lines 426-443; as in [subscribe_apply], no write is given the session. *)
Definition cancel_apply (env : Env) (l : CancelLocals) : Handler unit :=
  await env StartSession ;;;
  await env InsertTransaction ;;;
  insert_transaction (cl_transaction l) ;;;
  await env UpdateBalance ;;;
  set_balance (cl_object_id l)
    (user_balance (cl_user l) + sub_amount (cl_subscription l)) ;;;
  await env DeleteSubscription ;;;
  delete_subscription (sub_oid (cl_subscription l)).

(** Lines 452-460. *)
Definition cancel_response (l : CancelLocals) : TransactionResponse :=
  {| resp_id := transaction_id (cl_transaction l);
     resp_fund_name := fund_name (cl_fund l);
     resp_transaction_type := CANCELLATION;
     resp_amount := sub_amount (cl_subscription l);
     resp_balance_after := user_balance (cl_user l) + sub_amount (cl_subscription l);
     resp_status := "completed";
     resp_created_at := txn_created_at (cl_transaction l) |}.

Definition cancel_subscription (env : Env) (current_user : TokenData)
    (cancellation : CancellationRequest)
  : Database -> (HTTPException + TransactionResponse) * Database :=
  except_handler ErrorProcesandoCancelacion
    (l <- cancel_validate env current_user cancellation ;;
     cancel_apply env l ;;;
     ret (cancel_response l)).

(** ** What [get_user_balance] reads *)

(** [user["balance"]] of the account behind a token. *)
Definition balance_of (uid : string) (db : Database) : option Z :=
  match ObjectId uid with
  | None => None
  | Some object_id =>
      option_map user_balance (find_one (user_filter object_id) (users db))
  end.

(** [find({"user_id": ..., "is_active": True})] *)
Definition active_subscriptions_of (uid : string) (db : Database) : list SubscriptionDoc :=
  filter (fun s => String.eqb (sub_user_id s) uid && sub_is_active s)
         (user_subscriptions db).

(** [total_invested = sum(sub["amount"] for sub in subscriptions)] *)
Definition total_invested (uid : string) (db : Database) : Z :=
  fold_right Z.add 0 (map sub_amount (active_subscriptions_of uid db)).

(** The active subscriptions of one account to one fund. *)
Definition active_subscriptions_to (uid : string) (fid : Z) (db : Database)
  : list SubscriptionDoc :=
  filter (active_subscription_filter uid fid) (user_subscriptions db).

(** All documents, active or not, of one account for one fund. *)
Definition subscription_documents (uid : string) (fid : Z) (db : Database)
  : list SubscriptionDoc :=
  filter (same_index_key uid fid) (user_subscriptions db).

(** ** Sample data *)

Definition alice : TokenData :=
  {| user_id := "64f0c2a1b3d4e5f601234567";
     email := "alice@example.com"; role := "client" |}.

Definition recaudadora : FundDoc :=
  {| fund_fund_id := 1; fund_name := "FPV_BTG_PACTUAL_RECAUDADORA";
     fund_minimum_amount := 75000; fund_category := "FPV"; fund_is_active := true |}.

Definition deudaprivada : FundDoc :=
  {| fund_fund_id := 3; fund_name := "DEUDAPRIVADA";
     fund_minimum_amount := 50000; fund_category := "FIC"; fund_is_active := true |}.

Definition db0 : Database :=
  {| funds := [recaudadora; deudaprivada];
     users := [{| user_oid := "64f0c2a1b3d4e5f601234567"; user_balance := 500000 |}];
     user_subscriptions := [];
     transactions := [] |}.

(** [db0] after Alice has put 75000 into fund 1. *)
Definition db1 : Database :=
  {| funds := [recaudadora; deudaprivada];
     users := [{| user_oid := "64f0c2a1b3d4e5f601234567"; user_balance := 425000 |}];
     user_subscriptions :=
       [{| sub_oid := 1; sub_user_id := "64f0c2a1b3d4e5f601234567"; sub_fund_id := 1;
           sub_amount := 75000; sub_is_active := true; sub_created_at := 11 |}];
     transactions :=
       [{| transaction_id := "t1"; txn_user_id := "64f0c2a1b3d4e5f601234567";
           txn_fund_id := 1; transaction_type := SUBSCRIPTION; txn_amount := 75000;
           balance_before := 500000; balance_after := 425000;
           txn_status := "completed"; txn_created_at := 10 |}] |}.


(** A catalog in which fund 2 exists and is switched off. *)
Definition ecopetrol_inactive : FundDoc :=
  {| fund_fund_id := 2; fund_name := "FPV_BTG_PACTUAL_ECOPETROL";
     fund_minimum_amount := 125000; fund_category := "FPV"; fund_is_active := false |}.

Definition db_inactive : Database :=
  {| funds := [recaudadora; ecopetrol_inactive; deudaprivada];
     users := users db0;
     user_subscriptions := [];
     transactions := [] |}.

(** [db0] with a closed (inactive) subscription document of Alice for fund 1:
    a document of the shape [UserSubscription] allows, invisible to the
    [is_active: True] queries and still held by the unique index. *)
Definition db_stale : Database :=
  {| funds := funds db0;
     users := users db0;
     user_subscriptions :=
       [{| sub_oid := 1; sub_user_id := "64f0c2a1b3d4e5f601234567"; sub_fund_id := 1;
           sub_amount := 75000; sub_is_active := false; sub_created_at := 5 |}];
     transactions := [] |}.


Definition quiet (id : string) (t : Z) : Env :=
  {| uuid4 := id; loop_time := t; later_loop_time := t + 1; outage := None |}.

Definition down_at (id : string) (t : Z) (s : Site) : Env :=
  {| uuid4 := id; loop_time := t; later_loop_time := t + 1; outage := Some s |}.

(** The database a completed write phase of [subscribe_to_fund] leaves. *)
Definition subscribed (u : TokenData) (r : SubscriptionRequest) (l : SubscribeLocals)
    (created : Z) (db : Database) : Database :=
  {| funds := funds db;
     users := update_one (user_filter (sl_object_id l))
                (fun x => {| user_oid := user_oid x;
                             user_balance := sl_user_balance_decimal l - sl_amount_decimal l |})
                (users db);
     user_subscriptions :=
       user_subscriptions db ++
         [{| sub_oid := fresh_oid (user_subscriptions db);
             sub_user_id := user_id u; sub_fund_id := fund_id r;
             sub_amount := sl_amount_decimal l;
             sub_is_active := true; sub_created_at := created |}];
     transactions := transactions db ++ [sl_transaction l] |}.

(** The database a completed write phase of [cancel_subscription] leaves. *)
Definition cancelled (l : CancelLocals) (db : Database) : Database :=
  {| funds := funds db;
     users := update_one (user_filter (cl_object_id l))
                (fun x => {| user_oid := user_oid x;
                             user_balance :=
                               user_balance (cl_user l) + sub_amount (cl_subscription l) |})
                (users db);
     user_subscriptions :=
       delete_one (subscription_oid_filter (sub_oid (cl_subscription l)))
                  (user_subscriptions db);
     transactions := transactions db ++ [cl_transaction l] |}.

(** ** Invariants of the subscription registry *)

Definition index_key (s : SubscriptionDoc) : string * Z :=
  (sub_user_id s, sub_fund_id s).

(** What the store guarantees of [user_subscriptions]: [_id] is unique, and so
    is [(user_id, fund_id)] (the unique index of [_create_indexes]). *)
Definition registry_ok (db : Database) : Prop :=
  NoDup (map sub_oid (user_subscriptions db)) /\
  NoDup (map index_key (user_subscriptions db)).

(** Every document of the registry is active: the handlers insert documents
    with [is_active = True] and never change the flag. *)
Definition all_active (db : Database) : Prop :=
  Forall (fun s => sub_is_active s = true) (user_subscriptions db).

(** ** Sequences of operations of one account *)

Inductive Operation :=
| Subscribe (env : Env) (subscription : SubscriptionRequest)
| Cancel (env : Env) (cancellation : CancellationRequest).

Definition perform (current_user : TokenData) (op : Operation) (db : Database)
  : (HTTPException + TransactionResponse) * Database :=
  match op with
  | Subscribe env subscription => subscribe_to_fund env current_user subscription db
  | Cancel env cancellation => cancel_subscription env current_user cancellation db
  end.

Definition perform_all (current_user : TokenData) (ops : list Operation) (db : Database)
  : Database :=
  fold_left (fun d op => snd (perform current_user op d)) ops db.

Definition op_env (op : Operation) : Env :=
  match op with
  | Subscribe env _ => env
  | Cancel env _ => env
  end.

Definition sum_amounts (l : list SubscriptionDoc) : Z :=
  fold_right Z.add 0 (map sub_amount l).

(** What [get_user_balance] reports, added up: the cash balance plus the total
    invested. *)
Definition holdings (uid : string) (db : Database) : option Z :=
  option_map (fun b => b + total_invested uid db) (balance_of uid db).

(** ** Interleaved requests

    Every [await] of a handler is a point where the event loop may run another
    request.  The interleavings used below switch at one such point only: the
    opening of the session (line 305), after all reads and before all
    writes. *)

Inductive Task :=
| Received (env : Env) (current_user : TokenData) (subscription : SubscriptionRequest)
| Validated (env : Env) (current_user : TokenData) (subscription : SubscriptionRequest)
            (l : SubscribeLocals)
| Responded (r : HTTPException + TransactionResponse).

Definition advance (t : Task) (db : Database) : Task * Database :=
  match t with
  | Received env u r =>
      match except_handler ErrorProcesandoSuscripcion (subscribe_validate env u r) db with
      | (inl e, db') => (Responded (inl e), db')
      | (inr l, db') => (Validated env u r l, db')
      end
  | Validated env u r l =>
      let '(res, db') :=
        except_handler ErrorProcesandoSuscripcion
          (subscribe_apply env u r l ;;; ret (subscribe_response l)) db in
      (Responded res, db')
  | Responded r => (t, db)
  end.





Definition nonnegative_balances (db : Database) : Prop :=
  Forall (fun x => 0 <= user_balance x) (users db).


(** ** The read endpoints of the funds service *)

(** [FundResponse] ([min_amount] is rendered with [str] in the source). *)
Record FundResponse := {
  fr_id : Z;
  fr_name : string;
  fr_min_amount : Z;
  fr_category : string;
  fr_is_active : bool
}.

(** The [detail] of the errors of the read endpoints and of the rate limit:
    those shared with the two write handlers, and their own. *)
Inductive QueryDetail :=
| Shared (d : Detail)
| ErrorObteniendoFondos            (* "Error obteniendo fondos" *)
| ErrorObteniendoFondo             (* "Error obteniendo fondo" *)
| ErrorObteniendoTransacciones     (* "Error obteniendo transacciones" *)
| DemasiadasRequests.              (* "Demasiadas requests. Intente mas tarde." *)

Record QueryError := {
  query_status : nat;
  query_detail : QueryDetail
}.

Definition query_error (code : nat) (d : QueryDetail) : QueryError :=
  {| query_status := code; query_detail := d |}.

Definition HTTP_429_TOO_MANY_REQUESTS : nat := 429.

(** The database calls of the read endpoints; the calls made inside a loop
    carry the index of the iteration. *)
Inductive ReadSite :=
| ListFunds | GetFund
| LedgerFind | LedgerFund (k : nat).

Definition ReadSite_eqb (a b : ReadSite) : bool :=
  match a, b with
  | ListFunds, ListFunds | GetFund, GetFund | LedgerFind, LedgerFind => true
  | LedgerFund i, LedgerFund j => Nat.eqb i j
  | _, _ => false
  end.

(** Whether the store is down at a call, [down] naming the call (if any) at
    which it is. *)
Definition down_at_site (down : option ReadSite) (s : ReadSite) : bool :=
  match down with
  | Some s' => ReadSite_eqb s s'
  | None => false
  end.

Definition fund_response (fund : FundDoc) : FundResponse :=
  {| fr_id := fund_fund_id fund;
     fr_name := fund_name fund;
     fr_min_amount := fund_minimum_amount fund;
     fr_category := fund_category fund;
     fr_is_active := fund_is_active fund |}.

(** [get_funds]: [find({"is_active": True})], one response per document. *)
Definition get_funds (down : option ReadSite) (db : Database)
  : QueryError + list FundResponse :=
  if down_at_site down ListFunds
  then inl (query_error HTTP_500_INTERNAL_SERVER_ERROR ErrorObteniendoFondos)
  else inr (map fund_response (filter fund_is_active (funds db))).

(** [get_fund] *)
Definition get_fund (down : option ReadSite) (fid : Z) (db : Database)
  : QueryError + FundResponse :=
  if down_at_site down GetFund
  then inl (query_error HTTP_500_INTERNAL_SERVER_ERROR ErrorObteniendoFondo)
  else
    match find_one (active_fund_filter fid) (funds db) with
    | None => inl (query_error HTTP_404_NOT_FOUND (Shared (FondoNoEncontrado fid)))
    | Some fund => inr (fund_response fund)
    end.

(** [fund["name"] if fund else "Fondo no encontrado"], the fund looked up by
    [{"fund_id": ...}] alone. *)
Definition fund_name_or_default (fid : Z) (db : Database) : string :=
  match find_one (fund_filter fid) (funds db) with
  | Some fund => fund_name fund
  | None => "Fondo no encontrado"
  end.

(** [.sort("created_at", -1)]: newest first.  The store does not say how it
    orders documents with equal [created_at]; this sort keeps them in
    collection order, and the properties below do not depend on that. *)
Fixpoint insert_newest (t : TransactionDoc) (l : list TransactionDoc)
  : list TransactionDoc :=
  match l with
  | [] => [t]
  | x :: rest =>
      if txn_created_at x <=? txn_created_at t then t :: x :: rest
      else x :: insert_newest t rest
  end.

Definition sort_newest_first (l : list TransactionDoc) : list TransactionDoc :=
  fold_right insert_newest [] l.

(** [a] comes before [b] in a list ordered newest first. *)
Definition not_older (a b : TransactionDoc) : Prop :=
  txn_created_at b <= txn_created_at a.

(** [find({"user_id": ...})] on the ledger. *)
Definition ledger_of (uid : string) (db : Database) : list TransactionDoc :=
  filter (fun t => String.eqb (txn_user_id t) uid) (transactions db).

Definition transaction_response (db : Database) (trans : TransactionDoc)
  : TransactionResponse :=
  {| resp_id := transaction_id trans;
     resp_fund_name := fund_name_or_default (txn_fund_id trans) db;
     resp_transaction_type := transaction_type trans;
     resp_amount := txn_amount trans;
     resp_balance_after := balance_after trans;
     resp_status := txn_status trans;
     resp_created_at := txn_created_at trans |}.

(** The loop of [get_user_transactions], from iteration [k]. *)
Fixpoint name_transactions (down : option ReadSite) (db : Database) (k : nat)
    (l : list TransactionDoc) : option (list TransactionResponse) :=
  match l with
  | [] => Some []
  | trans :: rest =>
      if down_at_site down (LedgerFund k) then None
      else option_map (cons (transaction_response db trans))
                      (name_transactions down db (S k) rest)
  end.

(** [get_user_transactions]: it looks at the ledger only, never at [users]. *)
Definition get_user_transactions (down : option ReadSite) (current_user : TokenData)
    (db : Database) : QueryError + list TransactionResponse :=
  if down_at_site down LedgerFind
  then inl (query_error HTTP_500_INTERNAL_SERVER_ERROR ErrorObteniendoTransacciones)
  else
    match name_transactions down db 0
            (sort_newest_first (ledger_of (user_id current_user) db)) with
    | None => inl (query_error HTTP_500_INTERNAL_SERVER_ERROR ErrorObteniendoTransacciones)
    | Some transaction_responses => inr transaction_responses
    end.

(** Requests as the handlers receive them: the amount passed the validator. *)
Definition valid_operation (op : Operation) : Prop :=
  match op with
  | Subscribe _ subscription =>
      validate_amount (amount subscription) = Some (amount subscription)
  | Cancel _ _ => True
  end.

Definition nonnegative_amounts (db : Database) : Prop :=
  Forall (fun s => 0 <= sub_amount s) (user_subscriptions db).

(** All subscription documents, active or not, of one account. *)
Definition documents_of (uid : string) (db : Database) : list SubscriptionDoc :=
  filter (fun s => String.eqb (sub_user_id s) uid) (user_subscriptions db).

(** ** The rate limiter ([shared/auth.py]) *)

(** [RateLimiter.requests]: for each user id seen, the times of the requests
    let through and not yet pruned.  Times are in microseconds. *)
Definition RateLimiter : Type := string -> option (list Z).

Definition no_requests : RateLimiter := fun _ => None.

Definition timedelta_minutes_1 : Z := 60000000.

Definition set_requests (uid : string) (l : list Z) (self : RateLimiter) : RateLimiter :=
  fun k => if String.eqb k uid then Some l else self k.

Definition requests_of (uid : string) (self : RateLimiter) : list Z :=
  match self uid with
  | Some l => l
  | None => []
  end.

(** [RateLimiter.is_allowed], [rate_limit_per_minute] being the setting and
    [now] the value of [datetime.utcnow()]. *)
Definition is_allowed (rate_limit_per_minute : Z) (now : Z) (uid : string)
    (self : RateLimiter) : bool * RateLimiter :=
  let minute_ago := now - timedelta_minutes_1 in
  let recent := filter (fun req_time => minute_ago <? req_time) (requests_of uid self) in
  if rate_limit_per_minute <=? Z.of_nat (List.length recent)
  then (false, set_requests uid recent self)
  else (true, set_requests uid (recent ++ [now]) self).

(** [check_rate_limit] *)
Definition check_rate_limit (rate_limit_per_minute : Z) (now : Z)
    (current_user : TokenData) (self : RateLimiter)
  : (QueryError + TokenData) * RateLimiter :=
  let '(allowed, self') := is_allowed rate_limit_per_minute now (user_id current_user) self in
  if allowed then (inr current_user, self')
  else (inl (query_error HTTP_429_TOO_MANY_REQUESTS DemasiadasRequests), self').

(** A run of requests [(now, user id)] through the limiter: the answers, and
    the limiter at the end. *)
Fixpoint serve (rate_limit_per_minute : Z) (calls : list (Z * string))
    (self : RateLimiter) : list bool * RateLimiter :=
  match calls with
  | [] => ([], self)
  | (now, uid) :: rest =>
      let '(a, self') := is_allowed rate_limit_per_minute now uid self in
      let '(answers, self'') := serve rate_limit_per_minute rest self' in
      (a :: answers, self'')
  end.

(** The times of the requests of [uid] that were let through. *)
Fixpoint allowed_times (uid : string) (calls : list (Z * string)) (answers : list bool)
  : list Z :=
  match calls, answers with
  | (now, u) :: rest, a :: more =>
      if a && String.eqb u uid then now :: allowed_times uid rest more
      else allowed_times uid rest more
  | _, _ => []
  end.

(** The clock does not go back. *)
Fixpoint nondecreasing (from : Z) (calls : list (Z * string)) : Prop :=
  match calls with
  | [] => True
  | (now, _) :: rest => from <= now /\ nondecreasing now rest
  end.

(** The time of the last request of a run, [from] when there is none. *)
Fixpoint last_time (from : Z) (calls : list (Z * string)) : Z :=
  match calls with
  | [] => from
  | (now, _) :: rest => last_time now rest
  end.

(** What a run keeps true of the stored times of one user: they are the
    requests let through so far ([history]) that are later than some instant at
    least a minute before the last request, none is later than the last
    request, and they are at most [rate_limit_per_minute]. *)
Definition limiter_invariant (rate_limit_per_minute : Z) (uid : string)
    (self : RateLimiter) (history : list Z) (t : Z) : Prop :=
  (forall x, In x history -> x <= t) /\
  exists m, m <= t - timedelta_minutes_1 /\
            requests_of uid self = filter (fun x => m <? x) history /\
            Z.of_nat (List.length (requests_of uid self)) <= Z.max 0 rate_limit_per_minute.

(** The answers of a run that went to the requests of [uid]. *)
Fixpoint answers_for (uid : string) (calls : list (Z * string)) (answers : list bool)
  : list bool :=
  match calls, answers with
  | (_, u) :: rest, a :: more =>
      if String.eqb u uid then a :: answers_for uid rest more
      else answers_for uid rest more
  | _, _ => []
  end.

(** ** Requests of several accounts, one after the other *)

Definition serve_requests (requests : list (TokenData * Operation)) (db : Database)
  : Database :=
  fold_left (fun d req => snd (perform (fst req) (snd req) d)) requests db.

(** A catalog in which fund 2 has been switched off after Alice put 125000
    into it. *)
Definition db_closed_fund : Database :=
  {| funds := [recaudadora; ecopetrol_inactive; deudaprivada];
     users := [{| user_oid := "64f0c2a1b3d4e5f601234567"; user_balance := 375000 |}];
     user_subscriptions :=
       [{| sub_oid := 1; sub_user_id := "64f0c2a1b3d4e5f601234567"; sub_fund_id := 2;
           sub_amount := 125000; sub_is_active := true; sub_created_at := 10 |}];
     transactions := [] |}.

Definition bob : TokenData :=
  {| user_id := "64f0c2a1b3d4e5f6012345ff";
     email := "bob@example.com"; role := "client" |}.

(** [db1] with the account of Bob next to Alice's, untouched so far. *)
Definition db_two_accounts : Database :=
  {| funds := funds db1;
     users := users db1 ++ [{| user_oid := "64f0c2a1b3d4e5f6012345ff"; user_balance := 500000 |}];
     user_subscriptions := user_subscriptions db1;
     transactions := transactions db1 |}.

(** * The amounts as the code holds them: doubles and decimals

    The handlers compute with [decimal.Decimal] and store [float]; this module
    embeds [subscribe_to_fund] and [cancel_subscription] once more, with the
    numbers of the documents as IEEE 754 doubles and the arithmetic of the
    source on them: [Decimal(str(x))], the comparisons and the subtraction of
    [Decimal] under the default context, [float(d)], and the addition of two
    floats.  Everything that is no number (the collections, the errors, the
    order of the checks, the three writes and the outages) is as in the
    embedding above. *)

Module Doubles.

(** ** [float]: IEEE 754 binary64 *)

Definition prec : Z := 53.
Definition emax : Z := 1024.

Definition float : Type := spec_float.

(** [x + y] on two floats. *)
Definition float_add (x y : float) : float := SFadd prec emax x y.

(** ** [decimal.Decimal] *)

(** The sign, the coefficient and the exponent of a finite [Decimal]
    ([as_tuple]): the number [(-1)^sign * coefficient * 10^exponent]. *)
Record DecimalTuple := {
  sign : bool;
  coefficient : N;
  exponent : Z
}.

Inductive Decimal :=
| Finite (t : DecimalTuple)
| Infinity (negative : bool)
| NaN.

(** The default context: 28 digits, [ROUND_HALF_EVEN], and the traps
    [InvalidOperation], [DivisionByZero] and [Overflow]. *)
Definition context_prec : Z := 28.
Definition Emax : Z := 999999.
Definition Emin : Z := -999999.
Definition Etiny : Z := Emin - context_prec + 1.
Definition Etop : Z := Emax - context_prec + 1.

Definition signed (t : DecimalTuple) : Z :=
  if sign t then - Z.of_N (coefficient t) else Z.of_N (coefficient t).

(** The number of decimal digits of [n >= 0] ([len(str(n))]). *)
Fixpoint count_digits (fuel : nat) (n : Z) : Z :=
  match fuel with
  | O => 1
  | S f => if n <? 10 then 1 else 1 + count_digits f (n / 10)
  end.

Definition digits10 (n : Z) : Z := count_digits (Z.to_nat (Z.log2 n)) n.

(** [Decimal._fix]: the rounding of a finite result to the context.  [None]
    stands for the trapped [Overflow]. *)
Definition fix_ (t : DecimalTuple) : option DecimalTuple :=
  let c := Z.of_N (coefficient t) in
  if c =? 0
  then Some {| sign := sign t; coefficient := 0;
               exponent := Z.min (Z.max (exponent t) Etiny) Emax |}
  else
    let exp_min := digits10 c + exponent t - context_prec in
    if Etop <? exp_min then None
    else
      let exp_min := Z.max exp_min Etiny in
      if exponent t <? exp_min
      then
        let unit := 10 ^ (exp_min - exponent t) in
        let q := c / unit in
        let r := c mod unit in
        let coeff :=
          if (unit <? 2 * r) || ((2 * r =? unit) && Z.odd q) then q + 1 else q in
        let '(coeff, exp_min) :=
          if context_prec <? digits10 coeff
          then (coeff / 10, exp_min + 1) else (coeff, exp_min) in
        if Etop <? exp_min then None
        else Some {| sign := sign t; coefficient := Z.to_N coeff; exponent := exp_min |}
      else Some t.

(** The exact sum of two finite decimals, at the smaller exponent.  A zero
    sum is negative only when both operands are negative zeros. *)
Definition add_exact (a b : DecimalTuple) : DecimalTuple :=
  let e := Z.min (exponent a) (exponent b) in
  let v := signed a * 10 ^ (exponent a - e) + signed b * 10 ^ (exponent b - e) in
  {| sign := if v =? 0 then sign a && sign b else v <? 0;
     coefficient := Z.to_N (Z.abs v);
     exponent := e |}.

Definition copy_negate (d : Decimal) : Decimal :=
  match d with
  | Finite t =>
      Finite {| sign := negb (sign t); coefficient := coefficient t;
                exponent := exponent t |}
  | Infinity s => Infinity (negb s)
  | NaN => NaN
  end.

(** [a + b]; [None] stands for a trapped signal ([InvalidOperation] for
    infinities of opposite signs, [Overflow]). *)
Definition Decimal_add (a b : Decimal) : option Decimal :=
  match a, b with
  | NaN, _ | _, NaN => Some NaN
  | Infinity s, Infinity s' => if Bool.eqb s s' then Some a else None
  | Infinity _, Finite _ => Some a
  | Finite _, Infinity _ => Some b
  | Finite x, Finite y => option_map Finite (fix_ (add_exact x y))
  end.

(** [a - b] *)
Definition Decimal_sub (a b : Decimal) : option Decimal :=
  Decimal_add a (copy_negate b).

(** [Decimal._cmp] on finite numbers: by value. *)
Definition compare_finite (a b : DecimalTuple) : comparison :=
  let e := Z.min (exponent a) (exponent b) in
  Z.compare (signed a * 10 ^ (exponent a - e)) (signed b * 10 ^ (exponent b - e)).

Definition isinfinity (d : Decimal) : Z :=
  match d with
  | Infinity true => -1
  | Infinity false => 1
  | _ => 0
  end.

(** The ordering behind [<]; [None] stands for the [InvalidOperation] that a
    comparison with a NaN raises. *)
Definition Decimal_cmp (a b : Decimal) : option comparison :=
  match a, b with
  | NaN, _ | _, NaN => None
  | Finite x, Finite y => Some (compare_finite x y)
  | _, _ => Some (Z.compare (isinfinity a) (isinfinity b))
  end.

(** [a < b] *)
Definition Decimal_lt (a b : Decimal) : option bool :=
  option_map (fun c => match c with Lt => true | _ => false end) (Decimal_cmp a b).

(** [Decimal.from_float]: the exact value of a float.  (The library reduces
    the fraction first; the number is the same, and only its value is used:
    a [Decimal] is compared with a float through this conversion.) *)
Definition from_float (x : float) : Decimal :=
  match x with
  | S754_zero s => Finite {| sign := s; coefficient := 0; exponent := 0 |}
  | S754_infinity s => Infinity s
  | S754_nan => NaN
  | S754_finite s m e =>
      if 0 <=? e
      then Finite {| sign := s; coefficient := Z.to_N (Z.pos m * 2 ^ e); exponent := 0 |}
      else Finite {| sign := s; coefficient := Z.to_N (Z.pos m * 5 ^ (- e)); exponent := e |}
  end.

(** [d < x] for a [Decimal] and a float. *)
Definition Decimal_lt_float (d : Decimal) (x : float) : option bool :=
  Decimal_lt d (from_float x).

(** ** [float(d)] *)

(** The double nearest to a finite decimal, ties to even; beyond the range it
    is an infinity, below it a zero. *)
Definition float_of_DecimalTuple (t : DecimalTuple) : float :=
  match coefficient t with
  | N0 => S754_zero (sign t)
  | Npos c =>
      if 0 <=? exponent t
      then binary_normalize prec emax (signed t * 10 ^ exponent t) 0 false
      else SFdiv prec emax (S754_finite (sign t) c 0)
                           (S754_finite false (Z.to_pos (10 ^ (- exponent t))) 0)
  end.

Definition float_of_Decimal (d : Decimal) : float :=
  match d with
  | Finite t => float_of_DecimalTuple t
  | Infinity s => S754_infinity s
  | NaN => S754_nan
  end.

(** ** [Decimal(str(x))] for a float [x] *)

(** For [num / den > 0]: the [p] with [10^(p-1) <= num / den < 10^p]. *)
Fixpoint first_digit (fuel : nat) (num den j : Z) : Z :=
  match fuel with
  | O => j
  | S f => if den <=? num * 10 ^ j then j else first_digit f num den (j + 1)
  end.

Definition decimal_point (num den : Z) : Z :=
  if den <=? num then digits10 (num / den)
  else 1 - first_digit (Z.to_nat (Z.log2 den)) num den 1.

(** The digits [str] prints for the positive float [x = num / den], whose
    decimal point is at [p], if [n] digits are enough: of the two decimals of
    [n] digits next to [x], one that reads back as [x], the nearer one (the
    even one at equal distance) when both do.  Seventeen digits identify every
    double. *)
Definition digits_at (x : float) (num den p n : Z) : option (Z * Z) :=
  let k := p - n in
  let '(a, b) := if 0 <=? k then (num, den * 10 ^ k) else (num * 10 ^ (- k), den) in
  let lo := a / b in
  let r := a mod b in
  let reads_back c :=
    SFeqb (float_of_DecimalTuple
             {| sign := false; coefficient := Z.to_N c; exponent := k |}) x in
  let nearer :=
    if 2 * r <? b then lo
    else if b <? 2 * r then lo + 1
    else if Z.even lo then lo else lo + 1 in
  if reads_back lo && reads_back (lo + 1) then Some (nearer, k)
  else if reads_back lo then Some (lo, k)
  else if reads_back (lo + 1) then Some (lo + 1, k)
  else if n =? 17 then Some (nearer, k)
  else None.

(** The shortest such digits: 1 digit, then 2, ..., 17 at most. *)
Fixpoint shortest_digits (fuel : nat) (x : float) (num den p n : Z) : Z * Z :=
  match digits_at x num den p n with
  | Some d => d
  | None =>
      match fuel with
      | O => (0, 0)
      | S f => shortest_digits f x num den p (n + 1)
      end
  end.

(** Without the zeros at the end. *)
Fixpoint strip_zeros (fuel : nat) (c k : Z) : Z * Z :=
  match fuel with
  | O => (c, k)
  | S f => if c mod 10 =? 0 then strip_zeros f (c / 10) (k + 1) else (c, k)
  end.

(** The text [str] makes of the digits [c] at exponent [k], as [Decimal] reads
    it: exponent notation ("1e+16", "1e-05") when the decimal point would
    stand more than 16 places after the first digit or more than 4 before it,
    and ".0" after a whole number otherwise. *)
Definition Decimal_of_digits (s : bool) (c k : Z) : DecimalTuple :=
  let decpt := digits10 c + k in
  if (decpt <=? -4) || (16 <? decpt) || (k <? 0)
  then {| sign := s; coefficient := Z.to_N c; exponent := k |}
  else {| sign := s; coefficient := Z.to_N (c * 10 ^ (k + 1)); exponent := -1 |}.

(** [Decimal(str(x))] *)
Definition Decimal_of_str (x : float) : Decimal :=
  match x with
  | S754_zero s => Finite {| sign := s; coefficient := 0; exponent := -1 |}
  | S754_infinity s => Infinity s
  | S754_nan => NaN
  | S754_finite s m e =>
      let '(num, den) :=
        if 0 <=? e then (Z.pos m * 2 ^ e, 1) else (Z.pos m, 2 ^ (- e)) in
      let '(c, k) :=
        shortest_digits 16 (S754_finite false m e) num den (decimal_point num den) 1 in
      let '(c, k) := strip_zeros 17 c k in
      Finite (Decimal_of_digits s c k)
  end.

(** ** Documents, requests and responses *)

Record FundDoc := {
  fund_fund_id : Z;
  fund_name : string;
  fund_minimum_amount : float;
  fund_category : string;
  fund_is_active : bool
}.

Record UserDoc := {
  user_oid : string;
  user_balance : float
}.

Record SubscriptionDoc := {
  sub_oid : nat;
  sub_user_id : string;
  sub_fund_id : Z;
  sub_amount : float;
  sub_is_active : bool;
  sub_created_at : Z
}.

Record TransactionDoc := {
  transaction_id : string;
  txn_user_id : string;
  txn_fund_id : Z;
  transaction_type : TransactionType;
  txn_amount : float;
  balance_before : float;
  balance_after : float;
  txn_status : string;
  txn_created_at : Z
}.

Record Database := {
  funds : list FundDoc;
  users : list UserDoc;
  user_subscriptions : list SubscriptionDoc;
  transactions : list TransactionDoc
}.

(** [SubscriptionRequest]: the amount is a [Decimal], which the framework
    accepts only when it is finite. *)
Record SubscriptionRequest := {
  fund_id : Z;
  amount : DecimalTuple
}.

(** The validator of [SubscriptionRequest.amount]: [v <= 0] is refused. *)
Definition validate_amount (v : DecimalTuple) : option DecimalTuple :=
  if signed v <=? 0 then None else Some v.

(** The text [str(v)] of a number, kept as the number printed: a [Decimal] in
    the answer to a subscription, a float in the answer to a cancellation. *)
Inductive Text :=
| str_Decimal (d : Decimal)
| str_float (x : float).

Record TransactionResponse := {
  resp_id : string;
  resp_fund_name : string;
  resp_transaction_type : TransactionType;
  resp_amount : Text;
  resp_balance_after : Text;
  resp_status : string;
  resp_created_at : Z
}.

(** ** Errors *)

Inductive Detail :=
| FondoNoEncontrado (fid : Z)
| MontoMinimo (minimum : float)
| IdUsuarioInvalido
| UsuarioNoEncontrado
| SinSaldoDisponible (name : string)
| SuscripcionActivaExistente (name : string)
| SinSuscripcionActiva (name : string)
| ErrorProcesandoSuscripcion
| ErrorProcesandoCancelacion.

Record HTTPException := {
  status_code : nat;
  detail : Detail
}.

(** What a handler body can raise: an [HTTPException] of its own, an
    exception of the driver, or one of [decimal]. *)
Inductive Exn :=
| Http (e : HTTPException)
| DuplicateKeyError
| ConnectionFailure
| DecimalException.

(** ** Handlers *)

Definition Handler (A : Type) : Type := Database -> (Exn + A) * Database.

Definition ret {A} (a : A) : Handler A := fun db => (inr a, db).

Definition raise {A} (e : Exn) : Handler A := fun db => (inl e, db).

Definition bind {A B} (m : Handler A) (k : A -> Handler B) : Handler B :=
  fun db =>
    match m db with
    | (inl e, db') => (inl e, db')
    | (inr a, db') => k a db'
    end.

Declare Scope doubles_scope.
Notation "x <- m ;; k" := (bind m (fun x => k))
  (at level 61, m at next level, right associativity) : doubles_scope.
Notation "m ;;; k" := (bind m (fun _ => k))
  (at level 61, right associativity) : doubles_scope.
Local Open Scope doubles_scope.

Definition read {A} (f : Database -> A) : Handler A := fun db => (inr (f db), db).

Definition write (f : Database -> Database) : Handler unit :=
  fun db => (inr tt, f db).

Definition raise_http {A} (code : nat) (d : Detail) : Handler A :=
  raise (Http {| status_code := code; detail := d |}).

(** A database call at site [s]: it raises when the store is down there. *)
Definition await (env : Env) (s : Site) : Handler unit :=
  match outage env with
  | Some s' => if Site_eqb s s' then raise ConnectionFailure else ret tt
  | None => ret tt
  end.

(** An operation of [decimal] that raises when a trapped condition is
    signalled. *)
Definition trapped {A} (result : option A) : Handler A :=
  match result with
  | Some a => ret a
  | None => raise DecimalException
  end.

Definition active_fund_filter (fid : Z) (f : FundDoc) : bool :=
  (fund_fund_id f =? fid) && fund_is_active f.

Definition fund_filter (fid : Z) (f : FundDoc) : bool :=
  fund_fund_id f =? fid.

Definition user_filter (oid : string) (u : UserDoc) : bool :=
  String.eqb (user_oid u) oid.

Definition active_subscription_filter (uid : string) (fid : Z) (s : SubscriptionDoc) : bool :=
  String.eqb (sub_user_id s) uid && (sub_fund_id s =? fid) && sub_is_active s.

Definition subscription_oid_filter (oid : nat) (s : SubscriptionDoc) : bool :=
  Nat.eqb (sub_oid s) oid.

(** The key of the unique index on [(user_id, fund_id)]. *)
Definition same_index_key (uid : string) (fid : Z) (s : SubscriptionDoc) : bool :=
  String.eqb (sub_user_id s) uid && (sub_fund_id s =? fid).

Definition fresh_oid (coll : list SubscriptionDoc) : nat :=
  S (fold_right Nat.max 0%nat (map sub_oid coll)).

(** [db[TRANSACTIONS].insert_one(transaction)] *)
Definition insert_transaction (t : TransactionDoc) : Handler unit :=
  write (fun db =>
    {| funds := funds db; users := users db;
       user_subscriptions := user_subscriptions db;
       transactions := transactions db ++ [t] |}).

(** [db[USERS].update_one({"_id": object_id}, {"$set": {"balance": b}})] *)
Definition set_balance (oid : string) (b : float) : Handler unit :=
  write (fun db =>
    {| funds := funds db;
       users := update_one (user_filter oid)
                  (fun u => {| user_oid := user_oid u; user_balance := b |}) (users db);
       user_subscriptions := user_subscriptions db;
       transactions := transactions db |}).

(** [db[USER_SUBSCRIPTIONS].insert_one(subscription_doc)], refused by the
    unique index when a document with the same [(user_id, fund_id)] exists. *)
Definition insert_subscription (uid : string) (fid : Z) (amt : float) (created : Z)
  : Handler unit :=
  fun db =>
    if existsb (same_index_key uid fid) (user_subscriptions db)
    then (inl DuplicateKeyError, db)
    else (inr tt,
          {| funds := funds db; users := users db;
             user_subscriptions :=
               user_subscriptions db ++
                 [{| sub_oid := fresh_oid (user_subscriptions db);
                     sub_user_id := uid; sub_fund_id := fid; sub_amount := amt;
                     sub_is_active := true; sub_created_at := created |}];
             transactions := transactions db |}).

(** [db[USER_SUBSCRIPTIONS].delete_one({"_id": oid})] *)
Definition delete_subscription (oid : nat) : Handler unit :=
  write (fun db =>
    {| funds := funds db; users := users db;
       user_subscriptions :=
         delete_one (subscription_oid_filter oid) (user_subscriptions db);
       transactions := transactions db |}).

(** [try: ... except HTTPException: raise; except Exception: raise
    HTTPException(500, generic)] *)
Definition except_handler {A} (generic : Detail) (body : Handler A)
  : Database -> (HTTPException + A) * Database :=
  fun db =>
    match body db with
    | (inl (Http e), db') => (inl e, db')
    | (inl _, db') =>
        (inl {| status_code := HTTP_500_INTERNAL_SERVER_ERROR; detail := generic |}, db')
    | (inr a, db') => (inr a, db')
    end.

(** The inner [try] around the user lookup. *)
Definition lookup_user (env : Env) (current_user : TokenData)
  : Handler (string * option UserDoc) :=
  fun db =>
    match ObjectId (user_id current_user) with
    | None => raise_http HTTP_400_BAD_REQUEST IdUsuarioInvalido db
    | Some object_id =>
        match await env FindUser db with
        | (inl _, db') => raise_http HTTP_400_BAD_REQUEST IdUsuarioInvalido db'
        | (inr _, db') =>
            (inr (object_id, find_one (user_filter object_id) (users db')), db')
        end
    end.

(** ** [subscribe_to_fund] *)

(** The local variables that are live when the session is opened (line 305);
    [sl_balance_after] is [user_balance_decimal - amount_decimal], which lines
    298, 313 and 341 each compute. *)
Record SubscribeLocals := {
  sl_fund : FundDoc;
  sl_amount_decimal : Decimal;
  sl_object_id : string;
  sl_user_balance_decimal : Decimal;
  sl_balance_after : Decimal;
  sl_transaction : TransactionDoc
}.

(** Lines 226-302. *)
Definition subscribe_validate (env : Env) (current_user : TokenData)
    (subscription : SubscriptionRequest) : Handler SubscribeLocals :=
  await env FindFund ;;;
  fund <- read (fun db => find_one (active_fund_filter (fund_id subscription)) (funds db)) ;;
  match fund with
  | None => raise_http HTTP_404_NOT_FOUND (FondoNoEncontrado (fund_id subscription))
  | Some fund =>
      (* Decimal(str(d)) of a finite Decimal d is d *)
      let amount_decimal := Finite (amount subscription) in
      below_minimum <- trapped (Decimal_lt_float amount_decimal (fund_minimum_amount fund)) ;;
      if (below_minimum : bool)
      then raise_http HTTP_400_BAD_REQUEST (MontoMinimo (fund_minimum_amount fund))
      else
        ou <- lookup_user env current_user ;;
        let '(object_id, user) := ou in
        match user with
        | None => raise_http HTTP_404_NOT_FOUND UsuarioNoEncontrado
        | Some user =>
            let user_balance_decimal := Decimal_of_str (user_balance user) in
            insufficient <- trapped (Decimal_lt user_balance_decimal amount_decimal) ;;
            if (insufficient : bool)
            then raise_http HTTP_400_BAD_REQUEST (SinSaldoDisponible (fund_name fund))
            else
              await env FindSubscription ;;;
              existing_subscription <-
                read (fun db =>
                  find_one (active_subscription_filter (user_id current_user)
                              (fund_id subscription))
                           (user_subscriptions db)) ;;
              match existing_subscription with
              | Some _ =>
                  raise_http HTTP_400_BAD_REQUEST
                    (SuscripcionActivaExistente (fund_name fund))
              | None =>
                  balance_after_decimal <-
                    trapped (Decimal_sub user_balance_decimal amount_decimal) ;;
                  ret {| sl_fund := fund;
                         sl_amount_decimal := amount_decimal;
                         sl_object_id := object_id;
                         sl_user_balance_decimal := user_balance_decimal;
                         sl_balance_after := balance_after_decimal;
                         sl_transaction :=
                           {| transaction_id := uuid4 env;
                              txn_user_id := user_id current_user;
                              txn_fund_id := fund_id subscription;
                              transaction_type := SUBSCRIPTION;
                              txn_amount := float_of_Decimal amount_decimal;
                              balance_before := float_of_Decimal user_balance_decimal;
                              balance_after := float_of_Decimal balance_after_decimal;
                              txn_status := "completed";
                              txn_created_at := loop_time env |} |}
              end
        end
  end.

(** Lines 304-327: the three writes, none of them given the session. *)
Definition subscribe_apply (env : Env) (current_user : TokenData)
    (subscription : SubscriptionRequest) (l : SubscribeLocals) : Handler unit :=
  await env StartSession ;;;
  await env InsertTransaction ;;;
  insert_transaction (sl_transaction l) ;;;
  await env UpdateBalance ;;;
  set_balance (sl_object_id l) (float_of_Decimal (sl_balance_after l)) ;;;
  await env InsertSubscription ;;;
  insert_subscription (user_id current_user) (fund_id subscription)
    (float_of_Decimal (sl_amount_decimal l)) (later_loop_time env).

(** Lines 336-344. *)
Definition subscribe_response (l : SubscribeLocals) : TransactionResponse :=
  {| resp_id := transaction_id (sl_transaction l);
     resp_fund_name := fund_name (sl_fund l);
     resp_transaction_type := SUBSCRIPTION;
     resp_amount := str_Decimal (sl_amount_decimal l);
     resp_balance_after := str_Decimal (sl_balance_after l);
     resp_status := "completed";
     resp_created_at := txn_created_at (sl_transaction l) |}.

Definition subscribe_to_fund (env : Env) (current_user : TokenData)
    (subscription : SubscriptionRequest)
  : Database -> (HTTPException + TransactionResponse) * Database :=
  except_handler ErrorProcesandoSuscripcion
    (l <- subscribe_validate env current_user subscription ;;
     subscribe_apply env current_user subscription l ;;;
     ret (subscribe_response l)).

(** ** [cancel_subscription] *)

Record CancelLocals := {
  cl_fund : FundDoc;
  cl_subscription : SubscriptionDoc;
  cl_object_id : string;
  cl_user : UserDoc;
  cl_transaction : TransactionDoc
}.

(** Lines 370-424. *)
Definition cancel_validate (env : Env) (current_user : TokenData)
    (cancellation : CancellationRequest) : Handler CancelLocals :=
  await env FindFund ;;;
  fund <- read (fun db => find_one (fund_filter (cancel_fund_id cancellation)) (funds db)) ;;
  match fund with
  | None => raise_http HTTP_404_NOT_FOUND (FondoNoEncontrado (cancel_fund_id cancellation))
  | Some fund =>
      await env FindSubscription ;;;
      subscription <-
        read (fun db =>
          find_one (active_subscription_filter (user_id current_user)
                      (cancel_fund_id cancellation))
                   (user_subscriptions db)) ;;
      match subscription with
      | None => raise_http HTTP_404_NOT_FOUND (SinSuscripcionActiva (fund_name fund))
      | Some subscription =>
          ou <- lookup_user env current_user ;;
          let '(object_id, user) := ou in
          match user with
          | None => raise_http HTTP_404_NOT_FOUND UsuarioNoEncontrado
          | Some user =>
              ret {| cl_fund := fund;
                     cl_subscription := subscription;
                     cl_object_id := object_id;
                     cl_user := user;
                     cl_transaction :=
                       {| transaction_id := uuid4 env;
                          txn_user_id := user_id current_user;
                          txn_fund_id := cancel_fund_id cancellation;
                          transaction_type := CANCELLATION;
                          txn_amount := sub_amount subscription;
                          balance_before := user_balance user;
                          balance_after :=
                            float_add (user_balance user) (sub_amount subscription);
                          txn_status := "completed";
                          txn_created_at := loop_time env |} |}
          end
      end
  end.

(** Lines 426-443 ([float(x)] of a float [x] is [x]). *)
Definition cancel_apply (env : Env) (l : CancelLocals) : Handler unit :=
  await env StartSession ;;;
  await env InsertTransaction ;;;
  insert_transaction (cl_transaction l) ;;;
  await env UpdateBalance ;;;
  set_balance (cl_object_id l)
    (float_add (user_balance (cl_user l)) (sub_amount (cl_subscription l))) ;;;
  await env DeleteSubscription ;;;
  delete_subscription (sub_oid (cl_subscription l)).

(** Lines 452-460. *)
Definition cancel_response (l : CancelLocals) : TransactionResponse :=
  {| resp_id := transaction_id (cl_transaction l);
     resp_fund_name := fund_name (cl_fund l);
     resp_transaction_type := CANCELLATION;
     resp_amount := str_float (sub_amount (cl_subscription l));
     resp_balance_after :=
       str_float (float_add (user_balance (cl_user l)) (sub_amount (cl_subscription l)));
     resp_status := "completed";
     resp_created_at := txn_created_at (cl_transaction l) |}.

Definition cancel_subscription (env : Env) (current_user : TokenData)
    (cancellation : CancellationRequest)
  : Database -> (HTTPException + TransactionResponse) * Database :=
  except_handler ErrorProcesandoCancelacion
    (l <- cancel_validate env current_user cancellation ;;
     cancel_apply env l ;;;
     ret (cancel_response l)).

(** ** Observations *)

(** [user["balance"]] of the account behind a token. *)
Definition balance_of (uid : string) (db : Database) : option float :=
  match ObjectId uid with
  | None => None
  | Some object_id =>
      option_map user_balance (find_one (user_filter object_id) (users db))
  end.

(** The active subscriptions of one account to one fund. *)
Definition active_subscriptions_to (uid : string) (fid : Z) (db : Database)
  : list SubscriptionDoc :=
  filter (active_subscription_filter uid fid) (user_subscriptions db).

(** The guarantees of the store on [user_subscriptions]: [_id] is unique, and
    so is [(user_id, fund_id)] (the unique index of [database.py]). *)
Definition registry_ok (db : Database) : Prop :=
  NoDup (map sub_oid (user_subscriptions db)) /\
  NoDup (map (fun s => (sub_user_id s, sub_fund_id s)) (user_subscriptions db)).

(** Whether two decimals are the same number, whatever their exponents. *)
Definition same_number (a b : Decimal) : bool :=
  match Decimal_cmp a b with
  | Some Eq => true
  | _ => false
  end.

(** The sum and the difference of two finite decimals with no rounding (no
    number otherwise).  With [from_float], which is exact too, they give the
    sum and the difference of the numbers that two floats are. *)
Definition exact_add (a b : Decimal) : Decimal :=
  match a, b with
  | Finite x, Finite y => Finite (add_exact x y)
  | _, _ => NaN
  end.


(** ** Sample data: the catalog of [config.py] and an account as
    [auth-service] creates it, with [initial_balance = 500000.0] *)

Definition float_of_Z (n : Z) : float := binary_normalize prec emax n 0 false.

Definition decimal (c : N) (e : Z) : DecimalTuple :=
  {| sign := false; coefficient := c; exponent := e |}.

Definition catalog : list FundDoc :=
  [{| fund_fund_id := 1; fund_name := "FPV_BTG_PACTUAL_RECAUDADORA";
      fund_minimum_amount := float_of_Z 75000; fund_category := "FPV";
      fund_is_active := true |};
   {| fund_fund_id := 3; fund_name := "DEUDAPRIVADA";
      fund_minimum_amount := float_of_Z 50000; fund_category := "FIC";
      fund_is_active := true |}].

Definition new_account : Database :=
  {| funds := catalog;
     users := [{| user_oid := "64f0c2a1b3d4e5f601234567";
                  user_balance := float_of_Z 500000 |}];
     user_subscriptions := [];
     transactions := [] |}.

(** Four requests of that account: 50000.1 into fund 3, 75000.3 into fund 1,
    the cancellation of fund 1, and 75000.1 into fund 1 again. *)
Definition first_subscription : SubscriptionRequest :=
  {| fund_id := 3; amount := decimal 500001 (-1) |}.

Definition second_subscription : SubscriptionRequest :=
  {| fund_id := 1; amount := decimal 750003 (-1) |}.

Definition the_cancellation : CancellationRequest := {| cancel_fund_id := 1 |}.


(** The store after each of the first three. *)
Definition after_first : Database :=
  snd (subscribe_to_fund (quiet "t1" 10) alice first_subscription new_account).

Definition after_second : Database :=
  snd (subscribe_to_fund (quiet "t2" 20) alice second_subscription after_first).

Definition after_cancellation : Database :=
  snd (cancel_subscription (quiet "t3" 30) alice the_cancellation after_second).

End Doubles.

(** * Properties *)

(** ** Tactics and basic facts *)

Ltac unfold_monad :=
  unfold bind, read, write, raise_http, raise, ret in *.

Lemma await_cases env s db :
  (await env s db = (inr tt, db) /\ outage env <> Some s) \/
  (await env s db = (inl ConnectionFailure, db) /\ outage env = Some s).
Proof.
  unfold await. destruct (outage env) as [s'|].
  - destruct s, s'; simpl; (left; split; [reflexivity | discriminate])
      || (right; split; reflexivity).
  - left. split; [reflexivity | discriminate].
Qed.

Lemma await_up env s db : outage env <> Some s -> await env s db = (inr tt, db).
Proof.
  intros H. destruct (await_cases env s db) as [[E _]|[_ E]]; [exact E | contradiction].
Qed.



Lemma lookup_user_cases env u db :
  (exists oid,
      lookup_user env u db = (inr (oid, find_one (user_filter oid) (users db)), db) /\
      ObjectId (user_id u) = Some oid /\ outage env <> Some FindUser) \/
  (lookup_user env u db =
     (inl (Http {| status_code := HTTP_400_BAD_REQUEST; detail := IdUsuarioInvalido |}), db) /\
   (ObjectId (user_id u) = None \/ outage env = Some FindUser)).
Proof.
  unfold lookup_user. destruct (ObjectId (user_id u)) as [oid|] eqn:EO.
  - destruct (await_cases env FindUser db) as [[E N]|[E N]]; rewrite E.
    + left. exists oid. auto.
    + right. split; [reflexivity | auto].
  - right. split; [reflexivity | auto].
Qed.

(** The validation phase only reads. *)
Lemma subscribe_validate_reads_only env u r db x db' :
  subscribe_validate env u r db = (x, db') -> db' = db.
Proof.
  unfold subscribe_validate. unfold_monad.
  destruct (await_cases env FindFund db) as [[E _]|[E _]]; rewrite E;
    [|intros H; inversion H; reflexivity].
  destruct (find_one _ (funds db)) as [fund|]; [|intros H; inversion H; reflexivity].
  destruct (amount r <? fund_minimum_amount fund); [intros H; inversion H; reflexivity|].
  destruct (lookup_user_cases env u db) as [(oid & E1 & _ & _)|[E1 _]]; rewrite E1;
    [|intros H; inversion H; reflexivity].
  destruct (find_one (user_filter oid) (users db)) as [user|];
    [|intros H; inversion H; reflexivity].
  destruct (user_balance user <? amount r); [intros H; inversion H; reflexivity|].
  destruct (await_cases env FindSubscription db) as [[E2 _]|[E2 _]]; rewrite E2;
    [|intros H; inversion H; reflexivity].
  destruct (find_one _ (user_subscriptions db)); intros H; inversion H; reflexivity.
Qed.

(** What a passed validation has established, and the locals it leaves. *)
Lemma subscribe_validate_passed env u r db l db' :
  subscribe_validate env u r db = (inr l, db') ->
  exists fund oid user,
    find_one (active_fund_filter (fund_id r)) (funds db) = Some fund /\
    fund_minimum_amount fund <= amount r /\
    ObjectId (user_id u) = Some oid /\
    find_one (user_filter oid) (users db) = Some user /\
    amount r <= user_balance user /\
    find_one (active_subscription_filter (user_id u) (fund_id r))
             (user_subscriptions db) = None /\
    l = {| sl_fund := fund;
           sl_amount_decimal := amount r;
           sl_object_id := oid;
           sl_user_balance_decimal := user_balance user;
           sl_transaction :=
             {| transaction_id := uuid4 env;
                txn_user_id := user_id u;
                txn_fund_id := fund_id r;
                transaction_type := SUBSCRIPTION;
                txn_amount := amount r;
                balance_before := user_balance user;
                balance_after := user_balance user - amount r;
                txn_status := "completed";
                txn_created_at := loop_time env |} |}.
Proof.
  unfold subscribe_validate. unfold_monad.
  destruct (await_cases env FindFund db) as [[E _]|[E _]]; rewrite E; [|discriminate].
  destruct (find_one _ (funds db)) as [fund|] eqn:EF; [|discriminate].
  destruct (amount r <? fund_minimum_amount fund) eqn:EM; [discriminate|].
  destruct (lookup_user_cases env u db) as [(oid & E1 & EO & _)|[E1 _]]; rewrite E1;
    [|discriminate].
  destruct (find_one (user_filter oid) (users db)) as [user|] eqn:EU; [|discriminate].
  destruct (user_balance user <? amount r) eqn:EB; [discriminate|].
  destruct (await_cases env FindSubscription db) as [[E2 _]|[E2 _]]; rewrite E2;
    [|discriminate].
  destruct (find_one _ (user_subscriptions db)) eqn:ES; [discriminate|].
  intros H. inversion H; subst. exists fund, oid, user.
  apply Z.ltb_ge in EM. apply Z.ltb_ge in EB. repeat split; auto.
Qed.

(** With the store up at its three reads, validation passes on a request that
    meets the three conditions. *)
Lemma subscribe_validate_passes env u r db fund oid user :
  outage env <> Some FindFund -> outage env <> Some FindUser ->
  outage env <> Some FindSubscription ->
  find_one (active_fund_filter (fund_id r)) (funds db) = Some fund ->
  fund_minimum_amount fund <= amount r ->
  ObjectId (user_id u) = Some oid ->
  find_one (user_filter oid) (users db) = Some user ->
  amount r <= user_balance user ->
  find_one (active_subscription_filter (user_id u) (fund_id r))
           (user_subscriptions db) = None ->
  exists l, subscribe_validate env u r db = (inr l, db) /\
            sl_object_id l = oid /\ sl_amount_decimal l = amount r /\
            sl_user_balance_decimal l = user_balance user /\ sl_fund l = fund.
Proof.
  intros O1 O2 O3 HF HM HO HU HB HS.
  unfold subscribe_validate, lookup_user. unfold_monad.
  rewrite (await_up _ _ _ O1), HF.
  apply Z.ltb_ge in HM. rewrite HM, HO, (await_up _ _ _ O2), HU.
  apply Z.ltb_ge in HB. rewrite HB, (await_up _ _ _ O3), HS.
  eexists. split; [reflexivity|]. simpl. auto.
Qed.

Lemma subscribe_apply_done env u r l db db' :
  subscribe_apply env u r l db = (inr tt, db') ->
  existsb (same_index_key (user_id u) (fund_id r)) (user_subscriptions db) = false /\
  db' = subscribed u r l (later_loop_time env) db.
Proof.
  unfold subscribe_apply, insert_transaction, set_balance, insert_subscription.
  unfold_monad.
  destruct (await_cases env StartSession db) as [[E _]|[E _]]; rewrite E; [|discriminate].
  destruct (await_cases env InsertTransaction db) as [[E1 _]|[E1 _]]; rewrite E1;
    [|discriminate].
  match goal with |- context [await env UpdateBalance ?d] =>
    destruct (await_cases env UpdateBalance d) as [[E2 _]|[E2 _]]; rewrite E2;
      [|discriminate] end.
  match goal with |- context [await env InsertSubscription ?d] =>
    destruct (await_cases env InsertSubscription d) as [[E3 _]|[E3 _]]; rewrite E3;
      [|discriminate] end.
  simpl. destruct (existsb _ (user_subscriptions db)) eqn:EX; [discriminate|].
  intros H. inversion H. split; reflexivity.
Qed.

Lemma subscribe_apply_runs env u r l db :
  outage env <> Some StartSession -> outage env <> Some InsertTransaction ->
  outage env <> Some UpdateBalance -> outage env <> Some InsertSubscription ->
  existsb (same_index_key (user_id u) (fund_id r)) (user_subscriptions db) = false ->
  subscribe_apply env u r l db = (inr tt, subscribed u r l (later_loop_time env) db).
Proof.
  intros O1 O2 O3 O4 HX.
  unfold subscribe_apply, insert_transaction, set_balance, insert_subscription.
  unfold_monad.
  rewrite (await_up _ _ _ O1), (await_up _ _ _ O2), (await_up _ _ _ O3),
    (await_up _ _ _ O4).
  simpl. rewrite HX. reflexivity.
Qed.

(** A successful [subscribe_to_fund] is a passed validation followed by a
    completed write phase. *)
Lemma subscribe_to_fund_succeeded env u r db resp db' :
  subscribe_to_fund env u r db = (inr resp, db') ->
  exists l,
    subscribe_validate env u r db = (inr l, db) /\
    existsb (same_index_key (user_id u) (fund_id r)) (user_subscriptions db) = false /\
    db' = subscribed u r l (later_loop_time env) db /\
    resp = subscribe_response l.
Proof.
  unfold subscribe_to_fund, except_handler, bind at 1.
  destruct (subscribe_validate env u r db) as [[e|l] d] eqn:EV.
  - destruct e; discriminate.
  - pose proof (subscribe_validate_reads_only _ _ _ _ _ _ EV). subst d.
    unfold bind at 1.
    destruct (subscribe_apply env u r l db) as [[e|[]] d] eqn:EA.
    + destruct e; discriminate.
    + unfold ret. intros H. inversion H; subst.
      apply subscribe_apply_done in EA. destruct EA as [EX ED].
      exists l. auto.
Qed.

(** ** Facts about the collection primitives *)

Lemma find_one_update_one {A} (p : A -> bool) (f : A -> A) (coll : list A) :
  (forall x, p (f x) = p x) ->
  find_one p (update_one p f coll) = option_map f (find_one p coll).
Proof.
  intros Hp. unfold find_one. induction coll as [|x rest IH]; simpl; [reflexivity|].
  destruct (p x) eqn:E; simpl.
  - rewrite Hp, E. reflexivity.
  - rewrite E. exact IH.
Qed.

Lemma find_one_none_filter {A} (p : A -> bool) (coll : list A) :
  find_one p coll = None -> filter p coll = [].
Proof.
  unfold find_one. induction coll as [|x rest IH]; simpl; [reflexivity|].
  destruct (p x); [discriminate | exact IH].
Qed.

Lemma filter_nil_find_one {A} (p : A -> bool) (coll : list A) :
  filter p coll = [] -> find_one p coll = None.
Proof.
  unfold find_one. induction coll as [|x rest IH]; simpl; [reflexivity|].
  destruct (p x); [discriminate | exact IH].
Qed.


Lemma filter_nil_existsb {A} (p : A -> bool) (coll : list A) :
  filter p coll = [] -> existsb p coll = false.
Proof.
  induction coll as [|x rest IH]; simpl; [reflexivity|].
  destruct (p x); simpl; [discriminate | exact IH].
Qed.

Lemma user_filter_set_balance oid b x :
  user_filter oid {| user_oid := user_oid x; user_balance := b |} = user_filter oid x.
Proof. reflexivity. Qed.

Lemma balance_of_subscribed u r l created db oid :
  ObjectId (user_id u) = Some oid -> sl_object_id l = oid ->
  balance_of (user_id u) (subscribed u r l created db) =
  option_map (fun _ => sl_user_balance_decimal l - sl_amount_decimal l)
             (balance_of (user_id u) db).
Proof.
  intros HO HL. unfold balance_of. rewrite HO. simpl. rewrite HL.
  rewrite find_one_update_one by (intros; apply user_filter_set_balance).
  destruct (find_one (user_filter oid) (users db)); reflexivity.
Qed.

(** ** The phases of [cancel_subscription] *)

Lemma cancel_validate_reads_only env u c db x db' :
  cancel_validate env u c db = (x, db') -> db' = db.
Proof.
  unfold cancel_validate. unfold_monad.
  destruct (await_cases env FindFund db) as [[E _]|[E _]]; rewrite E;
    [|intros H; inversion H; reflexivity].
  destruct (find_one _ (funds db)) as [fund|]; [|intros H; inversion H; reflexivity].
  destruct (await_cases env FindSubscription db) as [[E2 _]|[E2 _]]; rewrite E2;
    [|intros H; inversion H; reflexivity].
  destruct (find_one _ (user_subscriptions db)); [|intros H; inversion H; reflexivity].
  destruct (lookup_user_cases env u db) as [(oid & E1 & _ & _)|[E1 _]]; rewrite E1;
    [|intros H; inversion H; reflexivity].
  destruct (find_one (user_filter oid) (users db)) as [user|];
    intros H; inversion H; reflexivity.
Qed.

Lemma cancel_validate_passed env u c db l db' :
  cancel_validate env u c db = (inr l, db') ->
  exists fund s oid user,
    find_one (fund_filter (cancel_fund_id c)) (funds db) = Some fund /\
    find_one (active_subscription_filter (user_id u) (cancel_fund_id c))
             (user_subscriptions db) = Some s /\
    ObjectId (user_id u) = Some oid /\
    find_one (user_filter oid) (users db) = Some user /\
    l = {| cl_fund := fund;
           cl_subscription := s;
           cl_object_id := oid;
           cl_user := user;
           cl_transaction :=
             {| transaction_id := uuid4 env;
                txn_user_id := user_id u;
                txn_fund_id := cancel_fund_id c;
                transaction_type := CANCELLATION;
                txn_amount := sub_amount s;
                balance_before := user_balance user;
                balance_after := user_balance user + sub_amount s;
                txn_status := "completed";
                txn_created_at := loop_time env |} |}.
Proof.
  unfold cancel_validate. unfold_monad.
  destruct (await_cases env FindFund db) as [[E _]|[E _]]; rewrite E; [|discriminate].
  destruct (find_one _ (funds db)) as [fund|] eqn:EF; [|discriminate].
  destruct (await_cases env FindSubscription db) as [[E2 _]|[E2 _]]; rewrite E2;
    [|discriminate].
  destruct (find_one _ (user_subscriptions db)) as [s|] eqn:ES; [|discriminate].
  destruct (lookup_user_cases env u db) as [(oid & E1 & EO & _)|[E1 _]]; rewrite E1;
    [|discriminate].
  destruct (find_one (user_filter oid) (users db)) as [user|] eqn:EU; [|discriminate].
  intros H. inversion H; subst. exists fund, s, oid, user. repeat split; auto.
Qed.

Lemma cancel_validate_passes env u c db fund s oid user :
  outage env <> Some FindFund -> outage env <> Some FindUser ->
  outage env <> Some FindSubscription ->
  find_one (fund_filter (cancel_fund_id c)) (funds db) = Some fund ->
  find_one (active_subscription_filter (user_id u) (cancel_fund_id c))
           (user_subscriptions db) = Some s ->
  ObjectId (user_id u) = Some oid ->
  find_one (user_filter oid) (users db) = Some user ->
  exists l, cancel_validate env u c db = (inr l, db) /\
            cl_object_id l = oid /\ cl_subscription l = s /\ cl_user l = user.
Proof.
  intros O1 O2 O3 HF HS HO HU.
  unfold cancel_validate, lookup_user. unfold_monad.
  rewrite (await_up _ _ _ O1), HF, (await_up _ _ _ O3), HS, HO, (await_up _ _ _ O2), HU.
  eexists. split; [reflexivity|]. simpl. auto.
Qed.

Lemma cancel_apply_done env l db db' :
  cancel_apply env l db = (inr tt, db') -> db' = cancelled l db.
Proof.
  unfold cancel_apply, insert_transaction, set_balance, delete_subscription.
  unfold_monad.
  destruct (await_cases env StartSession db) as [[E _]|[E _]]; rewrite E; [|discriminate].
  destruct (await_cases env InsertTransaction db) as [[E1 _]|[E1 _]]; rewrite E1;
    [|discriminate].
  match goal with |- context [await env UpdateBalance ?d] =>
    destruct (await_cases env UpdateBalance d) as [[E2 _]|[E2 _]]; rewrite E2;
      [|discriminate] end.
  match goal with |- context [await env DeleteSubscription ?d] =>
    destruct (await_cases env DeleteSubscription d) as [[E3 _]|[E3 _]]; rewrite E3;
      [|discriminate] end.
  simpl. intros H. inversion H. reflexivity.
Qed.

Lemma cancel_apply_runs env l db :
  outage env <> Some StartSession -> outage env <> Some InsertTransaction ->
  outage env <> Some UpdateBalance -> outage env <> Some DeleteSubscription ->
  cancel_apply env l db = (inr tt, cancelled l db).
Proof.
  intros O1 O2 O3 O4.
  unfold cancel_apply, insert_transaction, set_balance, delete_subscription.
  unfold_monad.
  rewrite (await_up _ _ _ O1), (await_up _ _ _ O2), (await_up _ _ _ O3),
    (await_up _ _ _ O4).
  reflexivity.
Qed.

Lemma cancel_subscription_succeeded env u c db resp db' :
  cancel_subscription env u c db = (inr resp, db') ->
  exists l,
    cancel_validate env u c db = (inr l, db) /\
    db' = cancelled l db /\
    resp = cancel_response l.
Proof.
  unfold cancel_subscription, except_handler, bind at 1.
  destruct (cancel_validate env u c db) as [[e|l] d] eqn:EV.
  - destruct e; discriminate.
  - pose proof (cancel_validate_reads_only _ _ _ _ _ _ EV). subst d.
    unfold bind at 1.
    destruct (cancel_apply env l db) as [[e|[]] d] eqn:EA.
    + destruct e; discriminate.
    + unfold ret. intros H. inversion H; subst.
      apply cancel_apply_done in EA. exists l. auto.
Qed.

(** ** The registry under deletion and insertion *)

Lemma same_index_key_spec uid fid s :
  same_index_key uid fid s = true <-> index_key s = (uid, fid).
Proof.
  unfold same_index_key, index_key. rewrite andb_true_iff, String.eqb_eq, Z.eqb_eq.
  split; [intros [-> ->]; reflexivity | intros H; inversion H; auto].
Qed.

Lemma active_filter_index_key uid fid s :
  active_subscription_filter uid fid s = true ->
  index_key s = (uid, fid) /\ sub_is_active s = true.
Proof.
  unfold active_subscription_filter. rewrite andb_true_iff.
  intros [H Ha]. split; [apply same_index_key_spec; exact H | exact Ha].
Qed.

Lemma active_filter_same_key uid fid s :
  active_subscription_filter uid fid s = same_index_key uid fid s && sub_is_active s.
Proof. reflexivity. Qed.

Lemma no_key_filter_nil uid fid (coll : list SubscriptionDoc) :
  ~ In (uid, fid) (map index_key coll) -> filter (same_index_key uid fid) coll = [].
Proof.
  induction coll as [|x rest IH]; simpl; [reflexivity|].
  intros H. destruct (same_index_key uid fid x) eqn:E.
  - apply same_index_key_spec in E. exfalso. apply H. left. exact E.
  - apply IH. intros HI. apply H. right. exact HI.
Qed.

(** Deleting by [_id] the document that [find_one] returned for the pair
    leaves no document of the pair, granted the two uniqueness guarantees. *)
Lemma delete_found_clears_key (coll : list SubscriptionDoc) uid fid s :
  NoDup (map sub_oid coll) -> NoDup (map index_key coll) ->
  find_one (active_subscription_filter uid fid) coll = Some s ->
  filter (same_index_key uid fid)
         (delete_one (subscription_oid_filter (sub_oid s)) coll) = [].
Proof.
  unfold find_one. induction coll as [|x rest IH]; simpl; [discriminate|].
  intros Hoid Hkey Hfind. inversion Hoid as [|? ? Hn1 Hd1]; subst.
  inversion Hkey as [|? ? Hn2 Hd2]; subst.
  destruct (active_subscription_filter uid fid x) eqn:EP.
  - inversion Hfind; subst x. unfold subscription_oid_filter at 1.
    rewrite Nat.eqb_refl. apply no_key_filter_nil.
    apply active_filter_index_key in EP. destruct EP as [EK _].
    rewrite <- EK. exact Hn2.
  - pose proof (find_some _ _ Hfind) as [Hin Hp].
    apply active_filter_index_key in Hp. destruct Hp as [EK _].
    unfold subscription_oid_filter at 1.
    destruct (Nat.eqb (sub_oid x) (sub_oid s)) eqn:EO.
    + apply Nat.eqb_eq in EO. exfalso. apply Hn1. rewrite EO.
      apply in_map. exact Hin.
    + simpl. destruct (same_index_key uid fid x) eqn:ES.
      * apply same_index_key_spec in ES. exfalso. apply Hn2. rewrite ES, <- EK.
        apply in_map. exact Hin.
      * apply IH; assumption.
Qed.

Lemma delete_one_incl {A} (p : A -> bool) (coll : list A) x :
  In x (delete_one p coll) -> In x coll.
Proof.
  induction coll as [|y rest IH]; simpl; [auto|].
  destruct (p y); simpl; intuition.
Qed.

Lemma delete_one_NoDup {A B} (f : A -> B) (p : A -> bool) (coll : list A) :
  NoDup (map f coll) -> NoDup (map f (delete_one p coll)).
Proof.
  induction coll as [|y rest IH]; simpl; [auto|].
  intros H. inversion H as [|? ? Hn Hd]; subst.
  destruct (p y); simpl; [exact Hd|].
  constructor; [|apply IH; exact Hd].
  intros HI. apply Hn. apply in_map_iff in HI. destruct HI as (z & Ez & Hz).
  apply in_map_iff. exists z. split; [exact Ez | eapply delete_one_incl; exact Hz].
Qed.

Lemma fresh_oid_above (coll : list SubscriptionDoc) n :
  In n (map sub_oid coll) -> (n < fresh_oid coll)%nat.
Proof.
  unfold fresh_oid. induction coll as [|x rest IH]; simpl; [contradiction|].
  intros [<-|H]; [lia|]. specialize (IH H). lia.
Qed.

Lemma fresh_oid_new (coll : list SubscriptionDoc) :
  ~ In (fresh_oid coll) (map sub_oid coll).
Proof. intros H. apply fresh_oid_above in H. lia. Qed.

Lemma existsb_false_no_key uid fid (coll : list SubscriptionDoc) :
  existsb (same_index_key uid fid) coll = false ->
  ~ In (uid, fid) (map index_key coll).
Proof.
  intros HX HI. apply in_map_iff in HI. destruct HI as (s & Es & Hs).
  apply same_index_key_spec in Es.
  assert (existsb (same_index_key uid fid) coll = true)
    by (apply existsb_exists; exists s; auto).
  congruence.
Qed.

Lemma NoDup_snoc {A} (l : list A) x : NoDup l -> ~ In x l -> NoDup (l ++ [x]).
Proof.
  intros Hl Hx. apply NoDup_app; [exact Hl | repeat constructor; simpl; tauto |].
  intros a Ha [<-|[]]. exact (Hx Ha).
Qed.

Lemma registry_ok_subscribed u r l created db :
  existsb (same_index_key (user_id u) (fund_id r)) (user_subscriptions db) = false ->
  registry_ok db -> registry_ok (subscribed u r l created db).
Proof.
  intros HX [H1 H2]. unfold registry_ok, subscribed. simpl.
  rewrite !map_app. simpl. split; apply NoDup_snoc; auto.
  - apply fresh_oid_new.
  - apply existsb_false_no_key. exact HX.
Qed.

Lemma registry_ok_cancelled l db : registry_ok db -> registry_ok (cancelled l db).
Proof.
  intros [H1 H2]. unfold registry_ok, cancelled. simpl.
  split; apply delete_one_NoDup; assumption.
Qed.

Lemma balance_of_cancelled l db uid oid :
  ObjectId uid = Some oid -> cl_object_id l = oid ->
  balance_of uid (cancelled l db) =
  option_map (fun _ => user_balance (cl_user l) + sub_amount (cl_subscription l))
             (balance_of uid db).
Proof.
  intros HO HL. unfold balance_of. rewrite HO. simpl. rewrite HL.
  rewrite find_one_update_one by (intros; apply user_filter_set_balance).
  destruct (find_one (user_filter oid) (users db)); reflexivity.
Qed.

Lemma filter_same_key_active_nil uid fid (coll : list SubscriptionDoc) :
  filter (same_index_key uid fid) coll = [] ->
  filter (active_subscription_filter uid fid) coll = [].
Proof.
  induction coll as [|x rest IH]; simpl; [reflexivity|].
  rewrite active_filter_same_key.
  destruct (same_index_key uid fid x); simpl; [discriminate | exact IH].
Qed.

(** ** The sample registry *)

Lemma registry_ok_db1 : registry_ok db1.
Proof.
  split; simpl; repeat constructor; simpl; tauto.
Qed.

(** ** Acceptance and rejection by [subscribe_to_fund] *)

(** An error of the validation phase is the answer of the handler, and the
    database is left as it was. *)
Lemma subscribe_to_fund_rejects env u r db e d :
  subscribe_validate env u r db = (inl e, d) ->
  subscribe_to_fund env u r db =
    (inl match e with
         | Http h => h
         | _ => http_error HTTP_500_INTERNAL_SERVER_ERROR ErrorProcesandoSuscripcion
         end, db).
Proof.
  intros H. pose proof (subscribe_validate_reads_only _ _ _ _ _ _ H). subst d.
  unfold subscribe_to_fund, except_handler, bind. rewrite H.
  destruct e; reflexivity.
Qed.

Lemma subscribe_to_fund_accepts env u r db fund oid user :
  outage env = None ->
  find_one (active_fund_filter (fund_id r)) (funds db) = Some fund ->
  fund_minimum_amount fund <= amount r ->
  ObjectId (user_id u) = Some oid ->
  find_one (user_filter oid) (users db) = Some user ->
  amount r <= user_balance user ->
  subscription_documents (user_id u) (fund_id r) db = [] ->
  exists l,
    subscribe_to_fund env u r db =
      (inr (subscribe_response l), subscribed u r l (later_loop_time env) db) /\
    sl_object_id l = oid /\ sl_amount_decimal l = amount r /\
    sl_user_balance_decimal l = user_balance user /\ sl_fund l = fund.
Proof.
  intros HQ HF HM HO HU HB HD.
  assert (HN : forall s, outage env <> Some s) by (intros s; rewrite HQ; discriminate).
  assert (HS : find_one (active_subscription_filter (user_id u) (fund_id r))
                 (user_subscriptions db) = None).
  { apply filter_nil_find_one, filter_same_key_active_nil. exact HD. }
  destruct (subscribe_validate_passes env u r db fund oid user
              (HN _) (HN _) (HN _) HF HM HO HU HB HS) as (l & HV & HL).
  exists l. split; [|exact HL].
  unfold subscribe_to_fund, except_handler, bind. rewrite HV.
  rewrite (subscribe_apply_runs env u r l db (HN _) (HN _) (HN _) (HN _))
    by (apply filter_nil_existsb; exact HD).
  reflexivity.
Qed.

(** ** C6: the minimum amount is inclusive *)



(** ** C7: the order of the balance check and the duplicate check *)




(** ** C9: inactive funds *)

(** C9, as the code has it.  The catalog is searched with
    [{"fund_id": ..., "is_active": True}]: when no active document carries the
    requested id, whether the fund is in the catalog and switched off or not in
    the catalog at all, the request is refused with one and the same error,
    404 "Fondo con ID ... no encontrado", and nothing changes. *)
Theorem inactive_fund_not_found env u r db :
  outage env <> Some FindFund ->
  (forall f, In f (funds db) -> fund_fund_id f = fund_id r -> fund_is_active f = false) ->
  subscribe_to_fund env u r db
    = (inl (http_error HTTP_404_NOT_FOUND (FondoNoEncontrado (fund_id r))), db).
Proof.
  intros O1 HI.
  apply (subscribe_to_fund_rejects env u r db
           (Http (http_error HTTP_404_NOT_FOUND (FondoNoEncontrado (fund_id r)))) db).
  unfold subscribe_validate. unfold_monad.
  rewrite (await_up _ _ _ O1).
  destruct (find_one (active_fund_filter (fund_id r)) (funds db)) as [f|] eqn:EF;
    [|reflexivity].
  apply find_some in EF. destruct EF as [Hin Hp].
  unfold active_fund_filter in Hp. apply andb_true_iff in Hp. destruct Hp as [Hid Ha].
  apply Z.eqb_eq in Hid. rewrite (HI f Hin Hid) in Ha. discriminate.
Qed.

Lemma inactive_fund_not_found_witness :
  let r := {| fund_id := 2; amount := 125000 |} in
  In ecopetrol_inactive (funds db_inactive) /\
  fund_fund_id ecopetrol_inactive = fund_id r /\
  subscribe_to_fund (quiet "t4" 13) alice r db_inactive
    = (inl (http_error 404 (FondoNoEncontrado 2)), db_inactive).
Proof.
  intros r. split; [simpl; auto|]. split; [reflexivity|].
  apply (inactive_fund_not_found (quiet "t4" 13) alice r db_inactive).
  - simpl. discriminate.
  - intros f [<-|[<-|[<-|[]]]]; simpl; intros E; try reflexivity; discriminate E.
Defined.

(** C9 as stated fails: the error for fund 2, present and inactive in
    [db_inactive], is the very error for fund 2 where the catalog does not have
    it ([db0]); no separate inactive-fund error exists. *)
Lemma inactive_error_not_distinct :
  let r := {| fund_id := 2; amount := 125000 |} in
  In ecopetrol_inactive (funds db_inactive) /\
  ~ (exists f, In f (funds db0) /\ fund_fund_id f = 2) /\
  ~ (fst (subscribe_to_fund (quiet "t4" 13) alice r db_inactive)
       <> fst (subscribe_to_fund (quiet "t4" 13) alice r db0)).
Proof.
  intros r. split; [simpl; auto|]. split.
  - intros (f & [<-|[<-|[]]] & E); discriminate E.
  - intros H. apply H. reflexivity.
Qed.

(** ** C8: a resubmitted subscription *)





(** ** C10: a cancelled subscription is deleted *)

(** C10.  After a successful [cancel_subscription] on a registry that meets
    its uniqueness guarantees, no document of the pair (account, fund) is left
    in [user_subscriptions], active or not; looking up the active subscription
    of the pair finds nothing; the guarantees still hold; the unique index
    accepts a new document for the pair; and a later subscription of the same
    account to the same fund that passes the validations succeeds and leaves
    exactly one document for the pair, new and active. *)
Theorem cancel_deletes_document env u c db resp db' :
  registry_ok db ->
  cancel_subscription env u c db = (inr resp, db') ->
  subscription_documents (user_id u) (cancel_fund_id c) db' = [] /\
  find_one (active_subscription_filter (user_id u) (cancel_fund_id c))
           (user_subscriptions db') = None /\
  registry_ok db' /\
  (forall amt created, exists db'',
      insert_subscription (user_id u) (cancel_fund_id c) amt created db' = (inr tt, db'')) /\
  (forall env2 amt fund,
      outage env2 = None ->
      find_one (active_fund_filter (cancel_fund_id c)) (funds db') = Some fund ->
      fund_minimum_amount fund <= amt ->
      amt <= resp_balance_after resp ->
      exists resp2 db2 s,
        subscribe_to_fund env2 u {| fund_id := cancel_fund_id c; amount := amt |} db'
          = (inr resp2, db2) /\
        subscription_documents (user_id u) (cancel_fund_id c) db2 = [s] /\
        sub_is_active s = true /\ sub_amount s = amt /\
        sub_oid s = fresh_oid (user_subscriptions db') /\
        registry_ok db2).
Proof.
  intros Hok H. apply cancel_subscription_succeeded in H.
  destruct H as (l & HV & HD & HR).
  apply cancel_validate_passed in HV.
  destruct HV as (fund & s & oid & user & HF & HS & HO & HU & HL).
  assert (Hgone : subscription_documents (user_id u) (cancel_fund_id c) db' = []).
  { rewrite HD. unfold subscription_documents, cancelled. simpl. subst l. simpl.
    destruct Hok as [H1 H2]. apply delete_found_clears_key; assumption. }
  assert (Hok' : registry_ok db') by (rewrite HD; apply registry_ok_cancelled; exact Hok).
  split; [exact Hgone|].
  split; [apply filter_nil_find_one, filter_same_key_active_nil; exact Hgone|].
  split; [exact Hok'|].
  split.
  - intros amt created. unfold insert_subscription.
    rewrite (filter_nil_existsb _ _ Hgone). eauto.
  - intros env2 amt fund2 HQ HF2 HM2 HB2.
    assert (HU' : find_one (user_filter oid) (users db')
                  = Some {| user_oid := user_oid user;
                            user_balance := user_balance user + sub_amount s |}).
    { rewrite HD. unfold cancelled. simpl. subst l. simpl.
      rewrite find_one_update_one by (intros; apply user_filter_set_balance).
      rewrite HU. reflexivity. }
    destruct (subscribe_to_fund_accepts env2 u
                {| fund_id := cancel_fund_id c; amount := amt |} db' fund2 oid _
                HQ HF2 HM2 HO HU') as (l2 & HR2 & _ & HA2 & _).
    { simpl. rewrite HR in HB2. subst l. simpl in HB2. exact HB2. }
    { exact Hgone. }
    eexists. eexists. eexists. split; [exact HR2|].
    split.
    { unfold subscription_documents, subscribed. simpl.
      rewrite filter_app. unfold subscription_documents in Hgone. rewrite Hgone.
      simpl. unfold same_index_key at 1. simpl.
      rewrite String.eqb_refl, Z.eqb_refl. reflexivity. }
    simpl. split; [reflexivity|]. split; [exact HA2|]. split; [reflexivity|].
    apply registry_ok_subscribed; [|exact Hok'].
    apply filter_nil_existsb. exact Hgone.
Qed.

Lemma cancel_deletes_document_witness :
  let c := {| cancel_fund_id := 1 |} in
  let db2 := snd (cancel_subscription (quiet "t2" 11) alice c db1) in
  registry_ok db1 /\
  (exists resp, cancel_subscription (quiet "t2" 11) alice c db1 = (inr resp, db2)) /\
  user_subscriptions db2 = [] /\
  subscription_documents (user_id alice) 1 db2 = [] /\
  registry_ok db2.
Proof.
  intros c db2.
  destruct (cancel_deletes_document (quiet "t2" 11) alice c db1 _ db2 registry_ok_db1
              eq_refl) as (H1 & _ & H3 & _).
  split; [exact registry_ok_db1|]. split; [eexists; reflexivity|].
  split; [reflexivity|]. split; [exact H1 | exact H3].
Defined.

(** ** C4: failures in the middle of the write phase *)

(** The part of atomicity that holds: a request refused by a validation, or
    hit by an outage during the reads, leaves the three stores untouched. *)
Lemma cancel_subscription_rejects env u c db e d :
  cancel_validate env u c db = (inl e, d) ->
  cancel_subscription env u c db =
    (inl match e with
         | Http h => h
         | _ => http_error HTTP_500_INTERNAL_SERVER_ERROR ErrorProcesandoCancelacion
         end, db).
Proof.
  intros H. pose proof (cancel_validate_reads_only _ _ _ _ _ _ H). subst d.
  unfold cancel_subscription, except_handler, bind. rewrite H.
  destruct e; reflexivity.
Qed.

(** Whatever passed validation, an outage at the last write of
    [subscribe_to_fund] comes after the ledger row and the debit. *)
Lemma subscribe_outage_at_last_write env u r db l :
  outage env = Some InsertSubscription ->
  subscribe_validate env u r db = (inr l, db) ->
  subscribe_to_fund env u r db =
    (inl (http_error HTTP_500_INTERNAL_SERVER_ERROR ErrorProcesandoSuscripcion),
     {| funds := funds db;
        users := update_one (user_filter (sl_object_id l))
                   (fun x => {| user_oid := user_oid x;
                                user_balance :=
                                  sl_user_balance_decimal l - sl_amount_decimal l |})
                   (users db);
        user_subscriptions := user_subscriptions db;
        transactions := transactions db ++ [sl_transaction l] |}).
Proof.
  intros HQ HV. unfold subscribe_to_fund, except_handler, bind at 1. rewrite HV.
  unfold subscribe_apply, insert_transaction, set_balance, await. unfold_monad.
  rewrite HQ. reflexivity.
Qed.

(** C4 does not hold of the code.  The three writes of each handler are not
    given the session, so each is committed when it runs, and a failure between
    them leaves a part applied.
    (a) The store fails at the last write of a subscription of 75000 into
        fund 1 from [db0]: the caller gets the 500, the balance went from 500000
        to 425000, the ledger has a "completed" record 500000 to 425000, and
        there is no subscription.
    (b) The same without any outage, on [db_stale]: the unique index refuses
        the new document after the ledger row and the debit.
    (c) The store fails at the last write of the cancellation of fund 1 from
        [db1]: the balance went back from 425000 to 500000, the ledger has the
        cancellation, and the subscription is still there and active. *)
Theorem failure_leaves_partial_effects :
  let r := {| fund_id := 1; amount := 75000 |} in
  let c := {| cancel_fund_id := 1 |} in
  (let '(res, db') := subscribe_to_fund (down_at "t1" 10 InsertSubscription) alice r db0 in
   res = inl (http_error 500 ErrorProcesandoSuscripcion) /\
   balance_of (user_id alice) db0 = Some 500000 /\
   balance_of (user_id alice) db' = Some 425000 /\
   user_subscriptions db' = [] /\
   exists t, transactions db' = transactions db0 ++ [t] /\
             transaction_type t = SUBSCRIPTION /\ txn_status t = "completed" /\
             balance_before t = 500000 /\ balance_after t = 425000) /\
  (let '(res, db') := subscribe_to_fund (quiet "t1" 10) alice r db_stale in
   res = inl (http_error 500 ErrorProcesandoSuscripcion) /\
   balance_of (user_id alice) db_stale = Some 500000 /\
   balance_of (user_id alice) db' = Some 425000 /\
   user_subscriptions db' = user_subscriptions db_stale /\
   active_subscriptions_to (user_id alice) 1 db' = [] /\
   exists t, transactions db' = transactions db_stale ++ [t] /\
             transaction_type t = SUBSCRIPTION /\ txn_status t = "completed" /\
             balance_before t = 500000 /\ balance_after t = 425000) /\
  (let '(res, db') := cancel_subscription (down_at "t2" 11 DeleteSubscription) alice c db1 in
   res = inl (http_error 500 ErrorProcesandoCancelacion) /\
   balance_of (user_id alice) db1 = Some 425000 /\
   balance_of (user_id alice) db' = Some 500000 /\
   user_subscriptions db' = user_subscriptions db1 /\
   exists t, transactions db' = transactions db1 ++ [t] /\
             transaction_type t = CANCELLATION /\ txn_status t = "completed" /\
             balance_before t = 425000 /\ balance_after t = 500000).
Proof.
  intros r c. split; [|split].
  - vm_compute. repeat split. eexists. repeat split.
  - vm_compute. repeat split. eexists. repeat split.
  - vm_compute. repeat split. eexists. repeat split.
Qed.

(** ** C3: conservation of balance plus invested amounts *)

Lemma sum_amounts_app l1 l2 : sum_amounts (l1 ++ l2) = sum_amounts l1 + sum_amounts l2.
Proof.
  unfold sum_amounts. induction l1 as [|x rest IH]; simpl; [reflexivity|].
  rewrite IH. lia.
Qed.

Lemma total_invested_sum uid db :
  total_invested uid db = sum_amounts (active_subscriptions_of uid db).
Proof. reflexivity. Qed.

Lemma total_invested_subscribed u r l created db :
  total_invested (user_id u) (subscribed u r l created db)
  = total_invested (user_id u) db + sl_amount_decimal l.
Proof.
  rewrite !total_invested_sum. unfold active_subscriptions_of, subscribed. simpl.
  rewrite filter_app, sum_amounts_app. simpl. rewrite String.eqb_refl. simpl.
  unfold sum_amounts at 2. simpl. lia.
Qed.

(** Deleting by [_id] a document of the collection removes that very
    document, and with it its amount from any sum it took part in. *)
Lemma sum_amounts_delete (q : SubscriptionDoc -> bool) (coll : list SubscriptionDoc) s :
  NoDup (map sub_oid coll) -> In s coll -> q s = true ->
  sum_amounts (filter q coll)
  = sub_amount s
    + sum_amounts (filter q (delete_one (subscription_oid_filter (sub_oid s)) coll)).
Proof.
  induction coll as [|x rest IH]; simpl; [contradiction|].
  intros Hnd Hin Hq. inversion Hnd as [|? ? Hn Hd]; subst.
  unfold subscription_oid_filter at 1.
  destruct (Nat.eqb (sub_oid x) (sub_oid s)) eqn:EO.
  - apply Nat.eqb_eq in EO. destruct Hin as [->|Hin].
    + rewrite Hq. reflexivity.
    + exfalso. apply Hn. rewrite EO. apply in_map. exact Hin.
  - destruct Hin as [->|Hin]; [rewrite Nat.eqb_refl in EO; discriminate|].
    simpl. specialize (IH Hd Hin Hq).
    destruct (q x); [|exact IH].
    unfold sum_amounts in *. simpl. rewrite IH. lia.
Qed.

Lemma total_invested_cancelled l db uid fid :
  NoDup (map sub_oid (user_subscriptions db)) ->
  find_one (active_subscription_filter uid fid) (user_subscriptions db)
    = Some (cl_subscription l) ->
  total_invested uid db
  = sub_amount (cl_subscription l) + total_invested uid (cancelled l db).
Proof.
  intros Hnd HS. apply find_some in HS. destruct HS as [Hin Hp].
  rewrite !total_invested_sum. unfold active_subscriptions_of, cancelled. simpl.
  apply sum_amounts_delete; [exact Hnd | exact Hin |].
  unfold active_subscription_filter in Hp.
  apply andb_true_iff in Hp. destruct Hp as [Hp Ha].
  apply andb_true_iff in Hp. destruct Hp as [Hu _].
  rewrite Hu, Ha. reflexivity.
Qed.

Lemma all_active_no_hidden_document uid fid (coll : list SubscriptionDoc) :
  Forall (fun s => sub_is_active s = true) coll ->
  find_one (active_subscription_filter uid fid) coll = None ->
  existsb (same_index_key uid fid) coll = false.
Proof.
  intros Hall HS. apply filter_nil_existsb.
  apply find_one_none_filter in HS.
  induction Hall as [|x rest Hx Hrest IH]; simpl in *; [reflexivity|].
  rewrite active_filter_same_key, Hx, andb_true_r in HS.
  destruct (same_index_key uid fid x); [discriminate | exact (IH HS)].
Qed.

Lemma all_active_subscribed u r l created db :
  all_active db -> all_active (subscribed u r l created db).
Proof.
  unfold all_active, subscribed. simpl. intros H.
  apply Forall_app. split; [exact H | repeat constructor].
Qed.

Lemma all_active_cancelled l db : all_active db -> all_active (cancelled l db).
Proof.
  unfold all_active, cancelled. simpl. intros H.
  rewrite Forall_forall in *. intros x Hx. apply H.
  eapply delete_one_incl. exact Hx.
Qed.

(** With the store available and a registry in which every document is
    active, one subscription or cancellation, accepted or refused, keeps
    balance plus total invested and keeps the registry in that condition. *)
Lemma perform_conserves u op db :
  outage (op_env op) = None -> registry_ok db -> all_active db ->
  holdings (user_id u) (snd (perform u op db)) = holdings (user_id u) db /\
  registry_ok (snd (perform u op db)) /\ all_active (snd (perform u op db)).
Proof.
  intros HQ Hok Hact.
  assert (HN : forall s, outage (op_env op) <> Some s)
    by (intros s; rewrite HQ; discriminate).
  destruct op as [env r|env c]; simpl in *.
  - destruct (subscribe_validate env u r db) as [[e|l] d] eqn:EV.
    + rewrite (subscribe_to_fund_rejects _ _ _ _ _ _ EV). simpl. auto.
    + pose proof (subscribe_validate_reads_only _ _ _ _ _ _ EV). subst d.
      pose proof (subscribe_validate_passed _ _ _ _ _ _ EV)
        as (fund & oid & user & HF & HM & HO & HU & HB & HS & HL).
      pose proof (all_active_no_hidden_document _ _ _ Hact HS) as HX.
      unfold subscribe_to_fund, except_handler, bind. rewrite EV.
      rewrite (subscribe_apply_runs env u r l db (HN _) (HN _) (HN _) (HN _) HX).
      simpl. split; [|split].
      * unfold holdings.
        rewrite (balance_of_subscribed u r l _ db oid HO) by (subst l; reflexivity).
        rewrite total_invested_subscribed.
        destruct (balance_of (user_id u) db) as [b|] eqn:EB; simpl; [|reflexivity].
        unfold balance_of in EB. rewrite HO, HU in EB. simpl in EB.
        inversion EB; subst b. subst l. simpl. f_equal. lia.
      * apply registry_ok_subscribed; assumption.
      * apply all_active_subscribed. exact Hact.
  - destruct (cancel_validate env u c db) as [[e|l] d] eqn:EV.
    + rewrite (cancel_subscription_rejects _ _ _ _ _ _ EV). simpl. auto.
    + pose proof (cancel_validate_reads_only _ _ _ _ _ _ EV). subst d.
      pose proof (cancel_validate_passed _ _ _ _ _ _ EV)
        as (fund & s & oid & user & HF & HS & HO & HU & HL).
      unfold cancel_subscription, except_handler, bind. rewrite EV.
      rewrite (cancel_apply_runs env l db (HN _) (HN _) (HN _) (HN _)).
      simpl. split; [|split].
      * unfold holdings.
        rewrite (balance_of_cancelled l db _ oid HO) by (subst l; reflexivity).
        destruct Hok as [Hoid _].
        rewrite (total_invested_cancelled l db (user_id u) (cancel_fund_id c) Hoid)
          by (subst l; exact HS).
        destruct (balance_of (user_id u) db) as [b|] eqn:EB; simpl; [|reflexivity].
        unfold balance_of in EB. rewrite HO, HU in EB. simpl in EB.
        inversion EB; subst b. subst l. simpl. f_equal. lia.
      * apply registry_ok_cancelled. exact Hok.
      * apply all_active_cancelled. exact Hact.
Qed.

(** Conservation over sequences, where it holds: the store stays available
    and the registry starts with active documents only. *)
Lemma conservation_without_failed_writes u ops : forall db,
  Forall (fun op => outage (op_env op) = None) ops ->
  registry_ok db -> all_active db ->
  holdings (user_id u) (perform_all u ops db) = holdings (user_id u) db.
Proof.
  unfold perform_all.
  induction ops as [|op rest IH]; intros db Hq Hok Hact; simpl; [reflexivity|].
  inversion Hq as [|? ? Hop Hrest]; subst.
  destruct (perform_conserves u op db Hop Hok Hact) as (Hh & Hok' & Hact').
  rewrite (IH _ Hrest Hok' Hact'). exact Hh.
Qed.

(** C3 does not hold of the code.  Sequences of one operation, each refused
    with a 500, after which balance plus total invested has dropped from 500000
    to 425000:
    (a) a subscription of 75000 into fund 1 from [db0] whose last write meets
        an outage of the store;
    (b) the same subscription, store available, from [db_stale], where the
        unique index refuses the new document.
    And one after which it has risen from 500000 to 575000:
    (c) the cancellation of fund 1 from [db1] whose last write meets an
        outage. *)
Theorem conservation_broken_by_failed_write :
  let r := {| fund_id := 1; amount := 75000 |} in
  let c := {| cancel_fund_id := 1 |} in
  (holdings (user_id alice) db0 = Some 500000 /\
   fst (perform alice (Subscribe (down_at "t1" 10 InsertSubscription) r) db0)
     = inl (http_error 500 ErrorProcesandoSuscripcion) /\
   holdings (user_id alice)
     (perform_all alice [Subscribe (down_at "t1" 10 InsertSubscription) r] db0)
     = Some 425000) /\
  (holdings (user_id alice) db_stale = Some 500000 /\
   registry_ok db_stale /\
   fst (perform alice (Subscribe (quiet "t1" 10) r) db_stale)
     = inl (http_error 500 ErrorProcesandoSuscripcion) /\
   holdings (user_id alice) (perform_all alice [Subscribe (quiet "t1" 10) r] db_stale)
     = Some 425000) /\
  (holdings (user_id alice) db1 = Some 500000 /\
   fst (perform alice (Cancel (down_at "t2" 11 DeleteSubscription) c) db1)
     = inl (http_error 500 ErrorProcesandoCancelacion) /\
   holdings (user_id alice)
     (perform_all alice [Cancel (down_at "t2" 11 DeleteSubscription) c] db1)
     = Some 575000).
Proof.
  intros r c. split; [|split].
  - repeat split; reflexivity.
  - split; [reflexivity|]. split; [|split; reflexivity].
    split; simpl; repeat constructor; simpl; tauto.
  - repeat split; reflexivity.
Qed.

(** ** C5: concurrent subscriptions *)

(** The handler is its two phases run back to back. *)
Lemma subscribe_to_fund_two_steps env u r db :
  let '(t1, d1) := advance (Received env u r) db in
  let '(t2, d2) := advance t1 d1 in
  (t2, d2) =
  (Responded (fst (subscribe_to_fund env u r db)), snd (subscribe_to_fund env u r db)).
Proof.
  unfold advance at 1. unfold subscribe_to_fund, except_handler, bind.
  destruct (subscribe_validate env u r db) as [[e|l] d] eqn:EV.
  - destruct e; reflexivity.
  - simpl. unfold except_handler, bind.
    destruct (subscribe_apply env u r l d) as [[e|x] d']; [destruct e|]; reflexivity.
Qed.

Lemma update_one_Forall {A} (P : A -> Prop) (p : A -> bool) (f : A -> A) coll :
  (forall x, P (f x)) -> Forall P coll -> Forall P (update_one p f coll).
Proof.
  intros Hf H. induction H as [|x rest Hx Hrest IH]; simpl; [constructor|].
  destruct (p x); constructor; auto.
Qed.









(** * Further properties of the handlers *)

(** ** What one call can do to the stores *)

(** Whatever its outcome, the write phase of [subscribe_to_fund] leaves the
    catalog alone, appends at most its own ledger record, sets at most the
    validated balance, and appends at most one document that the unique index
    let in. *)
Lemma subscribe_apply_effects env u r l db x db' :
  subscribe_apply env u r l db = (x, db') ->
  funds db' = funds db /\
  (transactions db' = transactions db \/
   transactions db' = transactions db ++ [sl_transaction l]) /\
  (users db' = users db \/
   users db' = update_one (user_filter (sl_object_id l))
                 (fun y => {| user_oid := user_oid y;
                              user_balance :=
                                sl_user_balance_decimal l - sl_amount_decimal l |})
                 (users db)) /\
  (user_subscriptions db' = user_subscriptions db \/
   (existsb (same_index_key (user_id u) (fund_id r)) (user_subscriptions db) = false /\
    user_subscriptions db' =
      user_subscriptions db ++
        [{| sub_oid := fresh_oid (user_subscriptions db);
            sub_user_id := user_id u; sub_fund_id := fund_id r;
            sub_amount := sl_amount_decimal l;
            sub_is_active := true; sub_created_at := later_loop_time env |}])).
Proof.
  unfold subscribe_apply, insert_transaction, set_balance, insert_subscription.
  unfold_monad.
  destruct (await_cases env StartSession db) as [[E _]|[E _]]; rewrite E;
    [|intros H; inversion H; auto].
  destruct (await_cases env InsertTransaction db) as [[E1 _]|[E1 _]]; rewrite E1;
    [|intros H; inversion H; auto].
  match goal with |- context [await env UpdateBalance ?d] =>
    destruct (await_cases env UpdateBalance d) as [[E2 _]|[E2 _]]; rewrite E2;
      [|intros H; inversion H; simpl; auto] end.
  match goal with |- context [await env InsertSubscription ?d] =>
    destruct (await_cases env InsertSubscription d) as [[E3 _]|[E3 _]]; rewrite E3;
      [|intros H; inversion H; simpl; auto] end.
  simpl. destruct (existsb _ (user_subscriptions db)) eqn:EX;
    intros H; inversion H; simpl; auto 6.
Qed.

Lemma cancel_apply_effects env l db x db' :
  cancel_apply env l db = (x, db') ->
  funds db' = funds db /\
  (transactions db' = transactions db \/
   transactions db' = transactions db ++ [cl_transaction l]) /\
  (users db' = users db \/
   users db' = update_one (user_filter (cl_object_id l))
                 (fun y => {| user_oid := user_oid y;
                              user_balance :=
                                user_balance (cl_user l) + sub_amount (cl_subscription l) |})
                 (users db)) /\
  (user_subscriptions db' = user_subscriptions db \/
   user_subscriptions db' =
     delete_one (subscription_oid_filter (sub_oid (cl_subscription l)))
                (user_subscriptions db)).
Proof.
  unfold cancel_apply, insert_transaction, set_balance, delete_subscription.
  unfold_monad.
  destruct (await_cases env StartSession db) as [[E _]|[E _]]; rewrite E;
    [|intros H; inversion H; auto].
  destruct (await_cases env InsertTransaction db) as [[E1 _]|[E1 _]]; rewrite E1;
    [|intros H; inversion H; auto].
  match goal with |- context [await env UpdateBalance ?d] =>
    destruct (await_cases env UpdateBalance d) as [[E2 _]|[E2 _]]; rewrite E2;
      [|intros H; inversion H; simpl; auto] end.
  match goal with |- context [await env DeleteSubscription ?d] =>
    destruct (await_cases env DeleteSubscription d) as [[E3 _]|[E3 _]]; rewrite E3;
      [|intros H; inversion H; simpl; auto] end.
  simpl. intros H; inversion H; simpl; auto 6.
Qed.

(** The two ways a call of [subscribe_to_fund] goes: refused by the
    validation phase, the database as it was; or validated, and then whatever
    the write phase did. *)
Lemma subscribe_to_fund_phases env u r db :
  (exists e, subscribe_validate env u r db = (inl e, db) /\
             snd (subscribe_to_fund env u r db) = db /\
             exists h, fst (subscribe_to_fund env u r db) = inl h) \/
  (exists l x, subscribe_validate env u r db = (inr l, db) /\
               subscribe_apply env u r l db = (x, snd (subscribe_to_fund env u r db)) /\
               match x with
               | inl _ => exists h, fst (subscribe_to_fund env u r db) = inl h
               | inr _ => fst (subscribe_to_fund env u r db) = inr (subscribe_response l)
               end).
Proof.
  destruct (subscribe_validate env u r db) as [[e|l] d] eqn:EV;
    pose proof (subscribe_validate_reads_only _ _ _ _ _ _ EV); subst d.
  - left. exists e. rewrite (subscribe_to_fund_rejects _ _ _ _ _ _ EV). simpl. eauto.
  - right. exists l. unfold subscribe_to_fund, except_handler, bind. rewrite EV.
    destruct (subscribe_apply env u r l db) as [[e|[]] d] eqn:EA.
    + exists (inl e). destruct e; simpl; eauto.
    + exists (inr tt). simpl. auto.
Qed.

Lemma cancel_subscription_phases env u c db :
  (exists e, cancel_validate env u c db = (inl e, db) /\
             snd (cancel_subscription env u c db) = db /\
             exists h, fst (cancel_subscription env u c db) = inl h) \/
  (exists l x, cancel_validate env u c db = (inr l, db) /\
               cancel_apply env l db = (x, snd (cancel_subscription env u c db)) /\
               match x with
               | inl _ => exists h, fst (cancel_subscription env u c db) = inl h
               | inr _ => fst (cancel_subscription env u c db) = inr (cancel_response l)
               end).
Proof.
  destruct (cancel_validate env u c db) as [[e|l] d] eqn:EV;
    pose proof (cancel_validate_reads_only _ _ _ _ _ _ EV); subst d.
  - left. exists e. rewrite (cancel_subscription_rejects _ _ _ _ _ _ EV). simpl. eauto.
  - right. exists l. unfold cancel_subscription, except_handler, bind. rewrite EV.
    destruct (cancel_apply env l db) as [[e|[]] d] eqn:EA.
    + exists (inl e). destruct e; simpl; eauto.
    + exists (inr tt). simpl. auto.
Qed.

(** ** When the two handlers succeed *)



(** X2.  With the store available, [cancel_subscription] succeeds exactly
    when the catalog has a fund of the requested id, active or not, the account
    has an active subscription to it, and the user id is an ObjectId of an
    existing user.  The fund is looked up without the [is_active] filter, so a
    position in a fund that has been switched off can still be cancelled. *)
Theorem cancel_succeeds_exactly_when env u c db :
  outage env = None ->
  ((exists resp db', cancel_subscription env u c db = (inr resp, db')) <->
   (exists fund s oid user,
      find_one (fund_filter (cancel_fund_id c)) (funds db) = Some fund /\
      find_one (active_subscription_filter (user_id u) (cancel_fund_id c))
               (user_subscriptions db) = Some s /\
      ObjectId (user_id u) = Some oid /\
      find_one (user_filter oid) (users db) = Some user)).
Proof.
  intros HQ.
  assert (HN : forall s, outage env <> Some s) by (intros s; rewrite HQ; discriminate).
  split.
  - intros (resp & db' & H). apply cancel_subscription_succeeded in H.
    destruct H as (l & HV & _).
    apply cancel_validate_passed in HV.
    destruct HV as (fund & s & oid & user & HF & HS & HO & HU & _).
    exists fund, s, oid, user. auto.
  - intros (fund & s & oid & user & HF & HS & HO & HU).
    destruct (cancel_validate_passes env u c db fund s oid user
                (HN _) (HN _) (HN _) HF HS HO HU) as (l & HV & _).
    unfold cancel_subscription, except_handler, bind. rewrite HV.
    rewrite (cancel_apply_runs env l db (HN _) (HN _) (HN _) (HN _)).
    unfold ret. eauto.
Qed.

Lemma cancel_succeeds_exactly_when_witness :
  outage (quiet "t5" 20) = None /\
  find_one (active_fund_filter 2) (funds db_closed_fund) = None /\
  (exists resp db',
      cancel_subscription (quiet "t5" 20) alice {| cancel_fund_id := 2 |} db_closed_fund
        = (inr resp, db')).
Proof.
  split; [reflexivity|]. split; [reflexivity|].
  apply (cancel_succeeds_exactly_when (quiet "t5" 20) alice {| cancel_fund_id := 2 |}
           db_closed_fund eq_refl).
  exists ecopetrol_inactive. eexists. eexists. eexists.
  repeat split; reflexivity.
Defined.

(** ** Failures that leave no trace *)

(** X3.  A call of [subscribe_to_fund] that ends in an error has changed
    nothing, provided the store was not down at the balance update or at the
    insertion of the subscription and the registry has active documents only
    (so that the unique index cannot refuse the insertion after the
    duplicate check passed). *)
Theorem failed_subscribe_changes_nothing env u r db e db' :
  subscribe_to_fund env u r db = (inl e, db') ->
  outage env <> Some UpdateBalance ->
  outage env <> Some InsertSubscription ->
  all_active db ->
  db' = db.
Proof.
  intros H O3 O4 Hact.
  destruct (subscribe_validate env u r db) as [[x|l] d] eqn:EV.
  - rewrite (subscribe_to_fund_rejects _ _ _ _ _ _ EV) in H. inversion H. reflexivity.
  - pose proof (subscribe_validate_reads_only _ _ _ _ _ _ EV). subst d.
    pose proof (subscribe_validate_passed _ _ _ _ _ _ EV)
      as (_ & _ & _ & _ & _ & _ & _ & _ & HS & _).
    pose proof (all_active_no_hidden_document _ _ _ Hact HS) as HX.
    unfold subscribe_to_fund, except_handler, bind in H. rewrite EV in H.
    destruct (await_cases env StartSession db) as [[E1 N1]|[E1 _]].
    + destruct (await_cases env InsertTransaction db) as [[E2 N2]|[E2 _]].
      * rewrite (subscribe_apply_runs env u r l db N1 N2 O3 O4 HX) in H.
        unfold ret in H. discriminate H.
      * unfold subscribe_apply, bind in H. rewrite E1, E2 in H.
        inversion H. reflexivity.
    + unfold subscribe_apply, bind in H. rewrite E1 in H. inversion H. reflexivity.
Qed.

Lemma failed_subscribe_changes_nothing_witness :
  let r := {| fund_id := 1; amount := 75000 |} in
  all_active db0 /\
  subscribe_to_fund (down_at "t1" 10 InsertTransaction) alice r db0
    = (inl (http_error 500 ErrorProcesandoSuscripcion), db0).
Proof.
  intros r. assert (Ha : all_active db0) by constructor.
  split; [exact Ha|].
  destruct (subscribe_to_fund (down_at "t1" 10 InsertTransaction) alice r db0)
    as [[e|resp] d] eqn:E; [|vm_compute in E; discriminate E].
  rewrite (failed_subscribe_changes_nothing _ _ _ _ _ _ E
             ltac:(simpl; discriminate) ltac:(simpl; discriminate) Ha).
  vm_compute in E. inversion E. reflexivity.
Defined.

(** X4.  A call of [cancel_subscription] that ends in an error has changed
    nothing, provided the store was not down at the balance update or at the
    deletion of the subscription. *)
Theorem failed_cancel_changes_nothing env u c db e db' :
  cancel_subscription env u c db = (inl e, db') ->
  outage env <> Some UpdateBalance ->
  outage env <> Some DeleteSubscription ->
  db' = db.
Proof.
  intros H O3 O4.
  destruct (cancel_validate env u c db) as [[x|l] d] eqn:EV.
  - rewrite (cancel_subscription_rejects _ _ _ _ _ _ EV) in H. inversion H. reflexivity.
  - pose proof (cancel_validate_reads_only _ _ _ _ _ _ EV). subst d.
    unfold cancel_subscription, except_handler, bind in H. rewrite EV in H.
    destruct (await_cases env StartSession db) as [[E1 N1]|[E1 _]].
    + destruct (await_cases env InsertTransaction db) as [[E2 N2]|[E2 _]].
      * rewrite (cancel_apply_runs env l db N1 N2 O3 O4) in H.
        unfold ret in H. discriminate H.
      * unfold cancel_apply, bind in H. rewrite E1, E2 in H.
        inversion H. reflexivity.
    + unfold cancel_apply, bind in H. rewrite E1 in H. inversion H. reflexivity.
Qed.

Lemma failed_cancel_changes_nothing_witness :
  cancel_subscription (down_at "t2" 11 StartSession) alice {| cancel_fund_id := 1 |} db1
    = (inl (http_error 500 ErrorProcesandoCancelacion), db1).
Proof.
  destruct (cancel_subscription (down_at "t2" 11 StartSession) alice
              {| cancel_fund_id := 1 |} db1) as [[e|resp] d] eqn:E;
    [|vm_compute in E; discriminate E].
  rewrite (failed_cancel_changes_nothing _ _ _ _ _ _ E
             ltac:(simpl; discriminate) ltac:(simpl; discriminate)).
  vm_compute in E. inversion E. reflexivity.
Defined.

(** ** Subscribing and cancelling again *)

Lemma find_one_app_last {A} (p : A -> bool) (l : list A) x :
  find_one p l = None -> p x = true -> find_one p (l ++ [x]) = Some x.
Proof.
  unfold find_one. induction l as [|a rest IH]; simpl; intros Hn Hx.
  - rewrite Hx. reflexivity.
  - destruct (p a); [discriminate | auto].
Qed.

Lemma delete_one_app_last {A} (p : A -> bool) (l : list A) x :
  (forall y, In y l -> p y = false) -> p x = true -> delete_one p (l ++ [x]) = l.
Proof.
  induction l as [|a rest IH]; simpl; intros Hl Hx.
  - rewrite Hx. reflexivity.
  - rewrite (Hl a (or_introl eq_refl)). f_equal. apply IH; auto.
Qed.

Lemma active_fund_is_fund fid (coll : list FundDoc) fund :
  find_one (active_fund_filter fid) coll = Some fund ->
  exists fund', find_one (fund_filter fid) coll = Some fund'.
Proof.
  unfold find_one. induction coll as [|x rest IH]; simpl; [discriminate|].
  unfold active_fund_filter, fund_filter in *.
  destruct (fund_fund_id x =? fid); simpl; [eauto|]. exact IH.
Qed.

(** X5.  A successful subscription followed by the cancellation of the same
    fund, the store being available for the cancellation: the cancellation
    succeeds; [user_subscriptions] and [funds] are again what they were before
    the subscription, document for document; and the ledger has grown by two
    records of the account for the fund, the subscription and then the
    cancellation, the second of the amount of the first and starting from the
    balance the first one left. *)
Theorem subscribe_then_cancel_restores env1 env2 u r db resp db1 :
  subscribe_to_fund env1 u r db = (inr resp, db1) ->
  outage env2 = None ->
  exists resp2 db2 t1 t2,
    cancel_subscription env2 u {| cancel_fund_id := fund_id r |} db1 = (inr resp2, db2) /\
    user_subscriptions db2 = user_subscriptions db /\
    funds db2 = funds db /\
    transactions db2 = transactions db ++ [t1; t2] /\
    transaction_type t1 = SUBSCRIPTION /\ transaction_type t2 = CANCELLATION /\
    txn_user_id t1 = user_id u /\ txn_user_id t2 = user_id u /\
    txn_fund_id t1 = fund_id r /\ txn_fund_id t2 = fund_id r /\
    txn_amount t2 = txn_amount t1 /\
    balance_before t2 = balance_after t1.
Proof.
  intros H HQ.
  assert (HN : forall s, outage env2 <> Some s) by (intros s; rewrite HQ; discriminate).
  apply subscribe_to_fund_succeeded in H.
  destruct H as (l & HV & HX & HD & HR).
  apply subscribe_validate_passed in HV.
  destruct HV as (fund & oid & user & HF & HM & HO & HU & HB & HS & HL).
  destruct (active_fund_is_fund _ _ _ HF) as [fund' HF'].
  set (new := {| sub_oid := fresh_oid (user_subscriptions db);
                 sub_user_id := user_id u; sub_fund_id := fund_id r;
                 sub_amount := amount r; sub_is_active := true;
                 sub_created_at := later_loop_time env1 |}).
  assert (Hsubs : user_subscriptions db1 = user_subscriptions db ++ [new]).
  { rewrite HD. subst l. reflexivity. }
  assert (HS1 : find_one (active_subscription_filter (user_id u) (fund_id r))
                  (user_subscriptions db1) = Some new).
  { rewrite Hsubs. apply find_one_app_last; [exact HS|].
    unfold active_subscription_filter, new. simpl.
    rewrite String.eqb_refl, Z.eqb_refl. reflexivity. }
  assert (HU1 : find_one (user_filter oid) (users db1)
                = Some {| user_oid := user_oid user;
                          user_balance := user_balance user - amount r |}).
  { rewrite HD. subst l. simpl.
    rewrite find_one_update_one by (intros; apply user_filter_set_balance).
    rewrite HU. reflexivity. }
  assert (HF1 : find_one (fund_filter (fund_id r)) (funds db1) = Some fund').
  { rewrite HD. exact HF'. }
  destruct (cancel_validate_passes env2 u {| cancel_fund_id := fund_id r |} db1
              fund' new oid _ (HN _) (HN _) (HN _) HF1 HS1 HO HU1)
    as (l2 & HV2 & HL2o & HL2s & HL2u).
  pose proof (cancel_validate_passed _ _ _ _ _ _ HV2)
    as (f3 & s3 & o3 & u3 & _ & _ & _ & _ & HL2).
  exists (cancel_response l2), (cancelled l2 db1), (sl_transaction l), (cl_transaction l2).
  split.
  { unfold cancel_subscription, except_handler, bind. rewrite HV2.
    rewrite (cancel_apply_runs env2 l2 db1 (HN _) (HN _) (HN _) (HN _)).
    reflexivity. }
  unfold cancelled. rewrite HL2s. simpl.
  split.
  { rewrite Hsubs. apply delete_one_app_last.
    - intros y Hy. unfold subscription_oid_filter. apply Nat.eqb_neq.
      intros E. apply (fresh_oid_new (user_subscriptions db)).
      simpl in E. rewrite <- E. apply in_map. exact Hy.
    - unfold subscription_oid_filter. apply Nat.eqb_refl. }
  split; [rewrite HD; reflexivity|].
  split; [rewrite HD; simpl; rewrite <- app_assoc; reflexivity|].
  rewrite HL2 in HL2s, HL2u. simpl in HL2s, HL2u. subst s3 u3.
  rewrite HL2. subst l. simpl.
  split; [reflexivity|]. split; [reflexivity|].
  split; [reflexivity|]. split; [reflexivity|].
  split; [reflexivity|]. split; [reflexivity|].
  split; reflexivity.
Qed.

Lemma subscribe_then_cancel_restores_witness :
  let r := {| fund_id := 1; amount := 75000 |} in
  let db2 := snd (cancel_subscription (quiet "t2" 12) alice {| cancel_fund_id := 1 |} db1) in
  (exists resp, subscribe_to_fund (quiet "t1" 10) alice r db0 = (inr resp, db1)) /\
  user_subscriptions db2 = user_subscriptions db0 /\
  List.length (transactions db2) = 2%nat.
Proof.
  intros r db2. split; [eexists; reflexivity|].
  destruct (subscribe_then_cancel_restores (quiet "t1" 10) (quiet "t2" 12) alice r db0 _ db1
              eq_refl eq_refl)
    as (resp2 & d2 & t1 & t2 & HC & HS & _ & HT & _).
  assert (E : db2 = d2) by (unfold db2; simpl fund_id in HC; rewrite HC; reflexivity).
  rewrite E, HS, HT. split; reflexivity.
Defined.

(** ** Invariants over any run of requests, outages included *)

Lemma subscribe_locals_of env u r db l :
  subscribe_validate env u r db = (inr l, db) ->
  sl_amount_decimal l = amount r /\
  sl_amount_decimal l <= sl_user_balance_decimal l /\
  sl_transaction l =
    {| transaction_id := uuid4 env; txn_user_id := user_id u; txn_fund_id := fund_id r;
       transaction_type := SUBSCRIPTION; txn_amount := amount r;
       balance_before := sl_user_balance_decimal l;
       balance_after := sl_user_balance_decimal l - amount r;
       txn_status := "completed"; txn_created_at := loop_time env |}.
Proof.
  intros HV. apply subscribe_validate_passed in HV.
  destruct HV as (fund & oid & user & _ & _ & _ & _ & HB & _ & HL).
  subst l. simpl. auto.
Qed.

Lemma cancel_locals_of env u c db l :
  cancel_validate env u c db = (inr l, db) ->
  In (cl_subscription l) (user_subscriptions db) /\
  active_subscription_filter (user_id u) (cancel_fund_id c) (cl_subscription l) = true /\
  In (cl_user l) (users db) /\
  ObjectId (user_id u) = Some (cl_object_id l) /\
  find_one (user_filter (cl_object_id l)) (users db) = Some (cl_user l) /\
  cl_transaction l =
    {| transaction_id := uuid4 env; txn_user_id := user_id u;
       txn_fund_id := cancel_fund_id c;
       transaction_type := CANCELLATION; txn_amount := sub_amount (cl_subscription l);
       balance_before := user_balance (cl_user l);
       balance_after := user_balance (cl_user l) + sub_amount (cl_subscription l);
       txn_status := "completed"; txn_created_at := loop_time env |}.
Proof.
  intros HV. apply cancel_validate_passed in HV.
  destruct HV as (fund & s & oid & user & _ & HS & HO & HU & HL).
  subst l. simpl.
  destruct (find_some _ _ HS) as [Hin Hp]. destruct (find_some _ _ HU) as [Hin' _].
  auto 7.
Qed.

Lemma perform_keeps_registry u op db :
  registry_ok db ->
  registry_ok (snd (perform u op db)) /\
  (all_active db -> all_active (snd (perform u op db))).
Proof.
  intros [H1 H2]. destruct op as [env r|env c]; simpl.
  - destruct (subscribe_to_fund_phases env u r db)
      as [(e & _ & E & _)|(l & x & HV & HA & _)]; [rewrite E; split; [split|]; auto|].
    apply subscribe_apply_effects in HA. destruct HA as (_ & _ & _ & [E|[HX E]]);
      unfold registry_ok, all_active; rewrite E; [split; [split|]; auto|].
    rewrite !map_app. simpl. split.
    + split; apply NoDup_snoc; auto;
        [apply fresh_oid_new | apply existsb_false_no_key; exact HX].
    + intros Ha. apply Forall_app. split; [exact Ha | repeat constructor].
  - destruct (cancel_subscription_phases env u c db)
      as [(e & _ & E & _)|(l & x & HV & HA & _)]; [rewrite E; split; [split|]; auto|].
    apply cancel_apply_effects in HA. destruct HA as (_ & _ & _ & [E|E]);
      unfold registry_ok, all_active; rewrite E; [split; [split|]; auto|].
    split.
    + split; apply delete_one_NoDup; assumption.
    + intros Ha. rewrite Forall_forall in *. intros y Hy. apply Ha.
      eapply delete_one_incl. exact Hy.
Qed.

(** X6.  Whatever the accounts, the requests and the outages, a run of
    subscriptions and cancellations keeps the registry within its two
    uniqueness guarantees (one document per [_id], one per account and fund),
    and a registry with active documents only stays so: the handlers never
    store an inactive document and never a second one for a pair. *)
Theorem registry_invariants_kept requests : forall db,
  registry_ok db ->
  registry_ok (serve_requests requests db) /\
  (all_active db -> all_active (serve_requests requests db)).
Proof.
  unfold serve_requests.
  induction requests as [|[u op] rest IH]; intros db Hok; simpl; [auto|].
  destruct (perform_keeps_registry u op db Hok) as [Hok' Hact'].
  destruct (IH _ Hok') as [H1 H2]. split; [exact H1|auto].
Qed.

Lemma registry_invariants_kept_witness :
  let requests :=
    [(alice, Subscribe (quiet "t1" 10) {| fund_id := 1; amount := 75000 |});
     (bob, Subscribe (quiet "t2" 11) {| fund_id := 1; amount := 75000 |});
     (alice, Subscribe (down_at "t3" 12 InsertSubscription) {| fund_id := 3; amount := 50000 |});
     (alice, Cancel (down_at "t4" 13 DeleteSubscription) {| cancel_fund_id := 1 |});
     (alice, Subscribe (quiet "t5" 14) {| fund_id := 1; amount := 80000 |})] in
  registry_ok db0 /\ all_active db0 /\
  registry_ok (serve_requests requests db0) /\ all_active (serve_requests requests db0).
Proof.
  intros requests.
  assert (H0 : registry_ok db0) by (split; constructor).
  assert (Ha : all_active db0) by constructor.
  destruct (registry_invariants_kept requests db0 H0) as [H1 H2].
  auto.
Defined.

Lemma perform_ledger u op db :
  funds (snd (perform u op db)) = funds db /\
  (transactions (snd (perform u op db)) = transactions db \/
   exists t, transactions (snd (perform u op db)) = transactions db ++ [t] /\
             txn_status t = "completed" /\
             txn_user_id t = user_id u).
Proof.
  destruct op as [env r|env c]; simpl.
  - destruct (subscribe_to_fund_phases env u r db)
      as [(e & _ & E & _)|(l & x & HV & HA & _)]; [rewrite E; auto|].
    apply subscribe_apply_effects in HA. destruct HA as (HF & [E|E] & _); [auto|].
    split; [exact HF|]. right. exists (sl_transaction l). split; [exact E|].
    destruct (subscribe_locals_of _ _ _ _ _ HV) as (_ & _ & HT). rewrite HT.
    simpl. auto.
  - destruct (cancel_subscription_phases env u c db)
      as [(e & _ & E & _)|(l & x & HV & HA & _)]; [rewrite E; auto|].
    apply cancel_apply_effects in HA. destruct HA as (HF & [E|E] & _); [auto|].
    split; [exact HF|]. right. exists (cl_transaction l). split; [exact E|].
    destruct (cancel_locals_of _ _ _ _ _ HV) as (_ & _ & _ & _ & _ & HT). rewrite HT.
    simpl. auto.
Qed.

(** X7.  Whatever the accounts, the requests and the outages, a run of
    subscriptions and cancellations never touches the catalog, and the ledger
    only grows at its end: it is the old ledger followed by at most one new
    record per request, each with status "completed" and written for one of
    the accounts that sent a request.  No existing record is changed or
    removed. *)
Theorem ledger_is_append_only requests : forall db,
  funds (serve_requests requests db) = funds db /\
  exists added,
    transactions (serve_requests requests db) = transactions db ++ added /\
    (List.length added <= List.length requests)%nat /\
    Forall (fun t => txn_status t = "completed" /\
                     In (txn_user_id t) (map (fun q => user_id (fst q)) requests))
           added.
Proof.
  unfold serve_requests.
  induction requests as [|[u op] rest IH]; intros db; simpl.
  - split; [reflexivity|]. exists []. rewrite app_nil_r. repeat split; auto.
  - destruct (perform_ledger u op db) as [HF HT].
    destruct (IH (snd (perform u op db))) as (HF' & added & HA & HL & HB).
    split; [rewrite HF'; exact HF|].
    assert (HB' : Forall (fun t => txn_status t = "completed" /\
                            In (txn_user_id t)
                               (user_id u :: map (fun q => user_id (fst q)) rest))
                         added).
    { eapply Forall_impl; [|exact HB]. simpl. intros t [H1 H2]. auto. }
    destruct HT as [E|(t & E & Hs & Hu)].
    + exists added. rewrite HA, E. split; [reflexivity|]. split; [lia|exact HB'].
    + exists (t :: added). rewrite HA, E, <- app_assoc. simpl.
      split; [reflexivity|]. split; [lia|].
      constructor; [split; [exact Hs | left; symmetry; exact Hu] | exact HB'].
Qed.

Lemma update_one_In {A} (p : A -> bool) (f : A -> A) (coll : list A) y :
  In y (update_one p f coll) -> In y coll \/ exists x, In x coll /\ y = f x.
Proof.
  induction coll as [|x rest IH]; simpl; [auto|].
  destruct (p x); simpl.
  - intros [<-|H]; [right; exists x; auto | auto].
  - intros [<-|H]; [auto|]. destruct (IH H) as [H'|(z & Hz & E)]; [auto|].
    right. exists z. auto.
Qed.

Lemma perform_keeps_nonnegative u op db :
  valid_operation op ->
  nonnegative_balances db -> nonnegative_amounts db ->
  nonnegative_balances (snd (perform u op db)) /\
  nonnegative_amounts (snd (perform u op db)).
Proof.
  intros Hv Hb Ha. unfold nonnegative_balances, nonnegative_amounts in *.
  destruct op as [env r|env c]; simpl in *.
  - destruct (subscribe_to_fund_phases env u r db)
      as [(e & _ & E & _)|(l & x & HV & HA & _)]; [rewrite E; auto|].
    destruct (subscribe_locals_of _ _ _ _ _ HV) as (Hamt & Hle & _).
    apply subscribe_apply_effects in HA. destruct HA as (_ & _ & HU & HS). split.
    + destruct HU as [E|E]; rewrite E; [exact Hb|].
      apply update_one_Forall; [|exact Hb]. intros y. simpl. lia.
    + destruct HS as [E|[_ E]]; rewrite E; [exact Ha|].
      apply Forall_app. split; [exact Ha|]. repeat constructor. simpl.
      unfold validate_amount in Hv. rewrite Hamt.
      destruct (amount r <=? 0) eqn:EZ; [discriminate|]. apply Z.leb_gt in EZ. lia.
  - destruct (cancel_subscription_phases env u c db)
      as [(e & _ & E & _)|(l & x & HV & HA & _)]; [rewrite E; auto|].
    destruct (cancel_locals_of _ _ _ _ _ HV) as (Hin & _ & Hinu & _).
    rewrite Forall_forall in Hb, Ha.
    pose proof (Hb _ Hinu) as Hb1. pose proof (Ha _ Hin) as Ha1. simpl in Hb1, Ha1.
    apply cancel_apply_effects in HA. destruct HA as (_ & _ & HU & HS). split.
    + destruct HU as [E|E]; rewrite E; [apply Forall_forall; exact Hb|].
      apply update_one_Forall; [|apply Forall_forall; exact Hb].
      intros y. simpl. lia.
    + destruct HS as [E|E]; rewrite E; [apply Forall_forall; exact Ha|].
      apply Forall_forall. intros y Hy. apply Ha. eapply delete_one_incl. exact Hy.
Qed.

(** X8.  Whatever the accounts and the outages, a run of subscriptions and
    cancellations whose amounts passed the validator of [SubscriptionRequest]
    (amount above zero) never makes a balance negative and never stores a
    negative amount in the registry, if there was none to begin with. *)
Theorem balances_never_negative requests : forall db,
  Forall (fun req => valid_operation (snd req)) requests ->
  nonnegative_balances db -> nonnegative_amounts db ->
  nonnegative_balances (serve_requests requests db) /\
  nonnegative_amounts (serve_requests requests db).
Proof.
  unfold serve_requests.
  induction requests as [|[u op] rest IH]; intros db Hv Hb Ha; simpl; [auto|].
  inversion Hv as [|? ? Hop Hrest]; subst. simpl in Hop.
  destruct (perform_keeps_nonnegative u op db Hop Hb Ha) as [Hb' Ha'].
  apply IH; assumption.
Qed.

Lemma balances_never_negative_witness :
  let requests :=
    [(alice, Subscribe (quiet "t1" 10) {| fund_id := 1; amount := 75000 |});
     (alice, Subscribe (down_at "t3" 12 InsertSubscription) {| fund_id := 3; amount := 450000 |});
     (alice, Cancel (down_at "t4" 13 DeleteSubscription) {| cancel_fund_id := 1 |});
     (alice, Cancel (quiet "t5" 14) {| cancel_fund_id := 1 |})] in
  Forall (fun req => valid_operation (snd req)) requests /\
  nonnegative_balances db0 /\ nonnegative_amounts db0 /\
  nonnegative_balances (serve_requests requests db0) /\
  nonnegative_amounts (serve_requests requests db0).
Proof.
  intros requests.
  assert (Hv : Forall (fun req => valid_operation (snd req)) requests)
    by (repeat constructor).
  assert (Hb : nonnegative_balances db0) by (repeat constructor; simpl; lia).
  assert (Ha : nonnegative_amounts db0) by constructor.
  destruct (balances_never_negative requests db0 Hv Hb Ha) as [H1 H2].
  auto.
Defined.

(** ** Accounts do not interfere *)

Lemma filter_delete_other (q : SubscriptionDoc -> bool) (coll : list SubscriptionDoc) s :
  NoDup (map sub_oid coll) -> In s coll -> q s = false ->
  filter q (delete_one (subscription_oid_filter (sub_oid s)) coll) = filter q coll.
Proof.
  induction coll as [|x rest IH]; simpl; [contradiction|].
  intros Hnd Hin Hq. inversion Hnd as [|? ? Hn Hd]; subst.
  unfold subscription_oid_filter at 1.
  destruct (Nat.eqb (sub_oid x) (sub_oid s)) eqn:EO.
  - apply Nat.eqb_eq in EO. destruct Hin as [->|Hin].
    + rewrite Hq. reflexivity.
    + exfalso. apply Hn. rewrite EO. apply in_map. exact Hin.
  - destruct Hin as [->|Hin]; [rewrite Nat.eqb_refl in EO; discriminate|].
    simpl. rewrite (IH Hd Hin Hq). reflexivity.
Qed.

Lemma find_one_update_other {A} (p q : A -> bool) (f : A -> A) (coll : list A) :
  (forall x, q x = true -> p x = false /\ p (f x) = false) ->
  find_one p (update_one q f coll) = find_one p coll.
Proof.
  intros H. unfold find_one. induction coll as [|x rest IH]; simpl; [reflexivity|].
  destruct (q x) eqn:E; simpl.
  - destruct (H x E) as [H1 H2]. rewrite H1, H2. reflexivity.
  - rewrite IH. reflexivity.
Qed.

Lemma user_filter_other oid oid' b x :
  oid' <> oid -> user_filter oid x = true ->
  user_filter oid' x = false /\
  user_filter oid' {| user_oid := user_oid x; user_balance := b |} = false.
Proof.
  unfold user_filter. simpl. intros Hne E. apply String.eqb_eq in E.
  assert (String.eqb (user_oid x) oid' = false)
    by (apply String.eqb_neq; congruence).
  auto.
Qed.

Lemma perform_leaves_others u v op db :
  registry_ok db ->
  ObjectId (user_id v) <> ObjectId (user_id u) ->
  balance_of (user_id v) (snd (perform u op db)) = balance_of (user_id v) db /\
  documents_of (user_id v) (snd (perform u op db)) = documents_of (user_id v) db /\
  ledger_of (user_id v) (snd (perform u op db)) = ledger_of (user_id v) db.
Proof.
  intros [Hoid _] Hne.
  assert (Hid : String.eqb (user_id u) (user_id v) = false).
  { apply String.eqb_neq. intros E. apply Hne. rewrite E. reflexivity. }
  assert (HL : ledger_of (user_id v) (snd (perform u op db)) = ledger_of (user_id v) db).
  { destruct (perform_ledger u op db) as [_ [E|(t & E & _ & Ht)]];
      unfold ledger_of; rewrite E; [reflexivity|].
    rewrite filter_app. simpl. rewrite Ht, Hid. apply app_nil_r. }
  split; [|split; [|exact HL]].
  - unfold balance_of. destruct (ObjectId (user_id v)) as [oidv|] eqn:EV; [|reflexivity].
    f_equal.
    destruct op as [env r|env c]; simpl.
    + destruct (subscribe_to_fund_phases env u r db)
        as [(e & _ & E & _)|(l & x & HV & HA & _)]; [rewrite E; reflexivity|].
      pose proof (subscribe_validate_passed _ _ _ _ _ _ HV)
        as (fund & oid & user & _ & _ & HO & _ & _ & _ & HLo).
      apply subscribe_apply_effects in HA. destruct HA as (_ & _ & [E|E] & _);
        rewrite E; [reflexivity|].
      apply find_one_update_other. intros y Hy. rewrite HLo in Hy. simpl in Hy.
      apply (user_filter_other oid); [congruence | exact Hy].
    + destruct (cancel_subscription_phases env u c db)
        as [(e & _ & E & _)|(l & x & HV & HA & _)]; [rewrite E; reflexivity|].
      destruct (cancel_locals_of _ _ _ _ _ HV) as (_ & _ & _ & HO & _).
      apply cancel_apply_effects in HA. destruct HA as (_ & _ & [E|E] & _);
        rewrite E; [reflexivity|].
      apply find_one_update_other. intros y Hy.
      apply (user_filter_other (cl_object_id l)); [congruence | exact Hy].
  - unfold documents_of. destruct op as [env r|env c]; simpl.
    + destruct (subscribe_to_fund_phases env u r db)
        as [(e & _ & E & _)|(l & x & HV & HA & _)]; [rewrite E; reflexivity|].
      apply subscribe_apply_effects in HA. destruct HA as (_ & _ & _ & [E|[_ E]]);
        rewrite E; [reflexivity|].
      rewrite filter_app. simpl. rewrite Hid. apply app_nil_r.
    + destruct (cancel_subscription_phases env u c db)
        as [(e & _ & E & _)|(l & x & HV & HA & _)]; [rewrite E; reflexivity|].
      destruct (cancel_locals_of _ _ _ _ _ HV) as (Hin & Hp & _).
      apply cancel_apply_effects in HA. destruct HA as (_ & _ & _ & [E|E]);
        rewrite E; [reflexivity|].
      apply filter_delete_other; [exact Hoid | exact Hin |].
      unfold active_subscription_filter in Hp.
      apply andb_true_iff in Hp. destruct Hp as [Hp _].
      apply andb_true_iff in Hp. destruct Hp as [Hp _].
      apply String.eqb_eq in Hp. rewrite Hp. exact Hid.
Qed.

(** X9.  The requests of one account, in any number and under any outages,
    leave every other account as it was: its balance, its subscription
    documents and its ledger records.  (Two accounts are different when their
    user ids denote different ObjectIds; the registry is assumed to meet its
    uniqueness guarantees.) *)
Theorem other_accounts_untouched u v ops : forall db,
  registry_ok db ->
  ObjectId (user_id v) <> ObjectId (user_id u) ->
  balance_of (user_id v) (perform_all u ops db) = balance_of (user_id v) db /\
  documents_of (user_id v) (perform_all u ops db) = documents_of (user_id v) db /\
  ledger_of (user_id v) (perform_all u ops db) = ledger_of (user_id v) db.
Proof.
  unfold perform_all.
  induction ops as [|op rest IH]; intros db Hok Hne; simpl; [auto|].
  destruct (perform_leaves_others u v op db Hok Hne) as (H1 & H2 & H3).
  destruct (perform_keeps_registry u op db Hok) as [Hok' _].
  destruct (IH _ Hok' Hne) as (G1 & G2 & G3).
  rewrite G1, G2, G3. auto.
Qed.

Lemma registry_ok_db_two_accounts : registry_ok db_two_accounts.
Proof.
  split; simpl; repeat constructor; simpl; tauto.
Qed.

(** Bob subscribes, is cut off in the middle of a second subscription and
    cancels: his balance, his documents and the ledger change, Alice's do
    not. *)
Lemma other_accounts_untouched_witness :
  let ops :=
    [Subscribe (quiet "t2" 11) {| fund_id := 3; amount := 50000 |};
     Subscribe (down_at "t3" 13 InsertSubscription) {| fund_id := 1; amount := 75000 |};
     Cancel (quiet "t4" 15) {| cancel_fund_id := 3 |}] in
  let db' := perform_all bob ops db_two_accounts in
  registry_ok db_two_accounts /\
  ObjectId (user_id alice) <> ObjectId (user_id bob) /\
  balance_of (user_id bob) db_two_accounts = Some 500000 /\
  balance_of (user_id bob) db' = Some 425000 /\
  List.length (ledger_of (user_id bob) db') = 3%nat /\
  balance_of (user_id alice) db' = Some 425000 /\
  documents_of (user_id alice) db' = user_subscriptions db1 /\
  ledger_of (user_id alice) db' = transactions db1.
Proof.
  intros ops db'.
  assert (Hne : ObjectId (user_id alice) <> ObjectId (user_id bob))
    by (vm_compute; discriminate).
  destruct (other_accounts_untouched bob alice ops db_two_accounts
              registry_ok_db_two_accounts Hne)
    as (H1 & H2 & H3).
  split; [exact registry_ok_db_two_accounts|]. split; [exact Hne|].
  split; [reflexivity|]. split; [reflexivity|]. split; [reflexivity|].
  unfold db'. rewrite H1, H2, H3.
  split; [reflexivity|]. split; reflexivity.
Defined.

(** ** The catalog as the read endpoints show it *)

Lemma find_listed_fund fid (coll : list FundDoc) :
  find (fun x => fr_id x =? fid) (map fund_response (filter fund_is_active coll))
  = option_map fund_response (find_one (active_fund_filter fid) coll).
Proof.
  unfold find_one. induction coll as [|f rest IH]; simpl; [reflexivity|].
  unfold active_fund_filter at 1.
  destruct (fund_is_active f) eqn:Ea; simpl.
  - destruct (fund_fund_id f =? fid); simpl; [reflexivity | exact IH].
  - rewrite andb_false_r. exact IH.
Qed.

(** X11.  With the store available, [get_fund] answers for an id exactly
    what [get_funds] lists first under that id, and answers 404 exactly for the
    ids that [get_funds] does not list: the two endpoints show the same
    catalog, the active funds in catalog order. *)
Theorem get_fund_agrees_with_get_funds fid db :
  exists listed,
    get_funds None db = inr listed /\
    Forall (fun x => fr_is_active x = true) listed /\
    get_fund None fid db =
      match find (fun x => fr_id x =? fid) listed with
      | Some x => inr x
      | None => inl (query_error HTTP_404_NOT_FOUND (Shared (FondoNoEncontrado fid)))
      end.
Proof.
  eexists. split; [reflexivity|]. split.
  - apply Forall_forall. intros x Hx. apply in_map_iff in Hx.
    destruct Hx as (f & <- & Hf). apply filter_In in Hf. apply Hf.
  - unfold get_fund. simpl. rewrite find_listed_fund.
    destruct (find_one (active_fund_filter fid) (funds db)); reflexivity.
Qed.

Lemma subscribe_apply_raises env u r l db e d :
  subscribe_apply env u r l db = (inl e, d) ->
  e = DuplicateKeyError \/ e = ConnectionFailure.
Proof.
  unfold subscribe_apply, insert_transaction, set_balance, insert_subscription.
  unfold_monad.
  destruct (await_cases env StartSession db) as [[E _]|[E _]]; rewrite E;
    [|intros H; inversion H; auto].
  destruct (await_cases env InsertTransaction db) as [[E1 _]|[E1 _]]; rewrite E1;
    [|intros H; inversion H; auto].
  match goal with |- context [await env UpdateBalance ?d] =>
    destruct (await_cases env UpdateBalance d) as [[E2 _]|[E2 _]]; rewrite E2;
      [|intros H; inversion H; auto] end.
  match goal with |- context [await env InsertSubscription ?d] =>
    destruct (await_cases env InsertSubscription d) as [[E3 _]|[E3 _]]; rewrite E3;
      [|intros H; inversion H; auto] end.
  simpl. destruct (existsb _ (user_subscriptions db)); intros H; inversion H; auto.
Qed.

(** X12.  [subscribe_to_fund] and [get_fund] agree on which funds there
    are.  With the store up at the catalog lookup, a subscription is answered
    404 "Fondo con ID ... no encontrado" exactly when [get_fund] answers 404 for
    the id; and an accepted subscription is always to the fund that [get_fund]
    shows, under the name the response carries, active, and with a minimum
    that the amount reaches. *)
Theorem subscribe_agrees_with_get_fund env u r db :
  outage env <> Some FindFund ->
  (get_fund None (fund_id r) db
     = inl (query_error HTTP_404_NOT_FOUND (Shared (FondoNoEncontrado (fund_id r))))
   <->
   subscribe_to_fund env u r db
     = (inl (http_error HTTP_404_NOT_FOUND (FondoNoEncontrado (fund_id r))), db)) /\
  (forall resp db',
      subscribe_to_fund env u r db = (inr resp, db') ->
      exists shown,
        get_fund None (fund_id r) db = inr shown /\
        fr_name shown = resp_fund_name resp /\
        fr_is_active shown = true /\
        fr_min_amount shown <= amount r).
Proof.
  intros O1. split.
  - unfold get_fund. simpl.
    destruct (find_one (active_fund_filter (fund_id r)) (funds db)) as [fund|] eqn:EF.
    + split; [discriminate|]. intros H. exfalso.
      destruct (subscribe_to_fund_phases env u r db)
        as [(e & HV & _ & _)|(l & x & HV & HA & Hx)].
      * rewrite (subscribe_to_fund_rejects _ _ _ _ _ _ HV) in H.
        revert HV. unfold subscribe_validate. unfold_monad.
        rewrite (await_up _ _ _ O1), EF.
        destruct (amount r <? fund_minimum_amount fund);
          [intros HV; inversion HV; subst e; cbv in H; discriminate H|].
        destruct (lookup_user_cases env u db) as [(oid & E1 & _ & _)|[E1 _]]; rewrite E1;
          [|intros HV; inversion HV; subst e; cbv in H; discriminate H].
        destruct (find_one (user_filter oid) (users db)) as [user|];
          [|intros HV; inversion HV; subst e; cbv in H; discriminate H].
        destruct (user_balance user <? amount r);
          [intros HV; inversion HV; subst e; cbv in H; discriminate H|].
        destruct (await_cases env FindSubscription db) as [[E2 _]|[E2 _]]; rewrite E2;
          [|intros HV; inversion HV; subst e; cbv in H; discriminate H].
        destruct (find_one _ (user_subscriptions db));
          intros HV; inversion HV; subst e; cbv in H; discriminate H.
      * rewrite H in Hx. simpl in Hx. destruct x as [e|[]].
        -- destruct (subscribe_apply_raises _ _ _ _ _ _ _ HA) as [-> | ->];
             revert HA H; unfold subscribe_to_fund, except_handler, bind; rewrite HV;
             intros HA; rewrite HA; cbv; discriminate.
        -- discriminate Hx.
    + split; [intros _|reflexivity].
      apply (subscribe_to_fund_rejects env u r db
               (Http (http_error HTTP_404_NOT_FOUND (FondoNoEncontrado (fund_id r)))) db).
      unfold subscribe_validate. unfold_monad.
      rewrite (await_up _ _ _ O1), EF. reflexivity.
  - intros resp db' H. apply subscribe_to_fund_succeeded in H.
    destruct H as (l & HV & _ & _ & HR).
    apply subscribe_validate_passed in HV.
    destruct HV as (fund & oid & user & HF & HM & _ & _ & _ & _ & HL).
    exists (fund_response fund). unfold get_fund. simpl. rewrite HF.
    split; [reflexivity|]. subst resp l. simpl.
    split; [reflexivity|]. split; [|exact HM].
    apply find_some in HF. destruct HF as [_ Hp].
    unfold active_fund_filter in Hp. apply andb_true_iff in Hp. apply Hp.
Qed.

Lemma subscribe_agrees_with_get_fund_witness :
  let r := {| fund_id := 2; amount := 125000 |} in
  outage (quiet "t4" 13) <> Some FindFund /\
  get_fund None 2 db_inactive = inl (query_error 404 (Shared (FondoNoEncontrado 2))) /\
  subscribe_to_fund (quiet "t4" 13) alice r db_inactive
    = (inl (http_error 404 (FondoNoEncontrado 2)), db_inactive).
Proof.
  intros r.
  assert (O : outage (quiet "t4" 13) <> Some FindFund) by (simpl; discriminate).
  destruct (subscribe_agrees_with_get_fund (quiet "t4" 13) alice r db_inactive O)
    as [[H _] _].
  split; [exact O|]. split; [reflexivity|]. apply H. reflexivity.
Defined.

(** ** [get_user_transactions] *)

Lemma insert_newest_perm t l : Permutation (insert_newest t l) (t :: l).
Proof.
  induction l as [|x rest IH]; simpl; [apply Permutation_refl|].
  destruct (txn_created_at x <=? txn_created_at t); [apply Permutation_refl|].
  apply perm_trans with (x :: t :: rest); [apply perm_skip; exact IH | apply perm_swap].
Qed.

Lemma sort_newest_first_perm l : Permutation (sort_newest_first l) l.
Proof.
  unfold sort_newest_first. induction l as [|x rest IH]; simpl; [constructor|].
  apply perm_trans with (x :: fold_right insert_newest [] rest);
    [apply insert_newest_perm | apply perm_skip; exact IH].
Qed.

Lemma insert_newest_sorted t l :
  StronglySorted not_older l -> StronglySorted not_older (insert_newest t l).
Proof.
  intros H. induction H as [|x rest Hrest IH Hx]; simpl.
  - repeat constructor.
  - destruct (txn_created_at x <=? txn_created_at t) eqn:E.
    + apply Z.leb_le in E. constructor; [constructor; assumption|].
      constructor; [exact E|].
      rewrite Forall_forall in *. intros y Hy. specialize (Hx y Hy).
      unfold not_older in *. lia.
    + apply Z.leb_gt in E. constructor; [exact IH|].
      rewrite Forall_forall in *. intros y Hy.
      apply (Permutation_in _ (insert_newest_perm t rest)) in Hy.
      destruct Hy as [<-|Hy]; [unfold not_older; lia | exact (Hx y Hy)].
Qed.

Lemma sort_newest_first_sorted l : StronglySorted not_older (sort_newest_first l).
Proof.
  unfold sort_newest_first. induction l as [|x rest IH]; simpl; [constructor|].
  apply insert_newest_sorted. exact IH.
Qed.

Lemma name_transactions_up db l : forall k,
  name_transactions None db k l = Some (map (transaction_response db) l).
Proof.
  induction l as [|t rest IH]; intros k; simpl; [reflexivity|].
  rewrite IH. reflexivity.
Qed.

(** X15.  With the store available, [get_user_transactions] always answers,
    also for a user id that is no ObjectId or belongs to no user (the handler
    reads the ledger only).  Its answer renders exactly the ledger records
    carrying the user id of the token, each once and no record of anyone else,
    ordered from the newest to the oldest [created_at]; each entry carries the
    id, type, amount, [balance_after] and status of its record and the catalog
    name of its fund (or "Fondo no encontrado"). *)
Theorem transactions_listed_newest_first u db :
  exists records,
    get_user_transactions None u db = inr (map (transaction_response db) records) /\
    Permutation records (ledger_of (user_id u) db) /\
    StronglySorted not_older records /\
    Forall (fun t => txn_user_id t = user_id u /\ In t (transactions db)) records.
Proof.
  exists (sort_newest_first (ledger_of (user_id u) db)).
  split; [unfold get_user_transactions; simpl; rewrite name_transactions_up; reflexivity|].
  split; [apply sort_newest_first_perm|].
  split; [apply sort_newest_first_sorted|].
  apply Forall_forall. intros t Ht.
  apply (Permutation_in _ (sort_newest_first_perm _)) in Ht.
  unfold ledger_of in Ht. apply filter_In in Ht. destruct Ht as [Hin Hu].
  apply String.eqb_eq in Hu. auto.
Qed.

Lemma transactions_listed_newest_first_aux u db :
  exists records,
    get_user_transactions None u db = inr (map (transaction_response db) records) /\
    Permutation records (ledger_of (user_id u) db).
Proof.
  exists (sort_newest_first (ledger_of (user_id u) db)).
  split; [unfold get_user_transactions; simpl; rewrite name_transactions_up; reflexivity|].
  apply sort_newest_first_perm.
Qed.

(** X16.  After an accepted subscription, the history of the account as
    [get_user_transactions] lists it has exactly one entry more, and among its
    entries is the one of the record the caller was answered about: same
    transaction id, type, status and time. *)
Theorem accepted_subscription_is_listed env u r db resp db' :
  subscribe_to_fund env u r db = (inr resp, db') ->
  exists before after entry,
    get_user_transactions None u db = inr before /\
    get_user_transactions None u db' = inr after /\
    List.length after = S (List.length before) /\
    In entry after /\
    resp_id entry = resp_id resp /\
    resp_transaction_type entry = SUBSCRIPTION /\
    resp_status entry = resp_status resp /\
    resp_created_at entry = resp_created_at resp.
Proof.
  intros H. apply subscribe_to_fund_succeeded in H.
  destruct H as (l & HV & HX & HD & HR).
  destruct (subscribe_locals_of _ _ _ _ _ HV) as (Hamt & _ & HT).
  assert (HL : ledger_of (user_id u) db' = ledger_of (user_id u) db ++ [sl_transaction l]).
  { rewrite HD. unfold ledger_of, subscribed. simpl. rewrite filter_app. simpl.
    rewrite HT. simpl. rewrite String.eqb_refl. reflexivity. }
  destruct (transactions_listed_newest_first_aux u db) as (rs & E1 & P1).
  destruct (transactions_listed_newest_first_aux u db') as (rs' & E2 & P2).
  exists (map (transaction_response db) rs), (map (transaction_response db') rs'),
    (transaction_response db' (sl_transaction l)).
  split; [exact E1|]. split; [exact E2|].
  split.
  { rewrite !length_map, (Permutation_length P1), (Permutation_length P2), HL.
    rewrite length_app. simpl. lia. }
  split.
  { apply in_map. apply (Permutation_in _ (Permutation_sym P2)).
    rewrite HL. apply in_or_app. right. left. reflexivity. }
  rewrite HR. unfold subscribe_response. rewrite !HT. simpl.
  split; [reflexivity|]. split; [reflexivity|]. split; reflexivity.
Qed.

Lemma accepted_subscription_is_listed_witness :
  let r := {| fund_id := 1; amount := 75000 |} in
  (exists resp, subscribe_to_fund (quiet "t1" 10) alice r db0 = (inr resp, db1)) /\
  exists before after,
    get_user_transactions None alice db0 = inr before /\
    get_user_transactions None alice db1 = inr after /\
    List.length after = S (List.length before).
Proof.
  intros r. split; [eexists; reflexivity|].
  destruct (accepted_subscription_is_listed (quiet "t1" 10) alice r db0 _ db1 eq_refl)
    as (before & after & entry & H1 & H2 & H3 & _).
  exists before, after. split; [exact H1|]. split; [exact H2|exact H3].
Defined.

(** ** The rate limiter *)

Lemma requests_of_set_same uid l self : requests_of uid (set_requests uid l self) = l.
Proof. unfold requests_of, set_requests. rewrite String.eqb_refl. reflexivity. Qed.

Lemma requests_of_set_other uid uid' l self :
  uid' <> uid -> requests_of uid' (set_requests uid l self) = requests_of uid' self.
Proof.
  intros H. unfold requests_of, set_requests.
  apply String.eqb_neq in H. rewrite H. reflexivity.
Qed.

Lemma filter_later_twice m m' (h : list Z) :
  m <= m' ->
  filter (fun x => m' <? x) (filter (fun x => m <? x) h) = filter (fun x => m' <? x) h.
Proof.
  intros Hm. induction h as [|x rest IH]; simpl; [reflexivity|].
  destruct (m <? x) eqn:E; simpl.
  - rewrite IH. reflexivity.
  - destruct (m' <? x) eqn:E'; [|exact IH].
    apply Z.ltb_lt in E'. apply Z.ltb_ge in E. lia.
Qed.

Lemma filter_length_le {A} (p : A -> bool) (l : list A) :
  (List.length (filter p l) <= List.length l)%nat.
Proof.
  induction l as [|x rest IH]; simpl; [lia|]. destruct (p x); simpl; lia.
Qed.

Lemma filter_none_later m (h : list Z) :
  (forall x, In x h -> x <= m) -> filter (fun x => m <? x) h = [].
Proof.
  induction h as [|x rest IH]; simpl; intros H; [reflexivity|].
  assert (E : (m <? x) = false) by (apply Z.ltb_ge; apply H; auto).
  rewrite E. apply IH. auto.
Qed.

Lemma is_allowed_keeps_invariant limit uid self history t now v :
  limiter_invariant limit uid self history t ->
  t <= now ->
  limiter_invariant limit uid (snd (is_allowed limit now v self))
    (if fst (is_allowed limit now v self) && String.eqb v uid
     then history ++ [now] else history)
    now.
Proof.
  intros (Hle & m & Hm & Hst & Hlen) Htn.
  destruct (String.eqb v uid) eqn:Ev.
  - apply String.eqb_eq in Ev. subst v. unfold is_allowed.
    rewrite Hst, filter_later_twice by lia.
    set (recent := filter (fun x => now - timedelta_minutes_1 <? x) history).
    assert (Hrl : (List.length recent <= List.length (requests_of uid self))%nat).
    { unfold recent. rewrite <- (filter_later_twice m) by lia. rewrite <- Hst.
      apply filter_length_le. }
    destruct (limit <=? Z.of_nat (List.length recent)) eqn:El; simpl.
    + split; [intros x Hx; specialize (Hle x Hx); lia|].
      exists (now - timedelta_minutes_1). rewrite requests_of_set_same.
      split; [lia|]. split; [reflexivity|]. lia.
    + apply Z.leb_gt in El. split.
      * intros x Hx. apply in_app_or in Hx. destruct Hx as [Hx|[<-|[]]]; [|lia].
        specialize (Hle x Hx). lia.
      * exists (now - timedelta_minutes_1). rewrite requests_of_set_same.
        split; [lia|]. split.
        -- rewrite filter_app. simpl.
           assert (E : (now - timedelta_minutes_1 <? now) = true)
             by (apply Z.ltb_lt; unfold timedelta_minutes_1; lia).
           rewrite E. reflexivity.
        -- rewrite length_app. simpl. lia.
  - rewrite andb_false_r.
    assert (Hne : uid <> v) by (intros E; subst; rewrite String.eqb_refl in Ev; discriminate).
    assert (Hsame : requests_of uid (snd (is_allowed limit now v self))
                    = requests_of uid self).
    { unfold is_allowed.
      destruct (limit <=? _); simpl; apply requests_of_set_other; exact Hne. }
    split; [intros x Hx; specialize (Hle x Hx); lia|].
    exists m. rewrite Hsame. split; [lia|]. auto.
Qed.

Lemma serve_keeps_invariant limit uid calls : forall self history t,
  limiter_invariant limit uid self history t ->
  nondecreasing t calls ->
  limiter_invariant limit uid (snd (serve limit calls self))
    (history ++ allowed_times uid calls (fst (serve limit calls self)))
    (last_time t calls).
Proof.
  induction calls as [|[now v] rest IH]; intros self history t Hinv Hnd; simpl.
  - rewrite app_nil_r. exact Hinv.
  - destruct Hnd as [Htn Hrest].
    pose proof (is_allowed_keeps_invariant limit uid self history t now v Hinv Htn) as H1.
    destruct (is_allowed limit now v self) as [a self'] eqn:Ea. simpl in H1.
    specialize (IH self' _ now H1 Hrest).
    destruct (serve limit rest self') as [answers self''] eqn:Es. simpl in *.
    destruct (a && String.eqb v uid); [rewrite <- app_assoc in IH|]; exact IH.
Qed.

Lemma limiter_invariant_start limit uid from :
  limiter_invariant limit uid no_requests [] from.
Proof.
  split; [intros x []|]. exists (from - timedelta_minutes_1).
  split; [lia|]. split; [reflexivity|]. simpl. lia.
Qed.

(** X17.  The sliding window of the rate limiter.  Requests arrive with a
    clock that does not go back, at a limiter that starts empty.  At the moment
    of the last request, and so at the moment of every request, the requests of
    any one user that were let through within the minute before it, that
    request included, are at most [rate_limit_per_minute] (none if the setting
    is negative). *)
Theorem at_most_limit_per_minute limit from calls uid :
  nondecreasing from calls ->
  Z.of_nat
    (List.length
       (filter (fun x => last_time from calls - timedelta_minutes_1 <? x)
          (allowed_times uid calls (fst (serve limit calls no_requests)))))
  <= Z.max 0 limit.
Proof.
  intros Hnd.
  destruct (serve_keeps_invariant limit uid calls no_requests [] from
              (limiter_invariant_start limit uid from) Hnd)
    as (_ & m & Hm & Hst & Hlen).
  simpl in Hst. rewrite Hst in Hlen.
  rewrite <- (filter_later_twice m) by exact Hm.
  pose proof (filter_length_le
                (fun x => last_time from calls - timedelta_minutes_1 <? x)
                (filter (fun x => m <? x)
                   (allowed_times uid calls (fst (serve limit calls no_requests))))).
  lia.
Qed.

Lemma at_most_limit_per_minute_witness :
  let calls := [(0, "a"); (10, "a"); (20, "b"); (30, "a"); (40, "a");
                (59999999, "a"); (60000005, "a"); (60000011, "a")] in
  nondecreasing 0 calls /\
  fst (serve 3 calls no_requests) = [true; true; true; true; false; false; true; true] /\
  Z.of_nat
    (List.length
       (filter (fun x => last_time 0 calls - timedelta_minutes_1 <? x)
          (allowed_times "a" calls (fst (serve 3 calls no_requests))))) <= 3.
Proof.
  intros calls.
  assert (Hnd : nondecreasing 0 calls) by (simpl; repeat split; lia).
  split; [exact Hnd|]. split; [reflexivity|].
  exact (at_most_limit_per_minute 3 0 calls "a" Hnd).
Defined.

Lemma filter_all_later m (l : list Z) :
  (forall x, In x l -> m < x) -> filter (fun x => m <? x) l = l.
Proof.
  induction l as [|x rest IH]; simpl; intros H; [reflexivity|].
  assert (E : (m <? x) = true) by (apply Z.ltb_lt; apply H; auto).
  rewrite E, IH; auto.
Qed.

Lemma burst_answers limit uid times : forall self,
  (forall t x, In t times -> In x (requests_of uid self) ->
               t - timedelta_minutes_1 < x) ->
  (forall t t', In t times -> In t' times -> t - timedelta_minutes_1 < t') ->
  fst (serve limit (map (fun t => (t, uid)) times) self)
  = map (fun k => Z.of_nat (List.length (requests_of uid self) + k) <? limit)
        (seq 0 (List.length times)).
Proof.
  induction times as [|now rest IH]; intros self Hst Hsp; simpl; [reflexivity|].
  unfold is_allowed.
  rewrite (filter_all_later _ (requests_of uid self))
    by (intros x Hx; apply (Hst now x); simpl; auto).
  destruct (limit <=? Z.of_nat (List.length (requests_of uid self))) eqn:El.
  - specialize (IH (set_requests uid (requests_of uid self) self)).
    destruct (serve limit (map (fun t => (t, uid)) rest)
                (set_requests uid (requests_of uid self) self)) as [answers self'].
    simpl in *. rewrite requests_of_set_same in IH.
    rewrite IH; [|intros; apply Hst; auto | intros; apply Hsp; auto].
    apply Z.leb_le in El. f_equal.
    + rewrite Nat.add_0_r. symmetry. apply Z.ltb_ge. exact El.
    + rewrite <- seq_shift, map_map. apply map_ext_in. intros k _.
      transitivity false; [apply Z.ltb_ge; lia | symmetry; apply Z.ltb_ge; lia].
  - specialize (IH (set_requests uid (requests_of uid self ++ [now]) self)).
    destruct (serve limit (map (fun t => (t, uid)) rest)
                (set_requests uid (requests_of uid self ++ [now]) self))
      as [answers self'].
    simpl in *. rewrite requests_of_set_same in IH.
    rewrite IH.
    + apply Z.leb_gt in El. f_equal.
      * rewrite Nat.add_0_r. symmetry. apply Z.ltb_lt. exact El.
      * rewrite <- seq_shift, map_map. apply map_ext. intros k.
        rewrite length_app. simpl. f_equal. lia.
    + intros t x Ht Hx. apply in_app_or in Hx. destruct Hx as [Hx|[<-|[]]].
      * apply Hst; auto.
      * apply Hsp; auto.
    + intros; apply Hsp; auto.
Qed.

(** X18.  A burst.  When one user sends requests that all lie within less
    than a minute of each other (in any order of their clock readings) to a
    limiter that holds nothing for the user, the first
    [rate_limit_per_minute] of them are let through and every later one is
    refused. *)
Theorem burst_is_cut_at_the_limit limit uid times self :
  requests_of uid self = [] ->
  (forall t t', In t times -> In t' times -> t - timedelta_minutes_1 < t') ->
  fst (serve limit (map (fun t => (t, uid)) times) self)
  = map (fun k => Z.of_nat k <? limit) (seq 0 (List.length times)).
Proof.
  intros He Hsp. rewrite (burst_answers limit uid times self); [|rewrite He|exact Hsp].
  - rewrite He. reflexivity.
  - intros t x _ [].
Qed.

Lemma burst_is_cut_at_the_limit_witness :
  fst (serve 2 (map (fun t => (t, "a")) [100; 100; 5000; 59999000]) no_requests)
  = [true; true; false; false].
Proof.
  apply (burst_is_cut_at_the_limit 2 "a" [100; 100; 5000; 59999000] no_requests).
  - reflexivity.
  - intros t t' Ht Ht'. simpl in Ht, Ht'. unfold timedelta_minutes_1.
    repeat (destruct Ht as [<-|Ht]; [repeat (destruct Ht' as [<-|Ht']; [lia|]); contradiction|]).
    contradiction.
Defined.

(** X19.  Recovery.  After any run of requests with a clock that does not go
    back, at a limiter that started empty, a user who comes back a full minute
    or more after the last request of the run is let through by
    [check_rate_limit], which returns the user of the token, provided the limit
    is positive; and the limiter then holds that one request for the user. *)
Theorem let_through_after_a_quiet_minute limit from calls now u :
  nondecreasing from calls ->
  last_time from calls + timedelta_minutes_1 <= now ->
  0 < limit ->
  check_rate_limit limit now u (snd (serve limit calls no_requests))
  = (inr u, set_requests (user_id u) [now] (snd (serve limit calls no_requests))).
Proof.
  intros Hnd Hq Hl.
  destruct (serve_keeps_invariant limit (user_id u) calls no_requests [] from
              (limiter_invariant_start limit (user_id u) from) Hnd)
    as (Hle & m & Hm & Hst & Hlen).
  unfold check_rate_limit, is_allowed.
  assert (E : filter (fun x => now - timedelta_minutes_1 <? x)
                (requests_of (user_id u) (snd (serve limit calls no_requests))) = []).
  { apply filter_none_later. intros x Hx. rewrite Hst in Hx.
    apply filter_In in Hx. destruct Hx as [Hx _]. specialize (Hle x Hx). lia. }
  rewrite E. simpl.
  assert (El : (limit <=? 0) = false) by (apply Z.leb_gt; exact Hl).
  rewrite El. reflexivity.
Qed.

Lemma let_through_after_a_quiet_minute_witness :
  let calls := [(0, user_id alice); (10, user_id alice); (20, user_id alice)] in
  nondecreasing 0 calls /\
  fst (serve 2 calls no_requests) = [true; true; false] /\
  fst (check_rate_limit 2 60000020 alice (snd (serve 2 calls no_requests))) = inr alice.
Proof.
  intros calls.
  assert (Hnd : nondecreasing 0 calls) by (simpl; repeat split; lia).
  split; [exact Hnd|]. split; [reflexivity|].
  rewrite (let_through_after_a_quiet_minute 2 0 calls 60000020 alice Hnd);
    [reflexivity | simpl; unfold timedelta_minutes_1; lia | lia].
Defined.

Lemma serve_only_own_requests limit uid calls : forall self self',
  requests_of uid self = requests_of uid self' ->
  answers_for uid calls (fst (serve limit calls self))
  = fst (serve limit (filter (fun c => String.eqb (snd c) uid) calls) self').
Proof.
  induction calls as [|[now v] rest IH]; intros self self' Heq; simpl; [reflexivity|].
  destruct (String.eqb v uid) eqn:Ev.
  - apply String.eqb_eq in Ev. subst v. simpl. unfold is_allowed. rewrite Heq.
    destruct (limit <=? _).
    + specialize (IH (set_requests uid
                        (filter (fun x => now - timedelta_minutes_1 <? x)
                           (requests_of uid self')) self)
                     (set_requests uid
                        (filter (fun x => now - timedelta_minutes_1 <? x)
                           (requests_of uid self')) self')).
      rewrite !requests_of_set_same in IH. specialize (IH eq_refl).
      destruct (serve limit rest _) as [a1 s1]. destruct (serve limit (filter _ rest) _).
      simpl in *. f_equal. exact IH.
    + specialize (IH (set_requests uid
                        (filter (fun x => now - timedelta_minutes_1 <? x)
                           (requests_of uid self') ++ [now]) self)
                     (set_requests uid
                        (filter (fun x => now - timedelta_minutes_1 <? x)
                           (requests_of uid self') ++ [now]) self')).
      rewrite !requests_of_set_same in IH. specialize (IH eq_refl).
      destruct (serve limit rest _) as [a1 s1]. destruct (serve limit (filter _ rest) _).
      simpl in *. f_equal. exact IH.
  - assert (Hne : uid <> v) by (intros E; subst; rewrite String.eqb_refl in Ev; discriminate).
    destruct (is_allowed limit now v self) as [a self1] eqn:Ea.
    assert (Hsame : requests_of uid self1 = requests_of uid self).
    { unfold is_allowed in Ea. destruct (limit <=? _); inversion Ea;
        apply requests_of_set_other; exact Hne. }
    specialize (IH self1 self'). rewrite Hsame in IH. specialize (IH Heq).
    destruct (serve limit rest self1) as [a1 s1]. simpl in *. exact IH.
Qed.

(** X20.  The limiter keeps users apart: in any run, the answers a user gets
    are the answers the user would get if nobody else had sent anything.  One
    user's traffic never gets another user refused. *)
Theorem limiter_answers_depend_on_own_requests limit uid calls self :
  answers_for uid calls (fst (serve limit calls self))
  = fst (serve limit (filter (fun c => String.eqb (snd c) uid) calls) self).
Proof. apply serve_only_own_requests. reflexivity. Qed.

(** ** A cancellation sent twice *)

(** X21.  After a successful cancellation, on a registry that meets its
    uniqueness guarantees, the same cancellation sent again with the store up
    at its reads is answered 404 "No tiene suscripcion activa al fondo ..." and
    changes nothing: the amount is given back once. *)
Theorem second_cancel_is_refused env1 env2 u c db resp db' :
  registry_ok db ->
  cancel_subscription env1 u c db = (inr resp, db') ->
  outage env2 <> Some FindFund -> outage env2 <> Some FindSubscription ->
  cancel_subscription env2 u c db'
    = (inl (http_error HTTP_404_NOT_FOUND (SinSuscripcionActiva (resp_fund_name resp))),
       db').
Proof.
  intros [Hoid Hkey] H O1 O2. apply cancel_subscription_succeeded in H.
  destruct H as (l & HV & HD & HR).
  apply cancel_validate_passed in HV.
  destruct HV as (fund & s & oid & user & HF & HS & HO & HU & HL).
  assert (Hgone : find_one (active_subscription_filter (user_id u) (cancel_fund_id c))
                    (user_subscriptions db') = None).
  { apply filter_nil_find_one, filter_same_key_active_nil.
    rewrite HD. unfold cancelled. simpl. subst l. simpl.
    apply delete_found_clears_key; assumption. }
  assert (HF' : find_one (fund_filter (cancel_fund_id c)) (funds db') = Some fund)
    by (rewrite HD; exact HF).
  rewrite HR. subst l. simpl.
  apply (cancel_subscription_rejects env2 u c db'
           (Http (http_error HTTP_404_NOT_FOUND (SinSuscripcionActiva (fund_name fund)))) db').
  unfold cancel_validate. unfold_monad.
  rewrite (await_up _ _ _ O1), HF', (await_up _ _ _ O2), Hgone. reflexivity.
Qed.

Lemma second_cancel_is_refused_witness :
  let c := {| cancel_fund_id := 1 |} in
  let db2 := snd (cancel_subscription (quiet "t2" 11) alice c db1) in
  registry_ok db1 /\
  (exists resp, cancel_subscription (quiet "t2" 11) alice c db1 = (inr resp, db2)) /\
  cancel_subscription (quiet "t3" 12) alice c db2
    = (inl (http_error 404 (SinSuscripcionActiva "FPV_BTG_PACTUAL_RECAUDADORA")), db2).
Proof.
  intros c db2. split; [exact registry_ok_db1|]. split; [eexists; reflexivity|].
  apply (second_cancel_is_refused (quiet "t2" 11) (quiet "t3" 12) alice c db1 _ db2
           registry_ok_db1 eq_refl); simpl; discriminate.
Defined.

(** * The amounts as doubles: what a subscription and a cancellation store *)

(** ** The phases of the two handlers *)

Ltac unfold_doubles :=
  unfold Doubles.trapped in *;
  unfold Doubles.bind, Doubles.read, Doubles.write, Doubles.raise_http,
    Doubles.raise, Doubles.ret in *.

Lemma doubles_await_cases env s db :
  (Doubles.await env s db = (inr tt, db) /\ outage env <> Some s) \/
  (Doubles.await env s db = (inl Doubles.ConnectionFailure, db) /\ outage env = Some s).
Proof.
  unfold Doubles.await. destruct (outage env) as [s'|].
  - destruct s, s'; simpl; (left; split; [reflexivity | discriminate])
      || (right; split; reflexivity).
  - left. split; [reflexivity | discriminate].
Qed.

Lemma doubles_lookup_user_cases env u db :
  (exists oid,
      Doubles.lookup_user env u db
      = (inr (oid, find_one (Doubles.user_filter oid) (Doubles.users db)), db) /\
      ObjectId (user_id u) = Some oid) \/
  (exists e, Doubles.lookup_user env u db = (inl e, db)).
Proof.
  unfold Doubles.lookup_user. destruct (ObjectId (user_id u)) as [oid|] eqn:EO.
  - destruct (doubles_await_cases env FindUser db) as [[E N]|[E N]]; rewrite E.
    + left. exists oid. auto.
    + right. eexists. reflexivity.
  - right. eexists. reflexivity.
Qed.




Lemma doubles_cancel_validate_passed env u c db l db' :
  Doubles.cancel_validate env u c db = (inr l, db') ->
  db' = db /\
  exists fund s oid user,
    find_one (Doubles.fund_filter (cancel_fund_id c)) (Doubles.funds db) = Some fund /\
    find_one (Doubles.active_subscription_filter (user_id u) (cancel_fund_id c))
             (Doubles.user_subscriptions db) = Some s /\
    ObjectId (user_id u) = Some oid /\
    find_one (Doubles.user_filter oid) (Doubles.users db) = Some user /\
    l = {| Doubles.cl_fund := fund;
           Doubles.cl_subscription := s;
           Doubles.cl_object_id := oid;
           Doubles.cl_user := user;
           Doubles.cl_transaction :=
             {| Doubles.transaction_id := uuid4 env;
                Doubles.txn_user_id := user_id u;
                Doubles.txn_fund_id := cancel_fund_id c;
                Doubles.transaction_type := CANCELLATION;
                Doubles.txn_amount := Doubles.sub_amount s;
                Doubles.balance_before := Doubles.user_balance user;
                Doubles.balance_after :=
                  Doubles.float_add (Doubles.user_balance user) (Doubles.sub_amount s);
                Doubles.txn_status := "completed";
                Doubles.txn_created_at := loop_time env |} |}.
Proof.
  unfold Doubles.cancel_validate. unfold_doubles.
  destruct (doubles_await_cases env FindFund db) as [[E _]|[E _]]; rewrite E; [|discriminate].
  destruct (find_one _ (Doubles.funds db)) as [fund|] eqn:EF; [|discriminate].
  destruct (doubles_await_cases env FindSubscription db) as [[E2 _]|[E2 _]]; rewrite E2;
    [|discriminate].
  destruct (find_one _ (Doubles.user_subscriptions db)) as [s|] eqn:ES; [|discriminate].
  destruct (doubles_lookup_user_cases env u db) as [(oid & E1 & EO)|[e E1]]; rewrite E1;
    [|discriminate].
  destruct (find_one (Doubles.user_filter oid) (Doubles.users db)) as [user|] eqn:EU;
    [|discriminate].
  intros H. inversion H; subst. split; [reflexivity|].
  exists fund, s, oid, user.
  do 4 (split; [first [reflexivity | assumption]|]). reflexivity.
Qed.

Lemma doubles_cancel_apply_done env l db db' :
  Doubles.cancel_apply env l db = (inr tt, db') ->
  db' = {| Doubles.funds := Doubles.funds db;
           Doubles.users :=
             update_one (Doubles.user_filter (Doubles.cl_object_id l))
               (fun x => {| Doubles.user_oid := Doubles.user_oid x;
                            Doubles.user_balance :=
                              Doubles.float_add
                                (Doubles.user_balance (Doubles.cl_user l))
                                (Doubles.sub_amount (Doubles.cl_subscription l)) |})
               (Doubles.users db);
           Doubles.user_subscriptions :=
             delete_one
               (Doubles.subscription_oid_filter
                  (Doubles.sub_oid (Doubles.cl_subscription l)))
               (Doubles.user_subscriptions db);
           Doubles.transactions :=
             Doubles.transactions db ++ [Doubles.cl_transaction l] |}.
Proof.
  unfold Doubles.cancel_apply, Doubles.insert_transaction, Doubles.set_balance,
    Doubles.delete_subscription.
  unfold_doubles.
  destruct (doubles_await_cases env StartSession db) as [[E _]|[E _]]; rewrite E;
    [|discriminate].
  destruct (doubles_await_cases env InsertTransaction db) as [[E1 _]|[E1 _]]; rewrite E1;
    [|discriminate].
  match goal with |- context [Doubles.await env UpdateBalance ?d] =>
    destruct (doubles_await_cases env UpdateBalance d) as [[E2 _]|[E2 _]]; rewrite E2;
      [|discriminate] end.
  match goal with |- context [Doubles.await env DeleteSubscription ?d] =>
    destruct (doubles_await_cases env DeleteSubscription d) as [[E3 _]|[E3 _]]; rewrite E3;
      [|discriminate] end.
  simpl. intros H. inversion H. reflexivity.
Qed.

Lemma doubles_cancel_succeeded env u c db resp db' :
  Doubles.cancel_subscription env u c db = (inr resp, db') ->
  exists l,
    Doubles.cancel_validate env u c db = (inr l, db) /\
    Doubles.cancel_apply env l db = (inr tt, db') /\
    resp = Doubles.cancel_response l.
Proof.
  unfold Doubles.cancel_subscription, Doubles.except_handler, Doubles.bind at 1.
  destruct (Doubles.cancel_validate env u c db) as [[e|l] d] eqn:EV.
  - destruct e; discriminate.
  - destruct (doubles_cancel_validate_passed _ _ _ _ _ _ EV) as [-> _].
    unfold Doubles.bind at 1.
    destruct (Doubles.cancel_apply env l db) as [[e|[]] d] eqn:EA.
    + destruct e; discriminate.
    + unfold Doubles.ret. intros H. inversion H; subst. exists l. auto.
Qed.

(** ** The registry *)

Lemma doubles_user_filter_set_balance oid b x :
  Doubles.user_filter oid
    {| Doubles.user_oid := Doubles.user_oid x; Doubles.user_balance := b |}
  = Doubles.user_filter oid x.
Proof. reflexivity. Qed.

Lemma doubles_same_index_key_spec uid fid s :
  Doubles.same_index_key uid fid s = true <->
  (Doubles.sub_user_id s, Doubles.sub_fund_id s) = (uid, fid).
Proof.
  unfold Doubles.same_index_key. rewrite andb_true_iff, String.eqb_eq, Z.eqb_eq.
  split; [intros [-> ->]; reflexivity | intros H; inversion H; auto].
Qed.

Lemma doubles_no_key_filter_nil uid fid (coll : list Doubles.SubscriptionDoc) :
  ~ In (uid, fid) (map (fun s => (Doubles.sub_user_id s, Doubles.sub_fund_id s)) coll) ->
  filter (Doubles.same_index_key uid fid) coll = [].
Proof.
  induction coll as [|x rest IH]; simpl; [reflexivity|].
  intros H. destruct (Doubles.same_index_key uid fid x) eqn:E.
  - apply doubles_same_index_key_spec in E. exfalso. apply H. left. exact E.
  - apply IH. intros HI. apply H. right. exact HI.
Qed.

(** Deleting by [_id] the document that [find_one] returned for the pair
    leaves no active document of the pair, granted the two uniqueness
    guarantees. *)
Lemma doubles_delete_found_clears (coll : list Doubles.SubscriptionDoc) uid fid s :
  NoDup (map Doubles.sub_oid coll) ->
  NoDup (map (fun s => (Doubles.sub_user_id s, Doubles.sub_fund_id s)) coll) ->
  find_one (Doubles.active_subscription_filter uid fid) coll = Some s ->
  filter (Doubles.active_subscription_filter uid fid)
         (delete_one (Doubles.subscription_oid_filter (Doubles.sub_oid s)) coll) = [].
Proof.
  assert (HK : forall x, Doubles.active_subscription_filter uid fid x = true ->
                         Doubles.same_index_key uid fid x = true).
  { intros x. unfold Doubles.active_subscription_filter, Doubles.same_index_key.
    rewrite andb_true_iff. tauto. }
  assert (HN : forall l, filter (Doubles.same_index_key uid fid) l = [] ->
                         filter (Doubles.active_subscription_filter uid fid) l = []).
  { induction l as [|x rest IH]; simpl; [reflexivity|].
    destruct (Doubles.active_subscription_filter uid fid x) eqn:EA.
    - rewrite (HK x EA). discriminate.
    - destruct (Doubles.same_index_key uid fid x); [discriminate | exact IH]. }
  unfold find_one. induction coll as [|x rest IH]; simpl; [discriminate|].
  intros Hoid Hkey Hfind. inversion Hoid as [|? ? Hn1 Hd1]; subst.
  inversion Hkey as [|? ? Hn2 Hd2]; subst.
  destruct (Doubles.active_subscription_filter uid fid x) eqn:EP.
  - inversion Hfind; subst x. unfold Doubles.subscription_oid_filter at 1.
    rewrite Nat.eqb_refl. apply HN. apply doubles_no_key_filter_nil.
    apply HK, doubles_same_index_key_spec in EP. rewrite <- EP. exact Hn2.
  - pose proof (find_some _ _ Hfind) as [Hin Hp].
    apply HK, doubles_same_index_key_spec in Hp.
    unfold Doubles.subscription_oid_filter at 1.
    destruct (Nat.eqb (Doubles.sub_oid x) (Doubles.sub_oid s)) eqn:EO.
    + apply Nat.eqb_eq in EO. exfalso. apply Hn1. rewrite EO.
      apply in_map. exact Hin.
    + simpl. rewrite EP. apply IH; assumption.
Qed.

(** ** C1: the effect of a successful subscription *)




(** ** C2: the effect of a successful cancellation *)

(** The cancellation of the scenario is accepted, and the balance it leaves
    (449999.89999999997) is not the balance before (374999.6) plus the amount
    of the subscription (75000.3): not as the numbers the doubles are, and not
    as the decimals that [str] prints, whose sum is 449999.9. *)
Lemma cancel_balance_is_not_the_sum :
  (exists r1 r2,
      Doubles.subscribe_to_fund (quiet "t1" 10) alice Doubles.first_subscription
        Doubles.new_account = (inr r1, Doubles.after_first) /\
      Doubles.subscribe_to_fund (quiet "t2" 20) alice Doubles.second_subscription
        Doubles.after_first = (inr r2, Doubles.after_second)) /\
  exists resp before s after t,
    Doubles.cancel_subscription (quiet "t3" 30) alice Doubles.the_cancellation
      Doubles.after_second = (inr resp, Doubles.after_cancellation) /\
    Doubles.balance_of (user_id alice) Doubles.after_second = Some before /\
    find_one (Doubles.active_subscription_filter (user_id alice) 1)
      (Doubles.user_subscriptions Doubles.after_second) = Some s /\
    Doubles.balance_of (user_id alice) Doubles.after_cancellation = Some after /\
    Doubles.transactions Doubles.after_cancellation
      = Doubles.transactions Doubles.after_second ++ [t] /\
    Doubles.balance_before t = before /\
    Doubles.txn_amount t = Doubles.sub_amount s /\
    Doubles.balance_after t = after /\
    Doubles.same_number (Doubles.from_float after)
      (Doubles.exact_add (Doubles.from_float before)
         (Doubles.from_float (Doubles.sub_amount s))) = false /\
    Doubles.same_number (Doubles.Decimal_of_str after)
      (Doubles.exact_add (Doubles.Decimal_of_str before)
         (Doubles.Decimal_of_str (Doubles.sub_amount s))) = false /\
    Doubles.Decimal_of_str before = Doubles.Finite (Doubles.decimal 3749996 (-1)) /\
    Doubles.Decimal_of_str (Doubles.sub_amount s)
      = Doubles.Finite (Doubles.decimal 750003 (-1)) /\
    Doubles.Decimal_of_str after
      = Doubles.Finite (Doubles.decimal 44999989999999997 (-11)).
Proof.
  split.
  { do 2 eexists. split; vm_compute; reflexivity. }
  do 5 eexists.
  split; [vm_compute; reflexivity|].
  split; [vm_compute; reflexivity|].
  split; [vm_compute; reflexivity|].
  split; [vm_compute; reflexivity|].
  split; [vm_compute; reflexivity|].
  split; [vm_compute; reflexivity|].
  split; [vm_compute; reflexivity|].
  split; [vm_compute; reflexivity|].
  split; [vm_compute; reflexivity|].
  split; [vm_compute; reflexivity|].
  split; [vm_compute; reflexivity|].
  split; vm_compute; reflexivity.
Qed.

(** C2.  Whenever [cancel_subscription] succeeds on a registry that meets its
    uniqueness guarantees: the balance stored afterwards is the float sum of
    the balance before and the amount of the subscription found for the pair,
    that is the double nearest to their sum, and it is the balance the caller
    is answered; no active subscription of the account to the fund remains;
    and the ledger is the old ledger followed by one new record, of type
    cancellation, with that amount, with [balance_before] the balance before
    and with [balance_after] the balance stored afterwards. *)
Theorem cancel_stores_float_sum env u c db resp db' :
  Doubles.registry_ok db ->
  Doubles.cancel_subscription env u c db = (inr resp, db') ->
  exists before s t,
    Doubles.balance_of (user_id u) db = Some before /\
    find_one (Doubles.active_subscription_filter (user_id u) (cancel_fund_id c))
             (Doubles.user_subscriptions db) = Some s /\
    Doubles.balance_of (user_id u) db'
      = Some (Doubles.float_add before (Doubles.sub_amount s)) /\
    Doubles.resp_balance_after resp
      = Doubles.str_float (Doubles.float_add before (Doubles.sub_amount s)) /\
    Doubles.active_subscriptions_to (user_id u) (cancel_fund_id c) db' = [] /\
    Doubles.transactions db' = Doubles.transactions db ++ [t] /\
    Doubles.transaction_type t = CANCELLATION /\
    Doubles.txn_user_id t = user_id u /\
    Doubles.txn_fund_id t = cancel_fund_id c /\
    Doubles.txn_amount t = Doubles.sub_amount s /\
    Doubles.balance_before t = before /\
    Doubles.balance_after t = Doubles.float_add before (Doubles.sub_amount s).
Proof.
  intros [Hoid Hkey] H. apply doubles_cancel_succeeded in H.
  destruct H as (l & HV & HA & HR).
  apply doubles_cancel_validate_passed in HV.
  destruct HV as (_ & fund & s & oid & user & HF & HS & HO & HU & HL).
  apply doubles_cancel_apply_done in HA.
  assert (Hbefore : Doubles.balance_of (user_id u) db = Some (Doubles.user_balance user)).
  { unfold Doubles.balance_of. rewrite HO, HU. reflexivity. }
  exists (Doubles.user_balance user), s, (Doubles.cl_transaction l).
  split; [exact Hbefore|]. split; [exact HS|].
  split.
  { rewrite HA. unfold Doubles.balance_of. rewrite HO. simpl. rewrite HL. simpl.
    rewrite find_one_update_one by (intros; apply doubles_user_filter_set_balance).
    rewrite HU. reflexivity. }
  split; [rewrite HR, HL; reflexivity|].
  split.
  { rewrite HA. unfold Doubles.active_subscriptions_to. simpl. rewrite HL. simpl.
    apply doubles_delete_found_clears; assumption. }
  rewrite HA, HL. simpl.
  split; [reflexivity|]. split; [reflexivity|]. split; [reflexivity|].
  split; [reflexivity|]. split; [reflexivity|]. split; reflexivity.
Qed.

(** The scenario of the specification, continued: cancelling the 75000 of
    fund 1 gives them back, 425000.0 + 75000.0 = 500000.0. *)
Lemma cancel_stores_float_sum_witness :
  let r := {| Doubles.fund_id := 1; Doubles.amount := Doubles.decimal 75000 0 |} in
  let db := snd (Doubles.subscribe_to_fund (quiet "t1" 10) alice r Doubles.new_account) in
  let c := {| cancel_fund_id := 1 |} in
  Doubles.registry_ok db /\
  exists resp db',
    Doubles.cancel_subscription (quiet "t2" 20) alice c db = (inr resp, db') /\
    Doubles.balance_of (user_id alice) db' = Some (Doubles.float_of_Z 500000) /\
    exists before s t,
      Doubles.balance_of (user_id alice) db = Some before /\
      find_one (Doubles.active_subscription_filter (user_id alice) (cancel_fund_id c))
               (Doubles.user_subscriptions db) = Some s /\
      Doubles.balance_of (user_id alice) db'
        = Some (Doubles.float_add before (Doubles.sub_amount s)) /\
      Doubles.resp_balance_after resp
        = Doubles.str_float (Doubles.float_add before (Doubles.sub_amount s)) /\
      Doubles.active_subscriptions_to (user_id alice) (cancel_fund_id c) db' = [] /\
      Doubles.transactions db' = Doubles.transactions db ++ [t] /\
      Doubles.transaction_type t = CANCELLATION /\
      Doubles.txn_user_id t = user_id alice /\
      Doubles.txn_fund_id t = cancel_fund_id c /\
      Doubles.txn_amount t = Doubles.sub_amount s /\
      Doubles.balance_before t = before /\
      Doubles.balance_after t = Doubles.float_add before (Doubles.sub_amount s).
Proof.
  intros r db c.
  assert (Hok : Doubles.registry_ok db).
  { split; vm_compute; repeat constructor; simpl; tauto. }
  split; [exact Hok|].
  eexists. eexists.
  split; [vm_compute; reflexivity|].
  split; [vm_compute; reflexivity|].
  apply (cancel_stores_float_sum (quiet "t2" 20) alice c db); [exact Hok|].
  vm_compute. reflexivity.
Defined.
